(** * DayZ AutomationZ Scheduler: the scheduling-and-execution engine

    A shallow embedding of [src/app/main.py]: the remote-path helpers
    ([norm_remote]), the task runner ([App._run_upload_for_task]) and the
    scheduler loop ([App._tick], [App._check_tasks]), followed by the
    properties of the engine.

    Python strings are modelled as Rocq strings (byte strings; every
    character the code inspects, slash and backslash, is ASCII).  Task
    records are JSON objects read with [dict.get], so they are modelled
    as finite maps from keys to dynamically typed JSON values; profiles
    and mappings are dataclasses and are modelled as records. *)

From Stdlib Require Import ZArith String Ascii List Bool Lia.
From stdpp Require Import base option list gmap strings pretty.

Local Open Scope string_scope.
Local Open Scope list_scope.
Local Open Scope Z_scope.

Set Warnings "-register-all".

(** ** Python string primitives used by the source *)

Module PyStr.

(** [s.replace(old, new)] for one-character [old] and [new]. *)
Fixpoint replace_char (old new : ascii) (s : string) : string :=
  match s with
  | EmptyString => EmptyString
  | String c s' =>
      String (if Ascii.eqb c old then new else c) (replace_char old new s')
  end.

(** [s.lstrip(c)] for a one-character strip set. *)
Fixpoint lstrip (c : ascii) (s : string) : string :=
  match s with
  | EmptyString => EmptyString
  | String d s' => if Ascii.eqb d c then lstrip c s' else s
  end.

(** [s.rstrip(c)] for a one-character strip set. *)
Fixpoint rstrip (c : ascii) (s : string) : string :=
  match s with
  | EmptyString => EmptyString
  | String d s' =>
      match rstrip c s' with
      | EmptyString => if Ascii.eqb d c then EmptyString else String d EmptyString
      | r => String d r
      end
  end.

(** [s.strip(c)]. *)
Definition strip (c : ascii) (s : string) : string := lstrip c (rstrip c s).

(** [sub in s] on strings: substring test. *)
Fixpoint contains (sub s : string) : bool :=
  String.prefix sub s ||
  match s with
  | EmptyString => false
  | String _ s' => contains sub s'
  end.

(** ["\n".join(l)]. *)
Fixpoint join (sep : string) (l : list string) : string :=
  match l with
  | [] => EmptyString
  | [x] => x
  | x :: rest => x +:+ sep +:+ join sep rest
  end.

(** The one-character strings of [s], as iterating a [str] yields them
    (one per byte in this model). *)
Fixpoint chars (s : string) : list string :=
  match s with
  | EmptyString => []
  | String c s' => String c EmptyString :: chars s'
  end.

End PyStr.

(** ** Remote path construction *)

(** [def norm_remote(path): return path.replace("\\", "/").lstrip("/")] *)
Definition norm_remote (path : string) : string :=
  PyStr.lstrip "/" (PyStr.replace_char "\" "/" path).

(** [p.root or "/"]: the empty string is falsy. *)
Definition root_or_slash (root : string) : string :=
  match root with EmptyString => "/" | _ => root end.

(** ["/" + (root.rstrip("/") + "/" + norm_remote(m.remote_path)).strip("/")]
    where [root = norm_remote(p.root or "/")]. *)
Definition remote_full (p_root remote_path : string) : string :=
  let root := norm_remote (root_or_slash p_root) in
  "/" +:+ PyStr.strip "/" (PyStr.rstrip "/" root +:+ "/" +:+ norm_remote remote_path).


(** ** Data model *)

(** JSON values, as [json.load] produces them.  Floating-point numbers are
    outside the model. *)
Inductive JVal : Type :=
  | JNull
  | JBool (b : bool)
  | JInt (z : Z)
  | JStr (s : string)
  | JList (l : list JVal)
  | JObj (kvs : list (string * JVal)).

(** A task is a plain [dict] taken from [tasks.json]. *)
Abbreviation Task := (gmap string JVal).

(** [@dataclass class Profile] *)
Record Profile : Type := {
  p_name : string;
  p_host : string;
  p_port : Z;
  p_username : string;
  p_password : string;
  p_tls : bool;
  p_root : string;
}.

(** [@dataclass class Mapping] *)
Record Mapping : Type := {
  m_name : string;
  m_enabled : bool;
  m_local_relpath : string;
  m_remote_path : string;
  m_backup_before_overwrite : bool;
}.

(** Exceptions (all subclasses of [Exception]).  The first three are raised
    by Python's own operators on ill-typed values; [ExtError] stands for an
    error raised by an external collaborator (file system, FTP library). *)
Inductive Exn : Type :=
  | TypeError
  | ValueError
  | AttributeError
  | ExtError (what : string).

Inductive Level : Type := INFO | WARN | ERROR.

(** What the engine does to the outside world, in order. *)
Inductive Event : Type :=
  | ELog (lvl : Level) (msg : string)      (* Logger.log *)
  | EConnect (p : Profile) (timeout : Z)   (* FTPClient.connect *)
  | EDownload (remote_full bpath : string) (ok : bool) (* FTPClient.download and its result *)
  | EUpload (local_file remote_full : string) (* FTPClient.upload *)
  | EQuit                                  (* FTPClient.close on an open connection *)
  | ESave (snapshot : list Task)           (* save_tasks *)
  | EAfter (ms : Z).                       (* Tk.after: the next tick is scheduled *)

(** ** Python's dynamic operators on JSON values *)

Module Py.

(** Truth value of a value ([not v], [v or d], [bool(v)]). *)
Definition truthy (v : JVal) : bool :=
  match v with
  | JNull => false
  | JBool b => b
  | JInt z => negb (z =? 0)
  | JStr s => negb (String.eqb s EmptyString)
  | JList l => match l with [] => false | _ => true end
  | JObj kvs => match kvs with [] => false | _ => true end
  end.

(** [d.get(key, dflt)] *)
Definition get (d : Task) (key : string) (dflt : JVal) : JVal :=
  default dflt (d !! key).

(** [d.get(key)]: the default is [None]. *)
Definition get_none (d : Task) (key : string) : JVal := get d key JNull.

(** [v or d] *)
Definition or_else (v d : JVal) : JVal := if truthy v then v else d.

(** [v == s] for a string [s]. *)
Definition eq_str (v : JVal) (s : string) : bool :=
  match v with JStr x => String.eqb x s | _ => false end.

(** [s in v] for a string [s]: membership in a list, substring of a
    string, key of a dict; a [TypeError] on anything else. *)
Definition contains (v : JVal) (s : string) : Exn + bool :=
  match v with
  | JList l => inr (existsb (fun x => eq_str x s) l)
  | JStr x => inr (PyStr.contains s x)
  | JObj kvs => inr (existsb (fun kv => String.eqb (fst kv) s) kvs)
  | JNull | JBool _ | JInt _ => inl TypeError
  end.

(** [int(v)], given the conversion [int_of_str] of strings. *)
Definition int (int_of_str : string -> option Z) (v : JVal) : Exn + Z :=
  match v with
  | JInt z => inr z
  | JBool b => inr (if b then 1 else 0)
  | JStr s => match int_of_str s with Some z => inr z | None => inl ValueError end
  | JNull | JList _ | JObj _ => inl TypeError
  end.

(** [v.strip()]: only strings have the method. *)
Definition strip (str_strip : string -> string) (v : JVal) : Exn + string :=
  match v with
  | JStr s => inr (str_strip s)
  | _ => inl AttributeError
  end.

Definition hashable (v : JVal) : bool :=
  match v with JList _ | JObj _ => false | _ => true end.

Definition as_str (v : JVal) : option string :=
  match v with JStr s => Some s | _ => None end.

(** [set(v)], restricted to its string members (the only members a
    string can be equal to): the elements of a list when all are
    hashable, the characters of a string, the keys of a dict. *)
Definition set_of (v : JVal) : Exn + gset string :=
  match v with
  | JList l =>
      if forallb hashable l then inr (list_to_set (omap as_str l)) else inl TypeError
  | JStr s => inr (list_to_set (PyStr.chars s))
  | JObj kvs => inr (list_to_set (map fst kvs))
  | JNull | JBool _ | JInt _ => inl TypeError
  end.

End Py.

(** ** The clock *)

(** The fields of [datetime.datetime.now()] the scheduler reads. *)
Record DateTime : Type := {
  year : Z; month : Z; day : Z; hour : Z; minute : Z; second : Z;
}.

Module Clock.

(** The ranges [datetime] guarantees (years of four digits). *)
Definition valid (now : DateTime) : bool :=
  (1000 <=? year now) && (year now <=? 9999) &&
  (1 <=? month now) && (month now <=? 12) &&
  (1 <=? day now) && (day now <=? 31) &&
  (0 <=? hour now) && (hour now <=? 23) &&
  (0 <=? minute now) && (minute now <=? 59) &&
  (0 <=? second now) && (second now <=? 59).

Definition is_leap (y : Z) : bool :=
  (y mod 4 =? 0) && (negb (y mod 100 =? 0) || (y mod 400 =? 0)).

Definition days_before_year (y : Z) : Z :=
  let y := y - 1 in y * 365 + y / 4 - y / 100 + y / 400.

Definition days_before_month (y m : Z) : Z :=
  nth (Z.to_nat m) [-1; 0; 31; 59; 90; 120; 151; 181; 212; 243; 273; 304; 334] 0
  + (if (2 <? m) && is_leap y then 1 else 0).

Definition toordinal (now : DateTime) : Z :=
  days_before_year (year now) + days_before_month (year now) (month now) + day now.

(** [now.weekday()]: Monday is 0. *)
Definition weekday (now : DateTime) : Z := (toordinal now + 6) mod 7.

Definition days_map : list string := ["Mon"; "Tue"; "Wed"; "Thu"; "Fri"; "Sat"; "Sun"].

(** [days_map[now.weekday()]] *)
Definition today (now : DateTime) : string :=
  nth (Z.to_nat (weekday now)) days_map EmptyString.

(** Two-digit, zero-padded decimal ([%m], [%d], [%H], [%M]). *)
Definition pad2 (z : Z) : string :=
  if z <? 10 then "0" +:+ pretty z else pretty z.

(** [now.strftime("%H:%M")] *)
Definition hhmm (now : DateTime) : string :=
  pad2 (hour now) +:+ ":" +:+ pad2 (minute now).

(** [now.strftime("%Y-%m-%d %H:%M")], for a year of four digits. *)
Definition stamp_minute (now : DateTime) : string :=
  pretty (year now) +:+ "-" +:+ pad2 (month now) +:+ "-" +:+ pad2 (day now)
  +:+ " " +:+ hhmm now.

End Clock.

(** ** The world the engine runs in *)

(** External collaborators: Python built-ins on strings, [pathlib] and the
    file system, the wall clock, the FTP server and the persistence hook.
    The outcome of an operation may depend on everything that happened
    before it, so each oracle reads the trace of events so far. *)
Record Platform : Type := {
  str_strip : string -> string;                 (* str.strip() *)
  int_of_str : string -> option Z;              (* int(s); None is ValueError *)
  py_str : JVal -> string;                      (* a value formatted in an f-string *)
  str_exn : Exn -> string;                      (* str(e) *)
  format_exc : Exn -> string;                   (* traceback.format_exc() *)
  path_join : string -> string -> string;       (* pathlib: a / b *)
  path_exists : string -> bool;                 (* pathlib: p.exists() *)
  now_stamp : list Event -> string;             (* now_stamp() *)
  ftp_connect : list Event -> Profile -> Z -> option Exn;
  ftp_retr : list Event -> string -> string -> bool;
  ftp_stor : list Event -> string -> string -> option Exn;
  save_json : list Event -> list Task -> option Exn;
}.

(** The application's configuration, fixed while a tick runs. *)
Record Config : Type := {
  profiles : list Profile;
  mappings : list Mapping;
  presets_dir : string;
  logs_dir : string;      (* LOGS_DIR *)
  timeout : Z;
  tick_seconds : Z;
}.

(** The mutable state: the events so far, the task list [tasks_obj["tasks"]]
    and the [ftp] attribute of the current [FTPClient] ([None] or open). *)
Record World : Type := {
  trace : list Event;
  tasks : list Task;
  cli_ftp : bool;
}.

(** Computations that read and change the world and may raise. *)
Definition M (A : Type) : Type := World -> (Exn + A) * World.

Definition ret {A} (a : A) : M A := fun w => (inr a, w).

Definition raise {A} (e : Exn) : M A := fun w => (inl e, w).

Definition bind {A B} (c : M A) (k : A -> M B) : M B :=
  fun w =>
    match c w with
    | (inl e, w') => (inl e, w')
    | (inr a, w') => k a w'
    end.

Notation "'do' x <- c ; k" := (bind c (fun x => k))
  (at level 10, x name, c at level 100, k at level 200).
Notation "c1 ;; c2" := (bind c1 (fun _ => c2))
  (at level 100, c2 at level 200, right associativity).

(** A pure operation that may raise. *)
Definition lift {A} (r : Exn + A) : M A :=
  match r with inl e => raise e | inr a => ret a end.

(** [try: body except Exception as e: handler(e)] *)
Definition try_except {A} (body : M A) (handler : Exn -> M A) : M A :=
  fun w =>
    match body w with
    | (inl e, w') => handler e w'
    | (inr a, w') => (inr a, w')
    end.

(** [try: body finally: fin], for a [fin] that does not raise. *)
Definition try_finally {A} (body : M A) (fin : World -> World) : M A :=
  fun w => let '(r, w') := body w in (r, fin w').

Definition emit (e : Event) : M unit :=
  fun w => (inr tt, {| trace := trace w ++ [e]; tasks := tasks w; cli_ftp := cli_ftp w |}).

(** [Logger.log]; writing the line to the log file and the widget is taken
    to succeed. *)
Definition log (lvl : Level) (msg : string) : M unit := emit (ELog lvl msg).

(** [for x in l: body(x)] *)
Fixpoint for_each {A} (l : list A) (body : A -> M unit) : M unit :=
  match l with
  | [] => ret tt
  | x :: rest => body x ;; for_each rest body
  end.

(** ** FTPClient *)

Section Engine.

Variable P : Platform.
Variable cfg : Config.

(** [FTPClient.__init__]: [self.ftp = None] *)
Definition cli_new : M unit :=
  fun w => (inr tt, {| trace := trace w; tasks := tasks w; cli_ftp := false |}).

(** [FTPClient.connect]: on success [self.ftp] is set. *)
Definition cli_connect (p : Profile) : M unit :=
  fun w =>
    let w1 := {| trace := trace w ++ [EConnect p (timeout cfg)];
                 tasks := tasks w; cli_ftp := cli_ftp w |} in
    match ftp_connect P (trace w) p (timeout cfg) with
    | Some e => (inl e, w1)
    | None => (inr tt, {| trace := trace w1; tasks := tasks w1; cli_ftp := true |})
    end.

(** [FTPClient.close]: quits an open connection, swallows every error,
    and resets [self.ftp]. *)
Definition cli_close (w : World) : World :=
  {| trace := if cli_ftp w then trace w ++ [EQuit] else trace w;
     tasks := tasks w; cli_ftp := false |}.

(** [FTPClient.download]: every exception becomes [False]. *)
Definition cli_download (remote bpath : string) : M bool :=
  fun w =>
    let ok := ftp_retr P (trace w) remote bpath in
    bind (emit (EDownload remote bpath ok)) (fun _ => ret ok) w.

(** [FTPClient.upload] *)
Definition cli_upload (local_file remote : string) : M unit :=
  fun w => bind (emit (EUpload local_file remote))
                (fun _ => match ftp_stor P (trace w) local_file remote with
                          | Some e => raise e
                          | None => ret tt
                          end) w.

(** ** Mapping resolution *)

(** [[m for m in self.mappings if (m.name in selected_names)]
     if mode == "selected" else [m for m in self.mappings if m.enabled]] *)
Definition use_mappings (mode : string) (selected_names : gset string)
    (all : list Mapping) : list Mapping :=
  if String.eqb mode "selected"
  then List.filter (fun m => bool_decide (m_name m ∈ selected_names)) all
  else List.filter (fun m => m_enabled m) all.

(** ** TaskRunner: [App._run_upload_for_task] *)

(** ["/" + (root.rstrip("/") + "/" + norm_remote(m.remote_path)).strip("/")] *)
Definition join_remote (root remote_path : string) : string :=
  "/" +:+ PyStr.strip "/" (PyStr.rstrip "/" root +:+ "/" +:+ norm_remote remote_path).

(** [(task.get(key, dflt) or dflt).strip()] *)
Definition task_str (task : Task) (key dflt : string) : Exn + string :=
  Py.strip (str_strip P) (Py.or_else (Py.get task key (JStr dflt)) (JStr dflt)).

Definition local_file_of (preset_dir : string) (m : Mapping) : string :=
  path_join P preset_dir (m_local_relpath m).

(** One round of the dry-run loop. *)
Definition dry_one (preset_dir root : string) (m : Mapping) : M unit :=
  let local_file := local_file_of preset_dir m in
  let remote_full := join_remote root (m_remote_path m) in
  log INFO ("[TASK][DRY] Would upload: " +:+ local_file +:+ " -> " +:+ remote_full).

(** [LOGS_DIR / "backups" / p.name / preset_name / now_stamp()] and then
    [bdir / m.local_relpath]. *)
Definition backup_path (p : Profile) (preset_name stamp : string) (m : Mapping) : string :=
  let bdir :=
    path_join P (path_join P (path_join P (path_join P (logs_dir cfg) "backups")
                                          (p_name p)) preset_name) stamp in
  path_join P bdir (m_local_relpath m).

(** One round of the upload loop. *)
Definition upload_one (p : Profile) (preset_name preset_dir root : string)
    (m : Mapping) : M unit :=
  let local_file := local_file_of preset_dir m in
  let remote_full := join_remote root (m_remote_path m) in
  (if m_backup_before_overwrite m then
     do bpath <- (fun w => ret (backup_path p preset_name (now_stamp P (trace w)) m) w);
     do ok <- cli_download remote_full bpath;
     if ok
     then log INFO ("[TASK] Backup OK: " +:+ remote_full +:+ " -> " +:+ bpath)
     else log WARN ("[TASK] Backup skipped/failed: " +:+ remote_full)
   else ret tt);;
  cli_upload local_file remote_full;;
  log INFO ("[TASK] Uploaded: " +:+ local_file +:+ " -> " +:+ remote_full).

(** The [try] block of the runner. *)
Definition transfer (p : Profile) (preset_name preset_dir root : string)
    (use : list Mapping) (dry_run : bool) : M bool :=
  if dry_run then
    for_each use (dry_one preset_dir root);;
    ret true
  else
    cli_connect p;;
    for_each use (upload_one p preset_name preset_dir root);;
    ret true.

(** The [except Exception as e] block of the runner. *)
Definition upload_failed (e : Exn) : M bool :=
  log ERROR ("[TASK] Upload failed: " +:+ str_exn P e);;
  log ERROR (format_exc P e);;
  ret false.

Definition missing_files (preset_dir : string) (use : list Mapping) : list string :=
  map m_local_relpath
      (List.filter (fun m => negb (path_exists P (local_file_of preset_dir m))) use).

Definition _run_upload_for_task (task : Task) (dry_run : bool) : M bool :=
  do profile_name <- lift (task_str task "profile" EmptyString);
  do preset_name <- lift (task_str task "preset" EmptyString);
  do mode <- lift (task_str task "mapping_mode" "enabled");
  do selected_names <-
    lift (Py.set_of (Py.or_else (Py.get task "mappings" (JList [])) (JList [])));
  match List.find (fun x => String.eqb (p_name x) profile_name) (profiles cfg) with
  | None =>
      log ERROR ("[TASK] Profile not found: " +:+ profile_name);;
      ret false
  | Some p =>
      let preset_dir := path_join P (presets_dir cfg) preset_name in
      if negb (path_exists P preset_dir) then
        log ERROR ("[TASK] Preset not found: " +:+ preset_dir);;
        ret false
      else
        let use := use_mappings mode selected_names (mappings cfg) in
        match use with
        | [] =>
            log ERROR "[TASK] No mappings to run (check enabled/selected).";;
            ret false
        | _ :: _ =>
            match missing_files preset_dir use with
            | (_ :: _) as missing =>
                log ERROR ("[TASK] Missing files in preset:" +:+ String "010" EmptyString
                           +:+ PyStr.join (String "010" EmptyString) missing);;
                ret false
            | [] =>
                let root := norm_remote (root_or_slash (p_root p)) in
                cli_new;;
                try_finally
                  (try_except (transfer p preset_name preset_dir root use dry_run)
                              upload_failed)
                  cli_close
            end
        end
  end.

End Engine.

(** ** Scheduler: [App._check_tasks] and [App._tick] *)

Section Scheduler.

Variable P : Platform.
Variable cfg : Config.

(** [int(t.get("hour", -1)) != now.hour or int(t.get("minute", -1)) != now.minute],
    with the short-circuit of [or]. *)
Definition time_differs (t : Task) (now : DateTime) : Exn + bool :=
  match Py.int (int_of_str P) (Py.get t "hour" (JInt (-1))) with
  | inl e => inl e
  | inr h =>
      if negb (h =? hour now) then inr true
      else
        match Py.int (int_of_str P) (Py.get t "minute" (JInt (-1))) with
        | inl e => inl e
        | inr m => inr (negb (m =? minute now))
        end
  end.

(** [(t.get("last_run") or "") == stamp_minute] *)
Definition already_ran (t : Task) (stamp_minute : string) : bool :=
  Py.eq_str (Py.or_else (Py.get_none t "last_run") (JStr EmptyString)) stamp_minute.

(** [t["last_run"] = stamp_minute], where [t] is the dict stored at
    index [i] of the task list. *)
Definition set_last_run (i : nat) (stamp_minute : string) : M unit :=
  fun w =>
    (inr tt, {| trace := trace w;
                tasks := alter (insert "last_run" (JStr stamp_minute)) i (tasks w);
                cli_ftp := cli_ftp w |}).

(** [save_tasks(self.tasks_obj)] *)
Definition save_tasks : M unit :=
  fun w =>
    bind (emit (ESave (tasks w)))
         (fun _ => match save_json P (trace w) (tasks w) with
                   | Some e => raise e
                   | None => ret tt
                   end) w.

(** The body of the [for t in ...] loop, for the dict [t] stored at index [i]. *)
Definition loop_body (now : DateTime) (i : nat) (t : Task) : M unit :=
  let today := Clock.today now in
  let stamp_minute := Clock.stamp_minute now in
  if negb (Py.truthy (Py.get t "enabled" (JBool true))) then ret tt
  else
    do listed <- lift (Py.contains (Py.get t "days" (JList [])) today);
    if negb listed then ret tt
    else
      match time_differs t now with
      | inl _ => ret tt
      | inr true => ret tt
      | inr false =>
          if already_ran t stamp_minute then ret tt
          else
            let name := py_str P (Py.get t "name" (JStr "Task")) in
            let dry := Py.truthy (Py.get t "dry_run" (JBool false)) in
            log INFO ("[TASK] Trigger: " +:+ name +:+ " (" +:+ today +:+ " "
                      +:+ Clock.hhmm now +:+ ")");;
            do ok <- _run_upload_for_task P cfg t dry;
            if ok then
              set_last_run i stamp_minute;;
              save_tasks;;
              log INFO ("[TASK] Completed: " +:+ name)
            else
              log WARN ("[TASK] Failed: " +:+ name)
      end.

(** One iteration: the loop variable is the dict at index [i] of the
    stored list. *)
Definition check_task (now : DateTime) (i : nat) : M unit :=
  fun w =>
    match tasks w !! i with
    | Some t => loop_body now i t w
    | None => (inr tt, w)
    end.

(** [App._check_tasks], with [now = datetime.datetime.now()]. *)
Definition _check_tasks (now : DateTime) : M unit :=
  fun w => for_each (seq 0 (length (tasks w))) (check_task now) w.

(** The [except Exception as e] block of [_tick]. *)
Definition scheduler_error (e : Exn) : M unit :=
  log ERROR ("Scheduler error: " +:+ str_exn P e);;
  log ERROR (format_exc P e).

(** [App._tick]: never raises; ends by scheduling the next tick. *)
Definition _tick (scheduler_running : bool) (now : DateTime) (w : World) : World :=
  let body := if scheduler_running then _check_tasks now else ret tt in
  let w1 := snd (try_except body scheduler_error w) in
  snd (emit (EAfter (Z.max 1000 (tick_seconds cfg * 1000))) w1).

End Scheduler.

(** * Vocabulary of the properties *)

(** ** Shape of strings *)

Module Shape.

Definition starts_with (c : ascii) (s : string) : bool :=
  match s with String d _ => Ascii.eqb d c | EmptyString => false end.




End Shape.

(** ** Observations on traces and tasks *)

Definition is_connect (e : Event) : bool :=
  match e with EConnect _ _ => true | _ => false end.

Definition is_upload (e : Event) : bool :=
  match e with EUpload _ _ => true | _ => false end.

Definition is_save (e : Event) : bool :=
  match e with ESave _ => true | _ => false end.

(** The world after one more log line. *)
Definition logged (w : World) (lvl : Level) (msg : string) : World :=
  {| trace := trace w ++ [ELog lvl msg]; tasks := tasks w; cli_ftp := cli_ftp w |}.

(** The world after more events, the client left closed. *)
Definition extended (w : World) (evs : list Event) : World :=
  {| trace := trace w ++ evs; tasks := tasks w; cli_ftp := false |}.

Section Vocabulary.

Variable P : Platform.
Variable cfg : Config.

(** The four fields the runner reads from the task record, read without
    an exception. *)
Definition reads (task : Task) (profile_name preset_name mode : string)
    (selected_names : gset string) : Prop :=
  task_str P task "profile" EmptyString = inr profile_name
  /\ task_str P task "preset" EmptyString = inr preset_name
  /\ task_str P task "mapping_mode" "enabled" = inr mode
  /\ Py.set_of (Py.or_else (Py.get task "mappings" (JList [])) (JList []))
     = inr selected_names.

(** The task passes every guard of the scheduler loop at [now]. *)
Definition due (t : Task) (now : DateTime) : bool :=
  Py.truthy (Py.get t "enabled" (JBool true))
  && match Py.contains (Py.get t "days" (JList [])) (Clock.today now) with
     | inr listed => listed
     | inl _ => false
     end
  && match time_differs P t now with
     | inr differs => negb differs
     | inl _ => false
     end
  && negb (already_ran t (Clock.stamp_minute now)).

(** The trigger line of the scheduler for task [t]. *)
Definition trigger_line (t : Task) (now : DateTime) : string :=
  "[TASK] Trigger: " +:+ py_str P (Py.get t "name" (JStr "Task")) +:+ " ("
  +:+ Clock.today now +:+ " " +:+ Clock.hhmm now +:+ ")".

(** The would-upload line of a dry run for mapping [m]. *)
Definition would_upload (p : Profile) (preset_dir : string) (m : Mapping) : Event :=
  ELog INFO ("[TASK][DRY] Would upload: " +:+ local_file_of P preset_dir m +:+ " -> "
             +:+ remote_full (p_root p) (m_remote_path m)).

(** What the upload loop does for mapping [m] when the backup download,
    if any, wrote to [bpath] and returned [ok]. *)
Definition upload_block (p : Profile) (preset_dir : string) (m : Mapping)
    (outcome : bool * string) : list Event :=
  let remote := remote_full (p_root p) (m_remote_path m) in
  let local_file := local_file_of P preset_dir m in
  (if m_backup_before_overwrite m then
     [EDownload remote (snd outcome) (fst outcome);
      if fst outcome
      then ELog INFO ("[TASK] Backup OK: " +:+ remote +:+ " -> " +:+ snd outcome)
      else ELog WARN ("[TASK] Backup skipped/failed: " +:+ remote)]
   else [])
  ++ [EUpload local_file remote;
      ELog INFO ("[TASK] Uploaded: " +:+ local_file +:+ " -> " +:+ remote)].

(** The [hour] or [minute] field is missing or cannot be converted. *)
Definition bad_time (t : Task) : Prop :=
  t !! "hour" = None
  \/ t !! "minute" = None
  \/ (exists v e, t !! "hour" = Some v /\ Py.int (int_of_str P) v = inl e)
  \/ (exists v e, t !! "minute" = Some v /\ Py.int (int_of_str P) v = inl e).

(** The world after [t["last_run"] = stamp_minute] on the task at index
    [i] and the call of [save_tasks]. *)
Definition stamped_world (i : nat) (stamp_minute : string) (w1 : World) : World :=
  {| trace := trace w1
              ++ [ESave (alter (insert "last_run" (JStr stamp_minute)) i (tasks w1))];
     tasks := alter (insert "last_run" (JStr stamp_minute)) i (tasks w1);
     cli_ftp := cli_ftp w1 |}.

End Vocabulary.

(** [c] relates every world it starts in to the world it ends in by [R],
    whether it returns or raises. *)
Definition preserves {A} (R : World -> World -> Prop) (c : M A) : Prop :=
  forall w r w', c w = (r, w') -> R w w'.

(** The run leaves the task list alone and saves nothing. *)
Definition run_frame (w w' : World) : Prop :=
  tasks w' = tasks w
  /\ exists evs : list Event,
       trace w' = (trace w ++ evs)%list /\ List.filter is_save evs = [].

(** The task at index [i] is left alone. *)
Definition keeps (i : nat) (w w' : World) : Prop := tasks w' !! i = tasks w !! i.

(** Every task is left alone or has its [last_run] set to [stamp]. *)
Definition stamps_only (stamp : string) (w w' : World) : Prop :=
  forall i t, tasks w !! i = Some t ->
    tasks w' !! i = Some t \/ tasks w' !! i = Some (<["last_run" := JStr stamp]> t).

(** Once the task at index [i] is [t], it stays [t]. *)
Definition stays (i : nat) (t : Task) (w w' : World) : Prop :=
  tasks w !! i = Some t -> tasks w' !! i = Some t.

(** The same minute of the same day; only the seconds may differ. *)
Definition same_minute (now now' : DateTime) : Prop :=
  year now' = year now /\ month now' = month now /\ day now' = day now
  /\ hour now' = hour now /\ minute now' = minute now.

Definition logs_of (evs : list Event) : list (Level * string) :=
  omap (fun e => match e with ELog lvl msg => Some (lvl, msg) | _ => None end) evs.

(** The shape [YYYY-MM-DD HH:MM]. *)
Definition is_digit (c : ascii) : bool :=
  (48 <=? nat_of_ascii c)%nat && (nat_of_ascii c <=? 57)%nat.

Definition stamp_shaped (s : string) : bool :=
  match list_ascii_of_string s with
  | [y1; y2; y3; y4; s1; m1; m2; s2; d1; d2; s3; h1; h2; s4; n1; n2] =>
      forallb is_digit [y1; y2; y3; y4; m1; m2; d1; d2; h1; h2; n1; n2]
      && Ascii.eqb s1 "-" && Ascii.eqb s2 "-" && Ascii.eqb s3 " " && Ascii.eqb s4 ":"
  | _ => false
  end.

(** ** A concrete installation, for the examples *)

Module Demo.

Definition digit (c : ascii) : option Z :=
  let n := Z.of_nat (nat_of_ascii c) in
  if (48 <=? n) && (n <=? 57) then Some (n - 48) else None.

Fixpoint digits (acc : Z) (s : string) : option Z :=
  match s with
  | EmptyString => Some acc
  | String c s' =>
      match digit c with
      | Some d => digits (10 * acc + d) s'
      | None => None
      end
  end.

(** Decimal numerals only. *)
Definition int_of_digits (s : string) : option Z :=
  match s with EmptyString => None | _ => digits 0 s end.

Definition show (v : JVal) : string :=
  match v with JStr s => s | _ => "<value>" end.

Definition describe (e : Exn) : string :=
  match e with
  | TypeError => "TypeError"
  | ValueError => "ValueError"
  | AttributeError => "AttributeError"
  | ExtError what => what
  end.

Definition on_disk : list string :=
  ["/presets/pvp"; "/presets/pvp/cfg/loot.xml"; "/presets/pvp/cfg/types.xml"].

(** A platform whose FTP server accepts every connection and upload and
    has no file to back up, and whose disk takes every save. *)
Definition platform : Platform := {|
  str_strip := PyStr.strip " ";
  int_of_str := int_of_digits;
  py_str := show;
  str_exn := describe;
  format_exc := fun e => "Traceback: " +:+ describe e;
  path_join := fun a b => a +:+ "/" +:+ b;
  path_exists := fun p => existsb (String.eqb p) on_disk;
  now_stamp := fun _ => "20261103_090012";
  ftp_connect := fun _ _ _ => None;
  ftp_retr := fun _ _ _ => false;
  ftp_stor := fun _ _ _ => None;
  save_json := fun _ _ => None;
|}.


Definition main_profile : Profile := {|
  p_name := "main"; p_host := "ftp.example.org"; p_port := 21;
  p_username := "dayz"; p_password := "secret"; p_tls := false;
  p_root := "/dayzstandalone/";
|}.

Definition loot : Mapping := {|
  m_name := "loot"; m_enabled := true; m_local_relpath := "cfg/loot.xml";
  m_remote_path := "\configs\loot.xml"; m_backup_before_overwrite := true;
|}.

Definition types : Mapping := {|
  m_name := "types"; m_enabled := true; m_local_relpath := "cfg/types.xml";
  m_remote_path := "configs/types.xml"; m_backup_before_overwrite := false;
|}.

Definition events : Mapping := {|
  m_name := "events"; m_enabled := false; m_local_relpath := "cfg/events.xml";
  m_remote_path := "configs/events.xml"; m_backup_before_overwrite := true;
|}.

Definition cfg : Config := {|
  profiles := [main_profile];
  mappings := [loot; types; events];
  presets_dir := "/presets";
  logs_dir := "/logs";
  timeout := 20;
  tick_seconds := 20;
|}.

(** A task record as [task_new] and [task_save] write it. *)
Definition task (name : string) (enabled dry_run : bool) (mode : string)
    (selected : list string) (last_run : string) : Task :=
  list_to_map
    [("name", JStr name); ("enabled", JBool enabled); ("profile", JStr "main");
     ("preset", JStr "pvp"); ("days", JList [JStr "Tue"; JStr "Sat"]);
     ("hour", JInt 9); ("minute", JInt 0); ("dry_run", JBool dry_run);
     ("mapping_mode", JStr mode); ("mappings", JList (JStr <$> selected));
     ("last_run", JStr last_run)].

(** Tuesday 3 November 2026, 09:00:12. *)
Definition now : DateTime :=
  {| year := 2026; month := 11; day := 3; hour := 9; minute := 0; second := 12 |}.

(** Later in the same minute. *)
Definition now' : DateTime :=
  {| year := 2026; month := 11; day := 3; hour := 9; minute := 0; second := 47 |}.

Definition world (ts : list Task) : World :=
  {| trace := []; tasks := ts; cli_ftp := false |}.

End Demo.


(** ** More observations on a tick *)

(** The trace is only extended and the number of tasks stays. *)
Definition grows (w w' : World) : Prop :=
  (exists evs : list Event, trace w' = trace w ++ evs)
  /\ length (tasks w') = length (tasks w).

(** The task list last handed to [save_tasks]. *)
Definition last_save (evs : list Event) : option (list Task) :=
  last (omap (fun e => match e with ESave snapshot => Some snapshot | _ => None end) evs).

(** Nothing changed in the task list and nothing was saved, or the last
    save was given the task list as it now stands. *)
Definition saved_or_same (w w' : World) : Prop :=
  (tasks w' = tasks w /\ last_save (trace w') = last_save (trace w))
  \/ last_save (trace w') = Some (tasks w').


(** An event that schedules a tick. *)
Definition is_after (e : Event) : bool :=
  match e with EAfter _ => true | _ => false end.

(** The trace is extended by events none of which schedules a tick. *)
Definition schedules_nothing (w w' : World) : Prop :=
  exists evs : list Event, trace w' = trace w ++ evs /\ List.filter is_after evs = [].

(** ** Time stamps of seconds *)

(** [now_stamp()]: [now.strftime("%Y%m%d_%H%M%S")] of the clock's [now], for
    a year of four digits. *)
Definition now_stamp_at (now : DateTime) : string :=
  pretty (year now) +:+ Clock.pad2 (month now) +:+ Clock.pad2 (day now) +:+ "_"
  +:+ Clock.pad2 (hour now) +:+ Clock.pad2 (minute now) +:+ Clock.pad2 (second now).


(** ** The Tasks tab: listing, creating, saving, deleting and running *)

(** A message box shown to the operator. *)
Inductive Dialog : Type :=
  | ShowWarning (title message : string)
  | ShowError (title message : string)
  | ShowInfo (title message : string).

(** The variables of the task form, as their [get()] returns them: the
    check boxes of the seven days as the set of the days checked, the
    selection of the mapping list box as the indices selected. *)
Record TaskForm : Type := {
  tv_name : string;
  tv_enabled : bool;
  tv_profile : string;
  tv_preset : string;
  tv_hour : string;
  tv_minute : string;
  tv_dry : bool;
  tv_mode : string;
  days_vars : gset string;
  mapping_selection : list nat;
}.

(** The state of the Tasks tab: the lines of the task list box, the index
    of the selected task and the form. *)
Record Ui : Type := {
  lst_tasks : list string;
  selected_task_idx : option nat;
  form : TaskForm;
}.

(** [IndexError], for which [Exn] has no constructor of its own. *)
Definition IndexError : Exn := ExtError "IndexError".

Module Listing.

(** The keys of a dict in the order of their first occurrence. *)
Fixpoint keys_in_order (ks : list string) : list string :=
  match ks with
  | [] => []
  | k :: rest =>
      k :: List.filter (fun k' => negb (String.eqb k' k)) (keys_in_order rest)
  end.

(** The strings of a list of values, if they all are strings. *)
Fixpoint all_str (l : list JVal) : option (list string) :=
  match l with
  | [] => Some []
  | JStr s :: rest =>
      match all_str rest with Some ss => Some (s :: ss) | None => None end
  | _ :: _ => None
  end.

(** [",".join(v)]: over the strings of a list, the characters of a string
    or the keys of a dict; a [TypeError] on anything else. *)
Definition join_comma (v : JVal) : Exn + string :=
  match v with
  | JList l =>
      match all_str l with
      | Some ss => inr (PyStr.join "," ss)
      | None => inl TypeError
      end
  | JStr s => inr (PyStr.join "," (PyStr.chars s))
  | JObj kvs => inr (PyStr.join "," (keys_in_order (map fst kvs)))
  | JNull | JBool _ | JInt _ => inl TypeError
  end.

(** [f"{z:02d}"] *)
Definition fmt02 (z : Z) : string :=
  if (0 <=? z) && (z <? 10) then "0" +:+ pretty z else pretty z.

End Listing.

Section TasksTab.

Variable P : Platform.
Variable cfg : Config.

(** The line of one task in [refresh_tasks_list]. *)
Definition task_line (t : Task) : Exn + string :=
  let flag := if Py.truthy (Py.get t "enabled" (JBool true)) then "ON" else "OFF" in
  match Listing.join_comma (Py.get t "days" (JList [])) with
  | inl e => inl e
  | inr days =>
      match Py.int (int_of_str P) (Py.get t "hour" (JInt 0)) with
      | inl e => inl e
      | inr hh =>
          match Py.int (int_of_str P) (Py.get t "minute" (JInt 0)) with
          | inl e => inl e
          | inr mm =>
              let mode := Py.get t "mapping_mode" (JStr "enabled") in
              inr ("[" +:+ flag +:+ "] " +:+ py_str P (Py.get t "name" (JStr "Task"))
                   +:+ " | " +:+ days +:+ " " +:+ Listing.fmt02 hh +:+ ":"
                   +:+ Listing.fmt02 mm +:+ " | "
                   +:+ py_str P (Py.get t "profile" (JStr EmptyString)) +:+ " -> "
                   +:+ py_str P (Py.get t "preset" (JStr EmptyString)) +:+ " | maps="
                   +:+ py_str P mode)
          end
      end
  end.

(** The loop of [refresh_tasks_list], the list box holding [lines]: the
    exception that ends it, if any, and the lines of the list box then. *)
Fixpoint fill_list (ts : list Task) (lines : list string) : option Exn * list string :=
  match ts with
  | [] => (None, lines)
  | t :: rest =>
      match task_line t with
      | inl e => (Some e, lines)
      | inr line => fill_list rest (lines ++ [line])
      end
  end.

(** [App.refresh_tasks_list]: the list box is emptied, then filled. *)
Definition refresh_tasks_list (ts : list Task) : option Exn * list string :=
  fill_list ts [].

(** What a handler leaves: what it returned or raised (a returned dialog
    is the message box it showed), the tab and the world. *)
Definition Handled : Type := (Exn + option Dialog) * Ui * World.

Definition with_lines (ui : Ui) (lines : list string) : Ui :=
  {| lst_tasks := lines; selected_task_idx := selected_task_idx ui; form := form ui |}.

Definition with_selected (ui : Ui) (idx : option nat) : Ui :=
  {| lst_tasks := lst_tasks ui; selected_task_idx := idx; form := form ui |}.

Definition with_tasks (w : World) (ts : list Task) : World :=
  {| trace := trace w; tasks := ts; cli_ftp := cli_ftp w |}.

(** [save_tasks(self.tasks_obj)] and then [self.refresh_tasks_list()], and
    what follows them when neither raises. *)
Definition save_and_refresh (ui : Ui) (w : World)
    (after : Ui -> World -> Handled) : Handled :=
  match save_tasks P w with
  | (inl e, w1) => (inl e, ui, w1)
  | (inr _, w1) =>
      match refresh_tasks_list (tasks w1) with
      | (Some e, lines) => (inl e, with_lines ui lines, w1)
      | (None, lines) => after (with_lines ui lines) w1
      end
  end.

(** The dict [task_new] appends. *)
Definition new_task (n default_profile default_preset : string) : Task :=
  list_to_map
    [("name", JStr n); ("enabled", JBool true); ("profile", JStr default_profile);
     ("preset", JStr default_preset);
     ("days", JList (JStr <$> Clock.days_map));
     ("hour", JInt 0); ("minute", JInt 0); ("dry_run", JBool false);
     ("mapping_mode", JStr "enabled"); ("mappings", JList []);
     ("last_run", JStr EmptyString)].

(** The form as [on_task_select] fills it from the dict [task_new] made. *)
Definition new_task_form (n default_profile default_preset : string) : TaskForm :=
  {| tv_name := n; tv_enabled := true; tv_profile := default_profile;
     tv_preset := default_preset; tv_hour := "0"; tv_minute := "0"; tv_dry := false;
     tv_mode := "enabled"; days_vars := list_to_set Clock.days_map;
     mapping_selection := [] |}.

(** [App.task_new], where [presets] is what [_list_presets()] returns. *)
Definition task_new (presets : list string) (ui : Ui) (w : World) : Handled :=
  let n := "Task_" +:+ pretty (length (tasks w) + 1)%nat in
  let default_profile := match profiles cfg with p :: _ => p_name p | [] => EmptyString end in
  let default_preset := match presets with x :: _ => x | [] => EmptyString end in
  let w1 := with_tasks w (tasks w ++ [new_task n default_profile default_preset]) in
  save_and_refresh ui w1
    (fun ui1 w2 =>
       let idx := (length (tasks w2) - 1)%nat in
       (inr None,
        {| lst_tasks := lst_tasks ui1; selected_task_idx := Some idx;
           form := new_task_form n default_profile default_preset |},
        w2)).

(** [App.task_delete], where [confirm] is the answer to [askyesno]. *)
Definition task_delete (confirm : bool) (ui : Ui) (w : World) : Handled :=
  match selected_task_idx ui with
  | None => (inr (Some (ShowWarning "No task" "Select a task.")), ui, w)
  | Some idx =>
      match tasks w !! idx with
      | None => (inl IndexError, ui, w)
      | Some _ =>
          if negb confirm then (inr None, ui, w)
          else
            save_and_refresh (with_selected ui None) (with_tasks w (delete idx (tasks w)))
              (fun ui1 w1 => (inr None, ui1, w1))
      end
  end.

(** [(v.get() or dflt).strip()] for a string variable. *)
Definition var_or (v dflt : string) : string :=
  str_strip P (match v with EmptyString => dflt | _ => v end).

(** The [try] block of [task_save]: the hour and the minute of the form,
    or [None] when the block raises. *)
Definition form_time (f : TaskForm) : option (Z * Z) :=
  match int_of_str P (var_or (tv_hour f) "0") with
  | None => None
  | Some hh =>
      match int_of_str P (var_or (tv_minute f) "0") with
      | None => None
      | Some mm =>
          if (hh <? 0) || (23 <? hh) || (mm <? 0) || (59 <? mm) then None
          else Some (hh, mm)
      end
  end.

(** [[self.mappings[i].name for i in sel]], an [IndexError] included. *)
Fixpoint names_at (sel : list nat) : Exn + list string :=
  match sel with
  | [] => inr []
  | i :: rest =>
      match mappings cfg !! i with
      | None => inl IndexError
      | Some m =>
          match names_at rest with
          | inl e => inl e
          | inr names => inr (m_name m :: names)
          end
      end
  end.

(** The ten assignments of [task_save] to the dict [t]. *)
Definition write_form (f : TaskForm) (days : list string) (hh mm : Z) (mode : string)
    (selected_mapping_names : list string) (t : Task) : Task :=
  <["mappings" := JList (JStr <$> selected_mapping_names)]>
  (<["mapping_mode" := JStr mode]>
  (<["dry_run" := JBool (tv_dry f)]>
  (<["minute" := JInt mm]>
  (<["hour" := JInt hh]>
  (<["days" := JList (JStr <$> days)]>
  (<["preset" := JStr (var_or (tv_preset f) EmptyString)]>
  (<["profile" := JStr (var_or (tv_profile f) EmptyString)]>
  (<["enabled" := JBool (tv_enabled f)]>
  (<["name" := JStr (match str_strip P (tv_name f) with
                     | EmptyString => "Task"
                     | n => n
                     end)]> t))))))))).

(** [App.task_save] *)
Definition task_save (ui : Ui) (w : World) : Handled :=
  let f := form ui in
  match selected_task_idx ui with
  | None => (inr (Some (ShowWarning "No task" "Select a task.")), ui, w)
  | Some idx =>
      match form_time f with
      | None =>
          (inr (Some (ShowError "Invalid time"
                        "Hour must be 0-23 and Minute must be 0-59.")), ui, w)
      | Some (hh, mm) =>
          let days := List.filter (fun k => bool_decide (k ∈ days_vars f)) Clock.days_map in
          match days with
          | [] =>
              (inr (Some (ShowError "Invalid days" "Select at least one day.")), ui, w)
          | _ :: _ =>
              let mode := var_or (tv_mode f) "enabled" in
              let chosen :=
                if String.eqb mode "selected" then names_at (mapping_selection f)
                else inr [] in
              match chosen with
              | inl e => (inl e, ui, w)
              | inr selected_mapping_names =>
                  if String.eqb mode "selected"
                     && match selected_mapping_names with [] => true | _ => false end
                  then
                    (inr (Some (ShowError "No mappings"
                                  "Select at least one mapping, or switch to enabled mappings.")),
                     ui, w)
                  else
                    match tasks w !! idx with
                    | None => (inl IndexError, ui, w)
                    | Some _ =>
                        save_and_refresh ui
                          (with_tasks w
                             (alter (write_form f days hh mm mode selected_mapping_names)
                                    idx (tasks w)))
                          (fun ui1 w1 =>
                             (inr (Some (ShowInfo "Saved" "Task saved.")), ui1, w1))
                    end
              end
          end
      end
  end.

(** [App.task_run_now], where [confirm] is the answer to [askyesno]. *)
Definition task_run_now (confirm : bool) (ui : Ui) (w : World) : Handled :=
  match selected_task_idx ui with
  | None =>
      (inr (Some (ShowWarning "No task" "Select a task in the Tasks tab.")), ui, w)
  | Some idx =>
      match tasks w !! idx with
      | None => (inl IndexError, ui, w)
      | Some t =>
          if negb confirm then (inr None, ui, w)
          else
            match _run_upload_for_task P cfg t
                    (Py.truthy (Py.get t "dry_run" (JBool false))) w with
            | (inl e, w1) => (inl e, ui, w1)
            | (inr true, w1) =>
                (inr (Some (ShowInfo "Done" "Task completed.")), ui,
                 logged w1 INFO ("[TASK] Run-now complete: "
                                 +:+ py_str P (Py.get t "name" (JStr "Task"))))
            | (inr false, w1) =>
                (inr (Some (ShowError "Failed" "Task failed. Check Log.")), ui, w1)
            end
      end
  end.

End TasksTab.


(** The selected index, if any, points into the task list. *)
Definition selection_ok (ui : Ui) (w : World) : Prop :=
  forall i, selected_task_idx ui = Some i -> (i < length (tasks w))%nat.

(** The keys [task_save] writes. *)
Definition form_keys : list string :=
  ["name"; "enabled"; "profile"; "preset"; "days"; "hour"; "minute"; "dry_run";
   "mapping_mode"; "mappings"].

(** ** Profiles and mappings as they are stored *)

Module Json.

(** The value of [key] in the dict [json.load] makes of an object: of
    several members of the same name the last one counts. *)
Fixpoint lookup (kvs : list (string * JVal)) (key : string) : option JVal :=
  match kvs with
  | [] => None
  | (k, v) :: rest =>
      match lookup rest key with
      | Some v' => Some v'
      | None => if String.eqb k key then Some v else None
      end
  end.

(** [v.get(key, dflt)]: only a dict has the method. *)
Definition get (v : JVal) (key : string) (dflt : JVal) : Exn + JVal :=
  match v with
  | JObj kvs => inr (default dflt (lookup kvs key))
  | _ => inl AttributeError
  end.

(** What [for x in v] goes through: the items of a list, the characters
    of a string, the keys of a dict; a [TypeError] on anything else. *)
Definition items (v : JVal) : Exn + list JVal :=
  match v with
  | JList l => inr l
  | JStr s => inr (JStr <$> PyStr.chars s)
  | JObj kvs => inr (JStr <$> Listing.keys_in_order (map fst kvs))
  | JNull | JBool _ | JInt _ => inl TypeError
  end.

(** Sequencing of operations that may raise. *)
Definition and_then {A B} (r : Exn + A) (k : A -> Exn + B) : Exn + B :=
  match r with inl e => inl e | inr a => k a end.

(** [for x in l: out.append(f(x))], [out] being lost when [f] raises. *)
Fixpoint load_each {A} (f : JVal -> Exn + A) (l : list JVal) : Exn + list A :=
  match l with
  | [] => inr []
  | x :: rest =>
      and_then (f x) (fun a => and_then (load_each f rest) (fun out => inr (a :: out)))
  end.

End Json.

(** A [Profile] as [load_profiles] builds it.  A dataclass does not check
    its fields: what is not converted on the way is whatever the file
    held. *)
Record LoadedProfile : Type := {
  lp_name : JVal;
  lp_host : JVal;
  lp_port : Z;
  lp_username : JVal;
  lp_password : JVal;
  lp_tls : bool;
  lp_root : JVal;
}.

(** A [Mapping] as [load_mappings] builds it. *)
Record LoadedMapping : Type := {
  lm_name : JVal;
  lm_enabled : bool;
  lm_local_relpath : JVal;
  lm_remote_path : JVal;
  lm_backup_before_overwrite : bool;
}.

(** A well-typed profile, as a loaded one. *)
Definition loaded_profile (p : Profile) : LoadedProfile :=
  {| lp_name := JStr (p_name p); lp_host := JStr (p_host p); lp_port := p_port p;
     lp_username := JStr (p_username p); lp_password := JStr (p_password p);
     lp_tls := p_tls p; lp_root := JStr (p_root p) |}.

(** A well-typed mapping, as a loaded one. *)
Definition loaded_mapping (m : Mapping) : LoadedMapping :=
  {| lm_name := JStr (m_name m); lm_enabled := m_enabled m;
     lm_local_relpath := JStr (m_local_relpath m);
     lm_remote_path := JStr (m_remote_path m);
     lm_backup_before_overwrite := m_backup_before_overwrite m |}.

(** [p.__dict__] of a profile: the fields in the order of the dataclass. *)
Definition profile_dict (p : Profile) : JVal :=
  JObj [("name", JStr (p_name p)); ("host", JStr (p_host p)); ("port", JInt (p_port p));
        ("username", JStr (p_username p)); ("password", JStr (p_password p));
        ("tls", JBool (p_tls p)); ("root", JStr (p_root p))].

(** [m.__dict__] of a mapping. *)
Definition mapping_dict (m : Mapping) : JVal :=
  JObj [("name", JStr (m_name m)); ("enabled", JBool (m_enabled m));
        ("local_relpath", JStr (m_local_relpath m));
        ("remote_path", JStr (m_remote_path m));
        ("backup_before_overwrite", JBool (m_backup_before_overwrite m))].

(** What [save_profiles] hands to [save_json]. *)
Definition save_profiles (ps : list Profile) : JVal :=
  JObj [("profiles", JList (profile_dict <$> ps))].

(** What [save_mappings] hands to [save_json]. *)
Definition save_mappings (ms : list Mapping) : JVal :=
  JObj [("mappings", JList (mapping_dict <$> ms))].

Section Loaders.

Variable P : Platform.

(** The body of the loop of [load_profiles]: the keyword arguments of
    [Profile(...)] in their order. *)
Definition load_profile (p : JVal) : Exn + LoadedProfile :=
  Json.and_then (Json.get p "name" (JStr "Unnamed")) (fun name =>
  Json.and_then (Json.get p "host" (JStr EmptyString)) (fun host =>
  Json.and_then (Json.get p "port" (JInt 21)) (fun port_v =>
  Json.and_then (Py.int (int_of_str P) port_v) (fun port =>
  Json.and_then (Json.get p "username" (JStr EmptyString)) (fun username =>
  Json.and_then (Json.get p "password" (JStr EmptyString)) (fun password =>
  Json.and_then (Json.get p "tls" (JBool false)) (fun tls =>
  Json.and_then (Json.get p "root" (JStr "/dayzstandalone")) (fun root =>
  inr {| lp_name := name; lp_host := host; lp_port := port; lp_username := username;
         lp_password := password; lp_tls := Py.truthy tls; lp_root := root |})))))))).

(** [load_profiles], of the object [load_json] returned. *)
Definition load_profiles (obj : JVal) : Exn + list LoadedProfile :=
  Json.and_then (Json.get obj "profiles" (JList [])) (fun l =>
  Json.and_then (Json.items l) (Json.load_each load_profile)).

End Loaders.

(** The body of the loop of [load_mappings]. *)
Definition load_mapping (m : JVal) : Exn + LoadedMapping :=
  Json.and_then (Json.get m "name" (JStr "Unnamed Mapping")) (fun name =>
  Json.and_then (Json.get m "enabled" (JBool true)) (fun enabled =>
  Json.and_then (Json.get m "local_relpath" (JStr EmptyString)) (fun local_relpath =>
  Json.and_then (Json.get m "remote_path" (JStr EmptyString)) (fun remote_path =>
  Json.and_then (Json.get m "backup_before_overwrite" (JBool true)) (fun backup =>
  inr {| lm_name := name; lm_enabled := Py.truthy enabled;
         lm_local_relpath := local_relpath; lm_remote_path := remote_path;
         lm_backup_before_overwrite := Py.truthy backup |}))))).

(** [load_mappings], of the object [load_json] returned. *)
Definition load_mappings (obj : JVal) : Exn + list LoadedMapping :=
  Json.and_then (Json.get obj "mappings" (JList [])) (fun l =>
  Json.and_then (Json.items l) (Json.load_each load_mapping)).

(** ** Testing a connection *)

Section TestConnection.

Variable P : Platform.
Variable cfg : Config.

(** [self.ftp.pwd()] of the server: the directory, or the error raised,
    after the events so far. *)
Variable ftp_pwd : list Event -> Exn + string.

(** [App.selected_profile_for_test] *)
Definition selected_profile_for_test (selected_profile_idx : option Z) : option Profile :=
  match selected_profile_idx with
  | None => None
  | Some i =>
      if (i <? 0) || (Z.of_nat (length (profiles cfg)) <=? i) then None
      else profiles cfg !! Z.to_nat i
  end.

(** [FTPClient.pwd] *)
Definition cli_pwd : M string := fun w => (ftp_pwd (trace w), w).

(** [str(b)] of a boolean. *)
Definition str_bool (b : bool) : string := if b then "True" else "False".

(** [App.test_conn_selected_profile]; it returns the message box shown. *)
Definition test_conn_selected_profile (selected_profile_idx : option Z) : M Dialog :=
  match selected_profile_for_test selected_profile_idx with
  | None => ret (ShowWarning "No profile" "Select a profile in the Profiles tab.")
  | Some p =>
      log INFO ("Testing connection to " +:+ p_host p +:+ ":" +:+ pretty (p_port p)
                +:+ " TLS=" +:+ str_bool (p_tls p)) ;;
      cli_new ;;
      try_finally
        (try_except
           (cli_connect P cfg p ;;
            do d <- cli_pwd ;
            log INFO ("Connected. PWD: " +:+ d) ;;
            do d' <- cli_pwd ;
            ret (ShowInfo "OK" ("Connected. PWD: " +:+ d')))
           (fun e =>
              log ERROR ("Connection failed: " +:+ str_exn P e) ;;
              ret (ShowError "Failed" (str_exn P e))))
        cli_close
  end.

End TestConnection.

Definition is_download (e : Event) : bool :=
  match e with EDownload _ _ _ => true | _ => false end.

Definition is_quit (e : Event) : bool :=
  match e with EQuit => true | _ => false end.

(** ** More of the concrete installation *)

Module Cases.

(** The platform of [Demo] with a server that refuses every connection. *)
Definition refusing_server : Platform := {|
  str_strip := str_strip Demo.platform;
  int_of_str := int_of_str Demo.platform;
  py_str := py_str Demo.platform;
  str_exn := str_exn Demo.platform;
  format_exc := format_exc Demo.platform;
  path_join := path_join Demo.platform;
  path_exists := path_exists Demo.platform;
  now_stamp := now_stamp Demo.platform;
  ftp_connect := fun _ _ _ => Some (ExtError "[Errno 111] Connection refused");
  ftp_retr := ftp_retr Demo.platform;
  ftp_stor := ftp_stor Demo.platform;
  save_json := save_json Demo.platform;
|}.

(** The platform of [Demo] with a server that refuses [types.xml]. *)
Definition picky_server : Platform := {|
  str_strip := str_strip Demo.platform;
  int_of_str := int_of_str Demo.platform;
  py_str := py_str Demo.platform;
  str_exn := str_exn Demo.platform;
  format_exc := format_exc Demo.platform;
  path_join := path_join Demo.platform;
  path_exists := path_exists Demo.platform;
  now_stamp := now_stamp Demo.platform;
  ftp_connect := ftp_connect Demo.platform;
  ftp_retr := ftp_retr Demo.platform;
  ftp_stor := fun _ local_file _ =>
                if String.eqb local_file "/presets/pvp/cfg/types.xml"
                then Some (ExtError "552 Requested file action aborted")
                else None;
  save_json := save_json Demo.platform;
|}.

(** Tuesday 3 November 2026, 09:01:05: the minute after [Demo.now]. *)
Definition next_minute : DateTime :=
  {| year := 2026; month := 11; day := 3; hour := 9; minute := 1; second := 5 |}.

(** Wednesday 4 November 2026, 00:00:30. *)
Definition midnight : DateTime :=
  {| year := 2026; month := 11; day := 4; hour := 0; minute := 0; second := 30 |}.

(** The task form filled in for Mondays and Fridays at [hh]:30. *)
Definition form_at (hh : string) : TaskForm :=
  {| tv_name := " Nightly "; tv_enabled := true; tv_profile := "main";
     tv_preset := "pvp"; tv_hour := hh; tv_minute := "30"; tv_dry := true;
     tv_mode := "enabled"; days_vars := list_to_set ["Fri"; "Mon"];
     mapping_selection := [] |}.

(** The Tasks tab with the task at [sel] selected. *)
Definition tab (sel : option nat) (f : TaskForm) : Ui :=
  {| lst_tasks := []; selected_task_idx := sel; form := f |}.

End Cases.

(** * Properties *)

(** ** Remote paths *)

Section RemotePaths.

Import Shape.





(** A non-empty [rstrip] keeps the first character of its argument. *)
Lemma rstrip_head c s b r :
  PyStr.rstrip c s = String b r -> exists t, s = String b t.
Proof.
  destruct s as [|d s]; simpl; [discriminate|].
  destruct (PyStr.rstrip c s); [destruct (Ascii.eqb d c)|]; intros H;
    inversion H; subst; eauto.
Qed.

Lemma rstrip_starts c x s :
  starts_with x s = false -> starts_with x (PyStr.rstrip c s) = false.
Proof.
  destruct (PyStr.rstrip c s) as [|b r] eqn:E; [reflexivity|].
  apply rstrip_head in E as [t ->]. simpl. auto.
Qed.













End RemotePaths.

(** ** Mapping resolution *)

Section MappingResolver.

Lemma filter_sublist {A} (f : A -> bool) (l : list A) : sublist (List.filter f l) l.
Proof.
  induction l as [|x l IH]; simpl; [constructor|].
  destruct (f x); [apply sublist_skip|apply sublist_cons]; exact IH.
Qed.

Lemma elem_of_filter_bool {A} (f : A -> bool) (l : list A) (x : A) :
  x ∈ List.filter f l <-> x ∈ l /\ f x = true.
Proof. rewrite !list_elem_of_In. apply filter_In. Qed.

(** [set(names)] of a list of strings holds exactly those strings,
    whatever their order or multiplicity. *)
Lemma set_of_names (names : list string) :
  Py.set_of (JList (JStr <$> names)) = inr (list_to_set names).
Proof.
  unfold Py.set_of.
  assert (forallb Py.hashable (JStr <$> names) = true) as ->.
  { induction names; simpl; auto. }
  f_equal. f_equal. induction names as [|n names IH]; simpl; [reflexivity|].
  f_equal. exact IH.
Qed.

(** C5: mapping resolution is a function of the mode, the set of selected
    names and the stored mapping list alone.  Mode [enabled] yields the
    enabled mappings and mode [selected] the mappings named in the
    selection, both as a filter of the stored list, hence in stored order;
    the order of the selection is immaterial, and a selected name that no
    mapping bears contributes nothing. *)
Theorem C5_use_mappings (selected_names : gset string) (all : list Mapping) :
  use_mappings "enabled" selected_names all = List.filter m_enabled all
  /\ use_mappings "selected" selected_names all
     = List.filter (fun m => bool_decide (m_name m ∈ selected_names)) all
  /\ (forall mode, sublist (use_mappings mode selected_names all) all)
  /\ (forall m, m ∈ use_mappings "enabled" selected_names all
                <-> m ∈ all /\ m_enabled m = true)
  /\ (forall m, m ∈ use_mappings "selected" selected_names all
                <-> m ∈ all /\ m_name m ∈ selected_names)
  /\ (forall names : list string,
        Py.set_of (JList (JStr <$> names)) = inr (list_to_set names)
        /\ Py.set_of (JList (JStr <$> reverse names)) = inr (list_to_set names)
        /\ forall m, m ∈ use_mappings "selected" (list_to_set names) all
                     <-> m ∈ all /\ m_name m ∈ names).
Proof.
  split; [reflexivity|]. split; [reflexivity|]. split.
  { intros mode. unfold use_mappings. destruct (String.eqb mode "selected");
      apply filter_sublist. }
  split.
  { intros m. unfold use_mappings. simpl. apply elem_of_filter_bool. }
  assert (forall (sel : gset string) m,
             m ∈ use_mappings "selected" sel all <-> m ∈ all /\ m_name m ∈ sel) as Hsel.
  { intros sel m. unfold use_mappings. simpl. rewrite elem_of_filter_bool.
    rewrite bool_decide_eq_true. reflexivity. }
  split; [apply Hsel|].
  intros names. split; [apply set_of_names|]. split.
  - rewrite set_of_names. f_equal. apply set_eq. intros x.
    rewrite !elem_of_list_to_set, elem_of_reverse. reflexivity.
  - intros m. rewrite Hsel, elem_of_list_to_set. reflexivity.
Qed.

End MappingResolver.

(** ** The task runner *)

Section Runner.

Variable P : Platform.
Variable cfg : Config.

Lemma world_eta (w : World) :
  {| trace := trace w; tasks := tasks w; cli_ftp := cli_ftp w |} = w.
Proof. destruct w; reflexivity. Qed.

Lemma bind_ret_l {A B} (a : A) (k : A -> M B) (w : World) : bind (ret a) k w = k a w.
Proof. reflexivity. Qed.

Lemma bind_emit {B} (e : Event) (k : unit -> M B) (w : World) :
  bind (emit e) k w
  = k tt {| trace := trace w ++ [e]; tasks := tasks w; cli_ftp := cli_ftp w |}.
Proof. reflexivity. Qed.

Lemma for_each_dry (p : Profile) (preset_dir : string) (ms : list Mapping) (w : World) :
  for_each ms (dry_one P preset_dir (norm_remote (root_or_slash (p_root p)))) w
  = (inr tt, {| trace := trace w ++ map (would_upload P p preset_dir) ms;
                tasks := tasks w; cli_ftp := cli_ftp w |}).
Proof.
  revert w. induction ms as [|m ms IH]; intros w.
  - simpl. rewrite app_nil_r, world_eta. reflexivity.
  - cbn [for_each map]. unfold dry_one at 1, log. rewrite bind_emit, IH.
    cbn [trace tasks cli_ftp]. rewrite <- app_assoc. reflexivity.
Qed.

(** The runner with its four fields read. *)
Lemma run_unfold task dry_run profile_name preset_name mode selected_names w :
  reads P task profile_name preset_name mode selected_names ->
  _run_upload_for_task P cfg task dry_run w
  = match List.find (fun x => String.eqb (p_name x) profile_name) (profiles cfg) with
    | None => (inr false, logged w ERROR ("[TASK] Profile not found: " +:+ profile_name))
    | Some p =>
        let preset_dir := path_join P (presets_dir cfg) preset_name in
        if negb (path_exists P preset_dir) then
          (inr false, logged w ERROR ("[TASK] Preset not found: " +:+ preset_dir))
        else
          let use := use_mappings mode selected_names (mappings cfg) in
          match use with
          | [] => (inr false,
                   logged w ERROR "[TASK] No mappings to run (check enabled/selected).")
          | _ :: _ =>
              match missing_files P preset_dir use with
              | (_ :: _) as missing =>
                  (inr false,
                   logged w ERROR ("[TASK] Missing files in preset:"
                                   +:+ String "010" EmptyString
                                   +:+ PyStr.join (String "010" EmptyString) missing))
              | [] =>
                  let root := norm_remote (root_or_slash (p_root p)) in
                  try_finally
                    (try_except (transfer P cfg p preset_name preset_dir root use dry_run)
                                (upload_failed P))
                    cli_close
                    {| trace := trace w; tasks := tasks w; cli_ftp := false |}
              end
          end
    end.
Proof.
  intros (H1 & H2 & H3 & H4). unfold _run_upload_for_task.
  rewrite H1, H2, H3, H4. cbn [lift]. rewrite !bind_ret_l.
  destruct (List.find _ (profiles cfg)) as [p|]; [|reflexivity].
  cbv zeta. destruct (negb (path_exists P _)); [reflexivity|].
  destruct (use_mappings mode selected_names (mappings cfg)) as [|m0 use]; [reflexivity|].
  destruct (missing_files P _ (m0 :: use)); reflexivity.
Qed.

Lemma filter_app_single {f : Event -> bool} (h : list Event) (e : Event) :
  f e = false -> List.filter f (h ++ [e]) = List.filter f h.
Proof. intros H. rewrite List.filter_app. simpl. rewrite H. apply app_nil_r. Qed.

Lemma missing_files_elem (preset_dir : string) (use : list Mapping) (m : Mapping) :
  m ∈ use -> path_exists P (local_file_of P preset_dir m) = false ->
  m_local_relpath m ∈ missing_files P preset_dir use.
Proof.
  intros Hm Hex. unfold missing_files. apply list_elem_of_fmap_2'  with m; [|reflexivity].
  apply list_elem_of_In, filter_In. split; [apply list_elem_of_In, Hm|].
  rewrite Hex. reflexivity.
Qed.

(** C3: with the task's fields read, the runner checks, in this order,
    that the named profile is loaded, that the preset directory exists,
    that the resolved mapping list is not empty and that every resolved
    mapping's local file exists; the first check that fails logs one
    error line and makes the run return [False] at once, nothing else
    having happened: no connection attempt and no upload is added to the
    trace. *)
Theorem C3_preconditions_before_network
    (task : Task) (dry_run : bool) (w : World)
    (profile_name preset_name mode : string) (selected_names : gset string) :
  reads P task profile_name preset_name mode selected_names ->
  let found := List.find (fun x => String.eqb (p_name x) profile_name) (profiles cfg) in
  let preset_dir := path_join P (presets_dir cfg) preset_name in
  let use := use_mappings mode selected_names (mappings cfg) in
  let run := _run_upload_for_task P cfg task dry_run w in
  (found = None ->
     run = (inr false, logged w ERROR ("[TASK] Profile not found: " +:+ profile_name)))
  /\ (found <> None -> path_exists P preset_dir = false ->
        run = (inr false, logged w ERROR ("[TASK] Preset not found: " +:+ preset_dir)))
  /\ (found <> None -> path_exists P preset_dir = true -> use = [] ->
        run = (inr false,
               logged w ERROR "[TASK] No mappings to run (check enabled/selected)."))
  /\ (found <> None -> path_exists P preset_dir = true -> use <> [] ->
        forall m, m ∈ use -> path_exists P (local_file_of P preset_dir m) = false ->
        m_local_relpath m ∈ missing_files P preset_dir use
        /\ run = (inr false,
                  logged w ERROR ("[TASK] Missing files in preset:"
                                  +:+ String "010" EmptyString
                                  +:+ PyStr.join (String "010" EmptyString)
                                        (missing_files P preset_dir use))))
  /\ (forall msg,
        List.filter is_connect (trace (logged w ERROR msg)) = List.filter is_connect (trace w)
        /\ List.filter is_upload (trace (logged w ERROR msg)) = List.filter is_upload (trace w)).
Proof.
  intros Hr found preset_dir use run. subst run.
  rewrite (run_unfold _ _ _ _ _ _ _ Hr). fold found. cbv zeta. fold preset_dir. fold use.
  repeat split.
  - intros ->. reflexivity.
  - intros Hf Hex. destruct found; [|congruence]. rewrite Hex. reflexivity.
  - intros Hf Hex Hu. destruct found; [|congruence]. rewrite Hex, Hu. reflexivity.
  - eapply missing_files_elem; eauto.
  - destruct found; [|congruence].
    match goal with H : path_exists _ _ = true |- _ => rewrite H end. simpl negb. cbv iota.
    destruct use as [|m0 use']; [congruence|].
    pose proof (missing_files_elem preset_dir (m0 :: use') m ltac:(assumption) ltac:(assumption)) as Hin.
    destruct (missing_files P preset_dir (m0 :: use')); [|reflexivity].
    apply elem_of_nil in Hin. destruct Hin.
  - apply filter_app_single. reflexivity.
  - apply filter_app_single. reflexivity.
Qed.

(** C6: a dry run whose preconditions hold returns [True]; what it adds
    to the trace is one would-upload line per resolved mapping, in
    resolved order, each naming the local file and the effective remote
    path; [connect] is never invoked. *)
Theorem C6_dry_run_opens_no_connection
    (task : Task) (w : World) (p : Profile)
    (profile_name preset_name mode : string) (selected_names : gset string) :
  reads P task profile_name preset_name mode selected_names ->
  let preset_dir := path_join P (presets_dir cfg) preset_name in
  let use := use_mappings mode selected_names (mappings cfg) in
  List.find (fun x => String.eqb (p_name x) profile_name) (profiles cfg) = Some p ->
  path_exists P preset_dir = true ->
  use <> [] ->
  missing_files P preset_dir use = [] ->
  _run_upload_for_task P cfg task true w
    = (inr true, extended w (map (would_upload P p preset_dir) use))
  /\ List.filter is_connect (map (would_upload P p preset_dir) use) = []
  /\ length (map (would_upload P p preset_dir) use) = length use.
Proof.
  intros Hr preset_dir use Hf Hex Hu Hmiss.
  split; [|split; [|apply length_map]].
  - rewrite (run_unfold _ _ _ _ _ _ _ Hr), Hf. cbv zeta. fold preset_dir. fold use.
    rewrite Hex. simpl negb. cbv iota.
    destruct use as [|m0 use'] eqn:Euse; [congruence|]. rewrite Hmiss.
    unfold try_finally, try_except, transfer.
    unfold bind at 1. rewrite for_each_dry. reflexivity.
  - clear. induction use as [|m ms IH]; [reflexivity|exact IH].
Qed.

Lemma bind_eq {A B} (c : M A) (k : A -> M B) (w w' : World) (a : A) :
  c w = (inr a, w') -> bind c k w = k a w'.
Proof. intros H. unfold bind. rewrite H. reflexivity. Qed.

Lemma bind_exn {A B} (c : M A) (k : A -> M B) (w w' : World) (e : Exn) :
  c w = (inl e, w') -> bind c k w = (inl e, w').
Proof. intros H. unfold bind. rewrite H. reflexivity. Qed.

Lemma cli_download_eq (remote bpath : string) (w : World) :
  cli_download P remote bpath w
  = (inr (ftp_retr P (trace w) remote bpath),
     {| trace := trace w ++ [EDownload remote bpath (ftp_retr P (trace w) remote bpath)];
        tasks := tasks w; cli_ftp := cli_ftp w |}).
Proof. reflexivity. Qed.

Lemma cli_upload_ok (local_file remote : string) (w : World) :
  ftp_stor P (trace w) local_file remote = None ->
  cli_upload P local_file remote w
  = (inr tt, {| trace := trace w ++ [EUpload local_file remote];
                tasks := tasks w; cli_ftp := cli_ftp w |}).
Proof. intros H. unfold cli_upload. rewrite bind_emit, H. reflexivity. Qed.

Lemma join_remote_eq (p_root remote_path : string) :
  join_remote (norm_remote (root_or_slash p_root)) remote_path
  = remote_full p_root remote_path.
Proof. reflexivity. Qed.

(** One round of the upload loop when the upload is accepted. *)
Lemma upload_one_ok (p : Profile) (preset_name preset_dir : string) (m : Mapping)
    (w : World) :
  (forall h l r, ftp_stor P h l r = None) ->
  let bpath := backup_path P cfg p preset_name (now_stamp P (trace w)) m in
  let ok := ftp_retr P (trace w) (remote_full (p_root p) (m_remote_path m)) bpath in
  upload_one P cfg p preset_name preset_dir (norm_remote (root_or_slash (p_root p))) m w
  = (inr tt, {| trace := trace w ++ upload_block P p preset_dir m (ok, bpath);
                tasks := tasks w; cli_ftp := cli_ftp w |}).
Proof.
  intros Hstor bpath ok. unfold upload_one, upload_block.
  rewrite join_remote_eq.
  set (remote := remote_full (p_root p) (m_remote_path m)) in *.
  destruct (m_backup_before_overwrite m).
  - erewrite bind_eq with
      (w' := {| trace := trace w ++ [EDownload remote bpath ok;
                                     if ok
                                     then ELog INFO ("[TASK] Backup OK: " +:+ remote
                                                     +:+ " -> " +:+ bpath)
                                     else ELog WARN ("[TASK] Backup skipped/failed: "
                                                     +:+ remote)];
                tasks := tasks w; cli_ftp := cli_ftp w |}) (a := tt).
    + erewrite bind_eq by apply cli_upload_ok, Hstor.
      unfold log, emit. cbn [trace tasks cli_ftp fst snd].
      rewrite <- !app_assoc. reflexivity.
    + subst ok bpath. cbv [bind ret cli_download emit log]. cbn [trace tasks cli_ftp].
      destruct (ftp_retr P _ _ _); cbn [trace tasks cli_ftp];
        rewrite <- app_assoc; reflexivity.
  - erewrite bind_eq by reflexivity.
    erewrite bind_eq by apply cli_upload_ok, Hstor.
    unfold log, emit. cbn [trace tasks cli_ftp fst snd app].
    rewrite <- !app_assoc. reflexivity.
Qed.

Lemma for_each_upload (p : Profile) (preset_name preset_dir : string)
    (ms : list Mapping) (w : World) :
  (forall h l r, ftp_stor P h l r = None) ->
  exists outcomes : list (bool * string),
    length outcomes = length ms
    /\ (forall o, o ∈ outcomes -> fst o = false \/ exists h r b, ftp_retr P h r b = true)
    /\ for_each ms (upload_one P cfg p preset_name preset_dir
                      (norm_remote (root_or_slash (p_root p)))) w
       = (inr tt, {| trace := trace w ++ concat (zip_with (upload_block P p preset_dir)
                                                          ms outcomes);
                     tasks := tasks w; cli_ftp := cli_ftp w |}).
Proof.
  intros Hstor. revert w. induction ms as [|m ms IH]; intros w.
  - exists []. split; [reflexivity|]. split; [intros o Ho; inversion Ho|].
    simpl. rewrite app_nil_r, world_eta. reflexivity.
  - cbn [for_each].
    pose proof (upload_one_ok p preset_name preset_dir m w Hstor) as Hone.
    cbv zeta in Hone.
    set (bpath := backup_path P cfg p preset_name (now_stamp P (trace w)) m) in *.
    set (ok := ftp_retr P (trace w) (remote_full (p_root p) (m_remote_path m)) bpath) in *.
    erewrite bind_eq by exact Hone.
    match goal with |- context [for_each ms _ ?w1] =>
      destruct (IH w1) as (outs & Hlen & Hall & Heq) end.
    exists ((ok, bpath) :: outs). split; [simpl; congruence|]. split.
    + intros o Ho. apply elem_of_cons in Ho as [->|Ho]; [|auto].
      cbn [fst]. destruct ok eqn:Eok; [right|left; reflexivity].
      eexists _, _, _. exact Eok.
    + rewrite Heq. cbn [trace tasks cli_ftp zip_with concat].
      rewrite <- !app_assoc. reflexivity.
Qed.

Lemma uploads_of_blocks (p : Profile) (preset_dir : string) (ms : list Mapping)
    (outcomes : list (bool * string)) :
  length outcomes = length ms ->
  List.filter is_upload (concat (zip_with (upload_block P p preset_dir) ms outcomes))
  = map (fun m => EUpload (local_file_of P preset_dir m)
                          (remote_full (p_root p) (m_remote_path m))) ms.
Proof.
  revert outcomes. induction ms as [|m ms IH]; intros [|o outs] Hlen;
    try discriminate; [reflexivity|].
  cbn [zip_with concat map]. rewrite List.filter_app, IH by (simpl in Hlen; congruence).
  unfold upload_block. rewrite List.filter_app.
  destruct (m_backup_before_overwrite m); [destruct (fst o)|]; reflexivity.
Qed.

(** C7: in a run that is not a dry run, whose preconditions hold, whose
    connection is accepted and whose uploads are accepted, the outcome of
    the backup downloads is immaterial: the run returns [True], and
    between connecting and quitting it goes through every resolved
    mapping in order; for a mapping with [backup_before_overwrite] a
    failed download is followed by one warning line and then by the
    upload of that very mapping; every resolved mapping is uploaded.  If
    no download succeeds, every recorded backup outcome is a failure. *)
Theorem C7_backup_failure_is_not_fatal
    (task : Task) (w : World) (p : Profile)
    (profile_name preset_name mode : string) (selected_names : gset string) :
  reads P task profile_name preset_name mode selected_names ->
  let preset_dir := path_join P (presets_dir cfg) preset_name in
  let use := use_mappings mode selected_names (mappings cfg) in
  List.find (fun x => String.eqb (p_name x) profile_name) (profiles cfg) = Some p ->
  path_exists P preset_dir = true ->
  use <> [] ->
  missing_files P preset_dir use = [] ->
  ftp_connect P (trace w) p (timeout cfg) = None ->
  (forall h l r, ftp_stor P h l r = None) ->
  exists outcomes : list (bool * string),
    length outcomes = length use
    /\ _run_upload_for_task P cfg task false w
       = (inr true,
          extended w (EConnect p (timeout cfg)
                      :: concat (zip_with (upload_block P p preset_dir) use outcomes)
                      ++ [EQuit]))
    /\ List.filter is_upload (concat (zip_with (upload_block P p preset_dir) use outcomes))
       = map (fun m => EUpload (local_file_of P preset_dir m)
                               (remote_full (p_root p) (m_remote_path m))) use
    /\ ((forall h r b, ftp_retr P h r b = false) ->
        forall o, o ∈ outcomes -> fst o = false).
Proof.
  intros Hr preset_dir use Hf Hex Hu Hmiss Hconn Hstor.
  set (w1 := {| trace := trace w ++ [EConnect p (timeout cfg)];
                tasks := tasks w; cli_ftp := true |}).
  destruct (for_each_upload p preset_name preset_dir use w1 Hstor)
    as (outs & Hlen & Hall & Heq).
  exists outs. split; [exact Hlen|]. split; [|split].
  - rewrite (run_unfold _ _ _ _ _ _ _ Hr), Hf. cbv zeta. fold preset_dir. fold use.
    rewrite Hex. simpl negb. cbv iota.
    destruct use as [|m0 use'] eqn:Euse; [congruence|]. rewrite Hmiss.
    unfold try_finally, try_except, transfer.
    unfold bind at 1. unfold cli_connect. cbn [trace tasks cli_ftp].
    rewrite Hconn. unfold bind at 1. fold w1. rewrite Heq.
    unfold ret, cli_close, extended. subst w1. cbn [trace tasks cli_ftp].
    rewrite <- !app_assoc. reflexivity.
  - apply uploads_of_blocks, Hlen.
  - intros Hretr o Ho. destruct (Hall o Ho) as [H|(h & r & b & H)]; [exact H|].
    rewrite Hretr in H. discriminate.
Qed.

End Runner.

(** ** What a computation leaves alone *)

Section Preservation.

Variable R : World -> World -> Prop.
Hypothesis R_refl : forall w, R w w.
Hypothesis R_trans : forall w1 w2 w3, R w1 w2 -> R w2 w3 -> R w1 w3.

Lemma preserves_ret {A} (a : A) : preserves R (ret a).
Proof. intros w r w' H. inversion H. apply R_refl. Qed.

Lemma preserves_raise {A} (e : Exn) : preserves R (@raise A e).
Proof. intros w r w' H. inversion H. apply R_refl. Qed.

Lemma preserves_lift {A} (x : Exn + A) : preserves R (lift x).
Proof. destruct x; [apply preserves_raise|apply preserves_ret]. Qed.

Lemma preserves_bind {A B} (c : M A) (k : A -> M B) :
  preserves R c -> (forall a, preserves R (k a)) -> preserves R (bind c k).
Proof.
  intros Hc Hk w r w' H. unfold bind in H.
  destruct (c w) as [[e|a] w1] eqn:E.
  - inversion H; subst. eapply Hc, E.
  - eapply R_trans; [eapply Hc, E|eapply Hk, H].
Qed.

Lemma preserves_try_except {A} (body : M A) (handler : Exn -> M A) :
  preserves R body -> (forall e, preserves R (handler e)) ->
  preserves R (try_except body handler).
Proof.
  intros Hb Hh w r w' H. unfold try_except in H.
  destruct (body w) as [[e|a] w1] eqn:E.
  - eapply R_trans; [eapply Hb, E|eapply Hh, H].
  - inversion H; subst. eapply Hb, E.
Qed.

Lemma preserves_try_finally {A} (body : M A) (fin : World -> World) :
  preserves R body -> (forall w, R w (fin w)) -> preserves R (try_finally body fin).
Proof.
  intros Hb Hf w r w' H. unfold try_finally in H.
  destruct (body w) as [r1 w1] eqn:E. inversion H; subst.
  eapply R_trans; [eapply Hb, E|apply Hf].
Qed.

Lemma preserves_for_each {A} (l : list A) (body : A -> M unit) :
  (forall x, preserves R (body x)) -> preserves R (for_each l body).
Proof.
  intros Hb. induction l as [|x l IH]; [apply preserves_ret|].
  apply preserves_bind; [apply Hb|intros _; exact IH].
Qed.

Lemma preserves_if {A} (b : bool) (c1 c2 : M A) :
  preserves R c1 -> preserves R c2 -> preserves R (if b then c1 else c2).
Proof. destruct b; auto. Qed.

(** A step that extends the trace by events of which [R] approves. *)
Hypothesis R_step :
  forall w e ftp, is_save e = false ->
    R w {| trace := trace w ++ [e]; tasks := tasks w; cli_ftp := ftp |}.
Hypothesis R_ftp :
  forall w ftp, R w {| trace := trace w; tasks := tasks w; cli_ftp := ftp |}.

Lemma preserves_emit (e : Event) : is_save e = false -> preserves R (emit e).
Proof. intros He w r w' H. inversion H; subst. apply R_step, He. Qed.

Lemma preserves_log (lvl : Level) (msg : string) : preserves R (log lvl msg).
Proof. apply preserves_emit. reflexivity. Qed.

Variable P : Platform.
Variable cfg : Config.

Lemma preserves_cli_connect (p : Profile) : preserves R (cli_connect P cfg p).
Proof.
  intros w r w' H. unfold cli_connect in H.
  destruct (ftp_connect P (trace w) p (timeout cfg)); inversion H; subst.
  - apply R_step. reflexivity.
  - cbn [trace tasks cli_ftp]. apply R_step. reflexivity.
Qed.

Lemma preserves_cli_close (w : World) : R w (cli_close w).
Proof.
  unfold cli_close. destruct (cli_ftp w); [apply R_step; reflexivity|apply R_ftp].
Qed.

Lemma preserves_cli_download (remote bpath : string) :
  preserves R (cli_download P remote bpath).
Proof.
  intros w r w' H. unfold cli_download in H. rewrite bind_emit in H.
  inversion H; subst. apply R_step. reflexivity.
Qed.

Lemma preserves_cli_upload (local_file remote : string) :
  preserves R (cli_upload P local_file remote).
Proof.
  intros w r w' H. unfold cli_upload in H. rewrite bind_emit in H.
  destruct (ftp_stor P (trace w) local_file remote); inversion H; subst;
    apply R_step; reflexivity.
Qed.

(** Whatever the runner does, it does within [R]. *)
Lemma preserves_run (task : Task) (dry_run : bool) :
  preserves R (_run_upload_for_task P cfg task dry_run).
Proof.
  unfold _run_upload_for_task.
  repeat (apply preserves_bind; [apply preserves_lift|intros ?]).
  destruct (List.find _ _) as [p|];
    [|apply preserves_bind; [apply preserves_log|intros _; apply preserves_ret]].
  cbv zeta. apply preserves_if;
    [apply preserves_bind; [apply preserves_log|intros _; apply preserves_ret]|].
  destruct (use_mappings _ _ _) as [|m0 use];
    [apply preserves_bind; [apply preserves_log|intros _; apply preserves_ret]|].
  destruct (missing_files _ _ _);
    [|apply preserves_bind; [apply preserves_log|intros _; apply preserves_ret]].
  apply preserves_bind; [intros w r w' H; inversion H; subst; apply R_ftp|intros _].
  apply preserves_try_finally; [|apply preserves_cli_close].
  apply preserves_try_except.
  - unfold transfer. apply preserves_if.
    + apply preserves_bind; [|intros _; apply preserves_ret].
      apply preserves_for_each. intros m. apply preserves_log.
    + apply preserves_bind; [apply preserves_cli_connect|intros _].
      apply preserves_bind; [|intros _; apply preserves_ret].
      apply preserves_for_each. intros m. unfold upload_one.
      apply preserves_bind; [|intros _; apply preserves_bind;
                                [apply preserves_cli_upload|intros _; apply preserves_log]].
      apply preserves_if; [|apply preserves_ret].
      apply preserves_bind; [intros w r w' H; inversion H; subst; apply R_refl|intros bpath].
      apply preserves_bind; [apply preserves_cli_download|intros ok].
      apply preserves_if; apply preserves_log.
  - intros e. unfold upload_failed.
    apply preserves_bind; [apply preserves_log|intros _].
    apply preserves_bind; [apply preserves_log|intros _; apply preserves_ret].
Qed.

End Preservation.

(** ** The minute stamp *)

Section Stamp.

Lemma pretty_N_char_digit (x : N) : is_digit (pretty_N_char x) = true.
Proof. unfold pretty_N_char. repeat case_match; reflexivity. Qed.

Lemma pretty_Z_N (z : Z) : 0 < z -> pretty z = pretty_N_go (Z.to_N z) EmptyString.
Proof.
  destruct z as [|p|p]; try lia. intros _.
  unfold pretty at 1, pretty_Z, pretty, pretty_positive, pretty, pretty_N.
  rewrite decide_False by discriminate. reflexivity.
Qed.

Lemma pretty_one_digit (z : Z) :
  0 <= z <= 9 ->
  exists a, pretty z = String a EmptyString /\ is_digit a = true.
Proof.
  intros H. destruct (decide (z = 0)) as [->|Hz].
  - exists "0"%char. split; reflexivity.
  - rewrite pretty_Z_N by lia.
    rewrite pretty_N_go_step by lia.
    replace (Z.to_N z / 10)%N with 0%N by (symmetry; apply N.div_small; lia).
    rewrite pretty_N_go_0. eexists. split; [reflexivity|apply pretty_N_char_digit].
Qed.

Lemma pretty_two_digits (z : Z) :
  10 <= z <= 99 ->
  exists a b, pretty z = String a (String b EmptyString)
              /\ is_digit a = true /\ is_digit b = true.
Proof.
  intros H. rewrite pretty_Z_N by lia.
  assert (Z.to_N z / 10 < 10)%N as H1
      by (apply N.Div0.div_lt_upper_bound; lia).
  assert (0 < Z.to_N z / 10)%N as H2 by (apply N.div_str_pos; lia).
  rewrite pretty_N_go_step by lia.
  rewrite pretty_N_go_step by exact H2.
  replace (Z.to_N z / 10 / 10)%N with 0%N by (symmetry; apply N.div_small; lia).
  rewrite pretty_N_go_0. eexists _, _.
  split; [reflexivity|split; apply pretty_N_char_digit].
Qed.

Lemma pretty_four_digits (z : Z) :
  1000 <= z <= 9999 ->
  exists a b c d, pretty z = String a (String b (String c (String d EmptyString)))
                  /\ is_digit a = true /\ is_digit b = true
                  /\ is_digit c = true /\ is_digit d = true.
Proof.
  intros H. rewrite pretty_Z_N by lia.
  set (n := Z.to_N z). assert (1000 <= n <= 9999)%N as Hn by (subst n; lia).
  assert (100 <= n / 10 < 1000)%N as H1.
  { split; [apply N.div_le_lower_bound; lia|apply N.Div0.div_lt_upper_bound; lia]. }
  assert (10 <= n / 10 / 10 < 100)%N as H2.
  { split; [apply N.div_le_lower_bound; lia|apply N.Div0.div_lt_upper_bound; lia]. }
  assert (1 <= n / 10 / 10 / 10 < 10)%N as H3.
  { split; [apply N.div_le_lower_bound; lia|apply N.Div0.div_lt_upper_bound; lia]. }
  rewrite pretty_N_go_step by lia.
  rewrite pretty_N_go_step by lia.
  rewrite pretty_N_go_step by lia.
  rewrite pretty_N_go_step by lia.
  replace (n / 10 / 10 / 10 / 10)%N with 0%N
    by (symmetry; apply N.div_small; lia).
  rewrite pretty_N_go_0. eexists _, _, _, _.
  split; [reflexivity|repeat split; apply pretty_N_char_digit].
Qed.

Lemma pad2_two_digits (z : Z) :
  0 <= z <= 99 ->
  exists a b, Clock.pad2 z = String a (String b EmptyString)
              /\ is_digit a = true /\ is_digit b = true.
Proof.
  intros H. unfold Clock.pad2. destruct (z <? 10) eqn:E.
  - apply Z.ltb_lt in E. destruct (pretty_one_digit z) as (a & -> & Ha); [lia|].
    exists "0"%char, a. split; [reflexivity|split; [reflexivity|exact Ha]].
  - apply Z.ltb_ge in E. apply pretty_two_digits. lia.
Qed.

(** At a well-formed time the stamp reads [YYYY-MM-DD HH:MM]. *)
Lemma stamp_minute_shaped (now : DateTime) :
  Clock.valid now = true -> stamp_shaped (Clock.stamp_minute now) = true.
Proof.
  unfold Clock.valid. rewrite !andb_true_iff, !Z.leb_le. intros H.
  destruct (pretty_four_digits (year now)) as (y1 & y2 & y3 & y4 & Hy & Hy1 & Hy2 & Hy3 & Hy4);
    [lia|].
  destruct (pad2_two_digits (month now)) as (m1 & m2 & Hm & Hm1 & Hm2); [lia|].
  destruct (pad2_two_digits (day now)) as (d1 & d2 & Hd & Hd1 & Hd2); [lia|].
  destruct (pad2_two_digits (hour now)) as (h1 & h2 & Hh & Hh1 & Hh2); [lia|].
  destruct (pad2_two_digits (minute now)) as (n1 & n2 & Hn & Hn1 & Hn2); [lia|].
  unfold Clock.stamp_minute, Clock.hhmm. rewrite Hy, Hm, Hd, Hh, Hn.
  unfold stamp_shaped. cbv [String.append list_ascii_of_string forallb].
  rewrite Hy1, Hy2, Hy3, Hy4, Hm1, Hm2, Hd1, Hd2, Hh1, Hh2, Hn1, Hn2. reflexivity.
Qed.

End Stamp.

(** ** The scheduler loop *)

Section SchedulerFacts.

Variable P : Platform.
Variable cfg : Config.

Lemma run_frame_refl w : run_frame w w.
Proof. split; [reflexivity|]. exists []. rewrite app_nil_r. auto. Qed.

Lemma run_frame_trans w1 w2 w3 : run_frame w1 w2 -> run_frame w2 w3 -> run_frame w1 w3.
Proof.
  intros (Ht1 & e1 & He1 & Hs1) (Ht2 & e2 & He2 & Hs2). split; [congruence|].
  exists (e1 ++ e2). rewrite He2, He1, <- app_assoc, List.filter_app, Hs1, Hs2. auto.
Qed.

Lemma run_is_framed (task : Task) (dry_run : bool) :
  preserves run_frame (_run_upload_for_task P cfg task dry_run).
Proof.
  apply (preserves_run run_frame).
  - apply run_frame_refl.
  - apply run_frame_trans.
  - intros w e ftp He. split; [reflexivity|]. exists [e]. simpl. rewrite He. auto.
  - intros w ftp. split; [reflexivity|]. exists []. simpl. rewrite app_nil_r. auto.
Qed.

(** The loop body of a task that passes every guard. *)
Lemma loop_body_due (now : DateTime) (i : nat) (t : Task) (w : World) :
  due P t now = true ->
  loop_body P cfg now i t w
  = bind (_run_upload_for_task P cfg t (Py.truthy (Py.get t "dry_run" (JBool false))))
      (fun ok =>
         if ok then
           set_last_run i (Clock.stamp_minute now);;
           save_tasks P;;
           log INFO ("[TASK] Completed: " +:+ py_str P (Py.get t "name" (JStr "Task")))
         else
           log WARN ("[TASK] Failed: " +:+ py_str P (Py.get t "name" (JStr "Task"))))
      (logged w INFO (trigger_line P t now)).
Proof.
  unfold due, loop_body. intros H.
  apply andb_prop in H as [H Hran]. apply andb_prop in H as [H Htime].
  apply andb_prop in H as [Hen Hdays].
  rewrite Hen. cbn [negb].
  destruct (Py.contains _ _) as [e|listed]; [discriminate|]. subst listed.
  cbn [lift]. rewrite bind_ret_l. cbn [negb].
  destruct (time_differs P t now) as [e|differs]; [discriminate|].
  destruct differs; [discriminate|].
  apply negb_true_iff in Hran. rewrite Hran. reflexivity.
Qed.

(** The loop body of a task stopped by a guard, its [days] field allowing
    the membership test. *)
Lemma loop_body_not_due (now : DateTime) (i : nat) (t : Task) (w : World) (listed : bool) :
  Py.contains (Py.get t "days" (JList [])) (Clock.today now) = inr listed ->
  due P t now = false ->
  loop_body P cfg now i t w = (inr tt, w).
Proof.
  unfold due, loop_body. intros Hdays H. rewrite Hdays in *.
  destruct (Py.truthy (Py.get t "enabled" (JBool true))); [|reflexivity].
  cbn [negb]. cbn [lift]. rewrite bind_ret_l.
  destruct listed; [|reflexivity]. cbn [negb].
  destruct (time_differs P t now) as [e|[|]]; try reflexivity.
  simpl in H. apply negb_false_iff in H. rewrite H. reflexivity.
Qed.

Section Loop.

Variable R : World -> World -> Prop.
Hypothesis R_refl : forall w, R w w.
Hypothesis R_trans : forall w1 w2 w3, R w1 w2 -> R w2 w3 -> R w1 w3.
Hypothesis R_event :
  forall w e ftp, R w {| trace := trace w ++ [e]; tasks := tasks w; cli_ftp := ftp |}.
Hypothesis R_ftp :
  forall w ftp, R w {| trace := trace w; tasks := tasks w; cli_ftp := ftp |}.

Local Ltac p_ret := apply (preserves_ret R); exact R_refl.
Local Ltac p_log := apply (preserves_log R); intros; apply R_event.
Local Ltac p_bind := apply (preserves_bind R); [exact R_trans| |intros ?].

Lemma preserves_save_tasks : preserves R (save_tasks P).
Proof.
  intros w r w' H. unfold save_tasks in H. rewrite bind_emit in H.
  destruct (save_json P (trace w) (tasks w)); inversion H; subst; apply R_event.
Qed.

Lemma preserves_check_task (now : DateTime) (j : nat) :
  (forall w, R w (snd (set_last_run j (Clock.stamp_minute now) w))) ->
  preserves R (check_task P cfg now j).
Proof.
  intros Hset w r w' H. unfold check_task in H.
  destruct (tasks w !! j) as [t|]; [|inversion H; apply R_refl].
  revert w r w' H. change (preserves R (loop_body P cfg now j t)).
  unfold loop_body.
  apply (preserves_if R); [p_ret|].
  p_bind; [apply (preserves_lift R); exact R_refl|].
  apply (preserves_if R); [p_ret|].
  destruct (time_differs P t now) as [e|[|]]; try p_ret.
  apply (preserves_if R); [p_ret|].
  p_bind; [p_log|].
  p_bind; [apply (preserves_run R); auto|].
  apply (preserves_if R); [|p_log].
  p_bind; [intros w r w' H; inversion H; subst; apply Hset|].
  p_bind; [apply preserves_save_tasks|].
  p_log.
Qed.

End Loop.

Lemma check_task_keeps (now : DateTime) (i j : nat) :
  i <> j -> preserves (keeps i) (check_task P cfg now j).
Proof.
  intros Hij. apply (preserves_check_task (keeps i)); unfold keeps; try reflexivity.
  - intros w1 w2 w3 H1 H2. congruence.
  - intros w. cbn [set_last_run snd tasks]. apply list_lookup_alter_ne. congruence.
Qed.

Lemma stamps_only_trans stamp w1 w2 w3 :
  stamps_only stamp w1 w2 -> stamps_only stamp w2 w3 -> stamps_only stamp w1 w3.
Proof.
  intros H1 H2 i t Ht. destruct (H1 i t Ht) as [H|H]; destruct (H2 _ _ H) as [H'|H']; auto.
  right. rewrite H', insert_insert_eq. reflexivity.
Qed.

Lemma check_task_stamps_only (now : DateTime) (j : nat) :
  preserves (stamps_only (Clock.stamp_minute now)) (check_task P cfg now j).
Proof.
  apply (preserves_check_task (stamps_only (Clock.stamp_minute now))); unfold stamps_only; auto.
  - apply stamps_only_trans.
  - intros w i t Ht. cbn [set_last_run snd tasks].
    destruct (decide (j = i)) as [->|Hne].
    + right. rewrite list_lookup_alter_eq, Ht. reflexivity.
    + left. rewrite list_lookup_alter_ne by exact Hne. exact Ht.
Qed.

(** A task whose iteration is a no-op is never touched by the loop, and
    its iteration is a no-op at every point the loop may reach. *)
Lemma inert_task (now : DateTime) (i : nat) (t : Task) :
  (forall w, tasks w !! i = Some t -> check_task P cfg now i w = (inr tt, w)) ->
  forall idxs w r w',
    tasks w !! i = Some t ->
    for_each idxs (check_task P cfg now) w = (r, w') ->
    tasks w' !! i = Some t /\ check_task P cfg now i w' = (inr tt, w').
Proof.
  intros Hnoop idxs w r w' Ht Hrun.
  assert (preserves (stays i t) (for_each idxs (check_task P cfg now))) as Hpres.
  { apply (preserves_for_each (stays i t)); unfold stays; auto.
    intros j w1 r1 w1' H1 Ht1. cbv beta in *. destruct (decide (i = j)) as [<-|Hne].
    - rewrite (Hnoop _ Ht1) in H1. inversion H1; subst. exact Ht1.
    - rewrite (check_task_keeps now i j Hne _ _ _ H1). exact Ht1. }
  pose proof (Hpres _ _ _ Hrun Ht) as Ht'. split; [exact Ht'|apply Hnoop, Ht'].
Qed.

Lemma for_each_cons_ret {A} (body : A -> M unit) (x : A) (rest : list A) (w w1 : World) :
  body x w = (inr tt, w1) -> for_each (x :: rest) body w = for_each rest body w1.
Proof. intros H. cbn [for_each]. rewrite (bind_eq _ _ _ _ _ H). reflexivity. Qed.

Lemma for_each_cons_exn {A} (body : A -> M unit) (x : A) (rest : list A) (w w1 : World)
    (e : Exn) :
  body x w = (inl e, w1) -> for_each (x :: rest) body w = (inl e, w1).
Proof. intros H. cbn [for_each]. rewrite (bind_exn _ _ _ _ _ H). reflexivity. Qed.

End SchedulerFacts.

(** ** The scheduler: the claims *)

Section SchedulerClaims.

Variable P : Platform.
Variable cfg : Config.

Lemma valid_hour_minute (now : DateTime) :
  Clock.valid now = true -> 0 <= hour now /\ 0 <= minute now.
Proof.
  unfold Clock.valid. rewrite !andb_true_iff, !Z.leb_le. tauto.
Qed.

Lemma bad_time_never_matches (t : Task) (now : DateTime) :
  Clock.valid now = true -> bad_time P t -> time_differs P t now <> inr false.
Proof.
  intros Hv Hbad. apply valid_hour_minute in Hv as [Hh Hm].
  assert (negb (-1 =? hour now) = true) as Hh1
      by (apply negb_true_iff, Z.eqb_neq; lia).
  assert (negb (-1 =? minute now) = true) as Hm1
      by (apply negb_true_iff, Z.eqb_neq; lia).
  unfold time_differs, Py.get.
  destruct Hbad as [H|[H|[(v & e & H & He)|(v & e & H & He)]]]; rewrite H; cbn [from_option id].
  - cbn [Py.int]. rewrite Hh1. discriminate.
  - destruct (Py.int (int_of_str P) (default _ (t !! "hour"))) as [e|h]; [discriminate|].
    destruct (negb (h =? hour now)); [discriminate|].
    cbn [Py.int]. rewrite Hm1. discriminate.
  - rewrite He. discriminate.
  - destruct (Py.int (int_of_str P) (default _ (t !! "hour"))) as [e'|h]; [discriminate|].
    destruct (negb (h =? hour now)); [discriminate|].
    rewrite He. discriminate.
Qed.

Lemma check_task_at (now : DateTime) (i : nat) (t : Task) (w : World) :
  tasks w !! i = Some t -> check_task P cfg now i w = loop_body P cfg now i t w.
Proof. intros H. unfold check_task. rewrite H. reflexivity. Qed.

(** C9: a task whose [enabled] field is [false] passes no guard; its
    iteration of the scheduler loop returns at once and leaves the world
    as it found it (no trigger line, no run, no save), the loop going on
    with the tasks after it; this holds at whatever point of a tick the
    loop reaches the task, and the task is the same after the tick. *)
Theorem C9_disabled_task_is_never_run (now : DateTime) (i : nat) (t : Task) (w : World) :
  tasks w !! i = Some t ->
  t !! "enabled" = Some (JBool false) ->
  due P t now = false
  /\ check_task P cfg now i w = (inr tt, w)
  /\ (forall rest,
        for_each (i :: rest) (check_task P cfg now) w
        = for_each rest (check_task P cfg now) w)
  /\ (forall idxs r w',
        for_each idxs (check_task P cfg now) w = (r, w') ->
        tasks w' !! i = Some t /\ check_task P cfg now i w' = (inr tt, w'))
  /\ (forall r w', _check_tasks P cfg now w = (r, w') -> tasks w' !! i = Some t).
Proof.
  intros Ht Hen.
  assert (forall w0, tasks w0 !! i = Some t -> check_task P cfg now i w0 = (inr tt, w0))
    as Hnoop.
  { intros w0 H0. rewrite (check_task_at _ _ _ _ H0). unfold loop_body, Py.get.
    rewrite Hen. reflexivity. }
  split; [unfold due, Py.get; rewrite Hen; reflexivity|].
  split; [apply Hnoop, Ht|].
  split; [intros rest; apply for_each_cons_ret, Hnoop, Ht|].
  split; [intros idxs r w' H; eapply inert_task; eauto|].
  intros r w' H. unfold _check_tasks in H. eapply inert_task; eauto.
Qed.

(** The membership test on [days] raises nothing but [TypeError]. *)
Lemma contains_raises (v : JVal) (s : string) (e : Exn) :
  Py.contains v s = inl e -> e = TypeError.
Proof. destruct v; cbn [Py.contains]; congruence. Qed.

(** The loop body of an enabled task whose [days] cannot be searched. *)
Lemma loop_body_days_raise (now : DateTime) (i : nat) (t : Task) (w : World) (e : Exn) :
  Py.truthy (Py.get t "enabled" (JBool true)) = true ->
  Py.contains (Py.get t "days" (JList [])) (Clock.today now) = inl e ->
  loop_body P cfg now i t w = (inl e, w).
Proof.
  intros Hen Hdays. unfold loop_body. rewrite Hen, Hdays. reflexivity.
Qed.

(** C10 (amended): at a well-formed time, a task record whose [hour] or
    [minute] is missing or cannot be converted to an integer never passes
    the time guard: a missing field reads as -1, which differs from every
    hour and minute of the clock, and a failed conversion is caught; so
    the task is never due.  When the membership test on its [days], which
    comes before the time guard, returns, the iteration on such a task
    returns at once and leaves the world as it found it (nothing is
    logged, nothing raised), the loop going on with the tasks after it.
    When that test raises on an enabled task, which it does with
    [TypeError] only, the iteration raises it with the world unchanged and
    the loop ends there.  The test returns on a list, a string and an
    object, and raises on [null], a boolean and a number. *)
Theorem C10_unusable_hour_or_minute_is_skipped
    (now : DateTime) (i : nat) (t : Task) (w : World) :
  Clock.valid now = true ->
  tasks w !! i = Some t ->
  bad_time P t ->
  (t !! "hour" = None ->
     Py.int (int_of_str P) (Py.get t "hour" (JInt (-1))) = inr (-1)
     /\ (-1 =? hour now) = false)
  /\ (t !! "minute" = None ->
        Py.int (int_of_str P) (Py.get t "minute" (JInt (-1))) = inr (-1)
        /\ (-1 =? minute now) = false)
  /\ time_differs P t now <> inr false
  /\ due P t now = false
  /\ (forall listed,
        Py.contains (Py.get t "days" (JList [])) (Clock.today now) = inr listed ->
        check_task P cfg now i w = (inr tt, w)
        /\ (forall rest,
              for_each (i :: rest) (check_task P cfg now) w
              = for_each rest (check_task P cfg now) w)
        /\ (forall idxs r w',
              for_each idxs (check_task P cfg now) w = (r, w') ->
              tasks w' !! i = Some t /\ check_task P cfg now i w' = (inr tt, w')))
  /\ (forall e,
        Py.truthy (Py.get t "enabled" (JBool true)) = true ->
        Py.contains (Py.get t "days" (JList [])) (Clock.today now) = inl e ->
        e = TypeError
        /\ check_task P cfg now i w = (inl TypeError, w)
        /\ (forall rest,
              for_each (i :: rest) (check_task P cfg now) w = (inl TypeError, w)))
  /\ match Py.get t "days" (JList []) with
     | JNull | JBool _ | JInt _ =>
         Py.contains (Py.get t "days" (JList [])) (Clock.today now) = inl TypeError
     | JStr _ | JList _ | JObj _ =>
         exists listed,
           Py.contains (Py.get t "days" (JList [])) (Clock.today now) = inr listed
     end.
Proof.
  intros Hv Ht Hbad.
  pose proof (valid_hour_minute now Hv) as [Hh Hm].
  pose proof (bad_time_never_matches t now Hv Hbad) as Hnever.
  assert (due P t now = false) as Hdue.
  { unfold due. destruct (time_differs P t now) as [e|[|]]; try congruence;
      cbn [negb]; rewrite ?andb_false_r; reflexivity. }
  split; [intros H; unfold Py.get; rewrite H; split;
          [reflexivity|apply Z.eqb_neq; lia]|].
  split; [intros H; unfold Py.get; rewrite H; split;
          [reflexivity|apply Z.eqb_neq; lia]|].
  split; [exact Hnever|]. split; [exact Hdue|]. split; [|split].
  - intros listed Hdays.
    assert (forall w0, tasks w0 !! i = Some t -> check_task P cfg now i w0 = (inr tt, w0))
      as Hnoop.
    { intros w0 H0. rewrite (check_task_at _ _ _ _ H0).
      eapply loop_body_not_due; eauto. }
    split; [apply Hnoop, Ht|].
    split; [intros rest; apply for_each_cons_ret, Hnoop, Ht|].
    intros idxs r w' H. eapply inert_task; eauto.
  - intros e Hen Hdays. pose proof (contains_raises _ _ _ Hdays) as ->.
    assert (check_task P cfg now i w = (inl TypeError, w)) as Hstep
      by (rewrite (check_task_at _ _ _ _ Ht); apply loop_body_days_raise; assumption).
    split; [reflexivity|]. split; [exact Hstep|].
    intros rest. apply for_each_cons_exn, Hstep.
  - destruct (Py.get t "days" (JList [])); cbn [Py.contains]; eauto.
Qed.

(** The iteration on a task that passes every guard and whose run
    returns [False]. *)
Lemma check_task_failed (now : DateTime) (i : nat) (t : Task) (w : World) :
  tasks w !! i = Some t ->
  due P t now = true ->
  let run := _run_upload_for_task P cfg t (Py.truthy (Py.get t "dry_run" (JBool false)))
               (logged w INFO (trigger_line P t now)) in
  fst run = inr false ->
  check_task P cfg now i w
  = (inr tt, logged (snd run) WARN
               ("[TASK] Failed: " +:+ py_str P (Py.get t "name" (JStr "Task")))).
Proof.
  intros Ht Hdue run Hrun. rewrite (check_task_at _ _ _ _ Ht), (loop_body_due _ _ _ _ _ _ Hdue).
  fold run. destruct run as [r w1] eqn:E. cbn [fst snd] in *. subst r.
  erewrite bind_eq by exact E. reflexivity.
Qed.

(** C8: when the run of a due task returns [False], the iteration logs
    one warning line after whatever the run logged and returns; the task
    list, hence the task's [last_run], is as it was, and nothing was
    saved, so the same record faces the guards at the next tick. *)
Theorem C8_failed_run_leaves_last_run (now : DateTime) (i : nat) (t : Task) (w : World) :
  tasks w !! i = Some t ->
  due P t now = true ->
  let run := _run_upload_for_task P cfg t (Py.truthy (Py.get t "dry_run" (JBool false)))
               (logged w INFO (trigger_line P t now)) in
  let w' := snd (check_task P cfg now i w) in
  fst run = inr false ->
  check_task P cfg now i w
    = (inr tt, logged (snd run) WARN
                 ("[TASK] Failed: " +:+ py_str P (Py.get t "name" (JStr "Task"))))
  /\ tasks w' = tasks w
  /\ tasks w' !! i = Some t
  /\ exists evs,
       trace w' = trace w ++ ELog INFO (trigger_line P t now) :: evs
                          ++ [ELog WARN ("[TASK] Failed: "
                                         +:+ py_str P (Py.get t "name" (JStr "Task")))]
       /\ List.filter is_save evs = [].
Proof.
  intros Ht Hdue run w' Hrun. subst w'.
  rewrite (check_task_failed now i t w Ht Hdue Hrun). fold run.
  destruct run as [r w1] eqn:E. cbn [fst snd] in *.
  destruct (run_is_framed P cfg _ _ _ _ _ E) as (Htasks & evs & Htrace & Hsave).
  cbn [logged tasks trace] in *.
  split; [reflexivity|]. split; [exact Htasks|]. split; [rewrite Htasks; exact Ht|].
  exists evs. split; [|exact Hsave].
  rewrite Htrace, <- !app_assoc. reflexivity.
Qed.

Lemma save_tasks_eq (w : World) :
  save_tasks P w
  = match save_json P (trace w) (tasks w) with
    | Some e => (inl e, {| trace := trace w ++ [ESave (tasks w)];
                           tasks := tasks w; cli_ftp := cli_ftp w |})
    | None => (inr tt, {| trace := trace w ++ [ESave (tasks w)];
                          tasks := tasks w; cli_ftp := cli_ftp w |})
    end.
Proof.
  unfold save_tasks. rewrite bind_emit.
  destruct (save_json P (trace w) (tasks w)); reflexivity.
Qed.

(** The iteration on a task that passes every guard and whose run
    returns [True]: the stamp is set, then the save hook decides. *)
Lemma check_task_succeeded (now : DateTime) (i : nat) (t : Task) (w : World) :
  tasks w !! i = Some t ->
  due P t now = true ->
  let run := _run_upload_for_task P cfg t (Py.truthy (Py.get t "dry_run" (JBool false)))
               (logged w INFO (trigger_line P t now)) in
  let w2 := stamped_world i (Clock.stamp_minute now) (snd run) in
  fst run = inr true ->
  check_task P cfg now i w
  = match save_json P (trace (snd run)) (tasks w2) with
    | Some e => (inl e, w2)
    | None => (inr tt, logged w2 INFO ("[TASK] Completed: "
                                       +:+ py_str P (Py.get t "name" (JStr "Task"))))
    end
  /\ tasks w2 !! i = Some (<["last_run" := JStr (Clock.stamp_minute now)]> t).
Proof.
  intros Ht Hdue run w2 Hrun. subst w2.
  rewrite (check_task_at _ _ _ _ Ht), (loop_body_due _ _ _ _ _ _ Hdue).
  fold run. destruct run as [r w1] eqn:E. cbn [fst snd] in *. subst r.
  destruct (run_is_framed P cfg _ _ _ _ _ E) as (Htasks & _).
  cbn [logged tasks] in Htasks.
  split.
  - erewrite bind_eq by exact E. cbv iota.
    erewrite bind_eq by reflexivity.
    pose proof (save_tasks_eq
                  {| trace := trace w1;
                     tasks := alter (insert "last_run" (JStr (Clock.stamp_minute now)))
                                    i (tasks w1);
                     cli_ftp := cli_ftp w1 |}) as Hs.
    cbn [trace tasks cli_ftp] in Hs. unfold stamped_world. cbn [tasks].
    destruct (save_json P (trace w1) _).
    + erewrite bind_exn by exact Hs. reflexivity.
    + erewrite bind_eq by exact Hs. reflexivity.
  - unfold stamped_world. cbn [tasks]. rewrite list_lookup_alter_eq, Htasks, Ht.
    reflexivity.
Qed.

Lemma already_ran_stamped (t : Task) (stamp : string) :
  already_ran (<["last_run" := JStr stamp]> t) stamp = true.
Proof.
  unfold already_ran, Py.get_none, Py.get, Py.or_else.
  rewrite lookup_insert_eq. cbn [from_option id Py.truthy].
  destruct (String.eqb stamp EmptyString) eqn:E; cbn [negb Py.eq_str].
  - apply String.eqb_eq in E. subst. reflexivity.
  - apply String.eqb_refl.
Qed.

Lemma same_minute_today (now now' : DateTime) :
  same_minute now now' -> Clock.today now' = Clock.today now.
Proof.
  intros (Hy & Hm & Hd & _). unfold Clock.today, Clock.weekday, Clock.toordinal.
  rewrite Hy, Hm, Hd. reflexivity.
Qed.

Lemma same_minute_stamp (now now' : DateTime) :
  same_minute now now' -> Clock.stamp_minute now' = Clock.stamp_minute now.
Proof.
  intros (Hy & Hm & Hd & Hh & Hmi). unfold Clock.stamp_minute, Clock.hhmm.
  rewrite Hy, Hm, Hd, Hh, Hmi. reflexivity.
Qed.

Lemma check_tasks_stamps_only (now : DateTime) :
  preserves (stamps_only (Clock.stamp_minute now)) (_check_tasks P cfg now).
Proof.
  intros w r w' H. unfold _check_tasks in H. revert H.
  apply (preserves_for_each (stamps_only (Clock.stamp_minute now))).
  - intros w0 j u Hu. left. exact Hu.
  - apply stamps_only_trans.
  - intros j. apply check_task_stamps_only.
Qed.

Lemma same_minute_due (t : Task) (now now' : DateTime) :
  same_minute now now' -> due P t now' = due P t now.
Proof.
  intros Hsame. unfold due, time_differs.
  rewrite (same_minute_today _ _ Hsame), (same_minute_stamp _ _ Hsame).
  destruct Hsame as (_ & _ & _ & -> & ->). reflexivity.
Qed.

(** Only the last guard reads [last_run]. *)
Lemma due_with_last_run (t : Task) (now : DateTime) (s : string) :
  due P t now = true ->
  s <> Clock.stamp_minute now ->
  due P (<["last_run" := JStr s]> t) now = true.
Proof.
  intros Hdue Hs. unfold due, time_differs, Py.get in *.
  rewrite !lookup_insert_ne by discriminate.
  apply andb_prop in Hdue as [Hdue _]. rewrite Hdue. cbn [andb].
  unfold already_ran, Py.get_none, Py.get, Py.or_else.
  rewrite lookup_insert_eq. cbn [from_option id Py.truthy].
  apply negb_true_iff.
  destruct (String.eqb s EmptyString) eqn:E; cbn [negb Py.eq_str].
  - apply String.eqb_eq in E. subst s. apply String.eqb_neq. exact Hs.
  - apply String.eqb_neq. exact Hs.
Qed.

(** C1: when a due task runs and the run returns [True], the iteration
    leaves the task stamped with the minute of the tick, a string of the
    shape [YYYY-MM-DD HH:MM], whether or not the save that follows
    succeeds.  In any tick later in that minute the
    stamped task passes no guard: at whatever point the loop reaches it,
    its iteration leaves the world as it found it.  No tick clears a
    stamp: a tick leaves each task as it was or sets its [last_run] to
    the minute of that tick.  The stamp is all that holds the task back:
    the first iteration did trigger it, and with any other [last_run]
    the task would be due again in that minute. *)
Theorem C1_fires_at_most_once_per_minute
    (now now' : DateTime) (i : nat) (t : Task) (w : World) :
  tasks w !! i = Some t ->
  due P t now = true ->
  fst (_run_upload_for_task P cfg t (Py.truthy (Py.get t "dry_run" (JBool false)))
         (logged w INFO (trigger_line P t now))) = inr true ->
  same_minute now now' ->
  let t' := <["last_run" := JStr (Clock.stamp_minute now)]> t in
  let w2 := snd (check_task P cfg now i w) in
  tasks w2 !! i = Some t'
  /\ t' !! "last_run" = Some (JStr (Clock.stamp_minute now))
  /\ (Clock.valid now = true -> stamp_shaped (Clock.stamp_minute now) = true)
  /\ Clock.stamp_minute now' = Clock.stamp_minute now
  /\ due P t' now' = false
  /\ (forall idxs r w3,
        for_each idxs (check_task P cfg now') w2 = (r, w3) ->
        tasks w3 !! i = Some t' /\ check_task P cfg now' i w3 = (inr tt, w3))
  /\ (forall now'' r w4,
        _check_tasks P cfg now'' w2 = (r, w4) ->
        stamps_only (Clock.stamp_minute now'') w2 w4)
  /\ (exists evs, trace w2 = trace w ++ ELog INFO (trigger_line P t now) :: evs)
  /\ (forall s, s <> Clock.stamp_minute now' ->
        due P (<["last_run" := JStr s]> t) now' = true).
Proof.
  intros Ht Hdue Hrun Hsame t' w2.
  pose proof (same_minute_stamp _ _ Hsame) as Hstamp.
  assert (tasks w2 !! i = Some t') as Ht2.
  { subst w2. destruct (check_task_succeeded now i t w Ht Hdue Hrun) as [Heq Hst].
    rewrite Heq. destruct (save_json P _ _); exact Hst. }
  assert (already_ran t' (Clock.stamp_minute now') = true) as Hran
    by (rewrite Hstamp; apply already_ran_stamped).
  assert (due P t' now' = false) as Hdue'
    by (unfold due; rewrite Hran; cbn [negb]; apply andb_false_r).
  assert (Py.contains (Py.get t' "days" (JList [])) (Clock.today now') = inr true)
    as Hdays.
  { rewrite (same_minute_today _ _ Hsame). unfold Py.get, t'.
    rewrite lookup_insert_ne by discriminate.
    unfold due in Hdue. apply andb_prop in Hdue as [Hdue _].
    apply andb_prop in Hdue as [Hdue _]. apply andb_prop in Hdue as [_ Hdue].
    unfold Py.get in Hdue. destruct (Py.contains _ _) as [e|[|]]; congruence. }
  split; [exact Ht2|]. split; [apply lookup_insert_eq|].
  split; [apply stamp_minute_shaped|]. split; [exact Hstamp|].
  split; [exact Hdue'|]. split.
  { intros idxs r w3 H. eapply inert_task; eauto.
    intros w0 H0. rewrite (check_task_at _ _ _ _ H0).
    eapply loop_body_not_due; eauto. }
  split; [intros now'' r w4 H; eapply check_tasks_stamps_only, H|].
  split.
  - subst w2. destruct (check_task_succeeded now i t w Ht Hdue Hrun) as [Heq _].
    rewrite Heq.
    destruct (_run_upload_for_task P cfg t _ _) as [r1 w1] eqn:E.
    destruct (run_is_framed P cfg _ _ _ _ _ E) as (_ & evs & Htrace & _).
    cbn [logged trace snd] in *.
    destruct (save_json P _ _); cbn [snd stamped_world logged trace];
      rewrite Htrace, <- !app_assoc; eexists; reflexivity.
  - intros s Hs. apply due_with_last_run; [|exact Hs].
    rewrite (same_minute_due _ _ _ Hsame). exact Hdue.
Qed.


End SchedulerClaims.

(** * The concrete installation at work *)

Section Examples.

Import Demo.

Example weekday_2026_11_03 :
  Clock.today now = "Tue" /\ Clock.stamp_minute now = "2026-11-03 09:00".
Proof. split; vm_compute; reflexivity. Qed.

Lemma C1_fires_at_most_once_per_minute_witness :
  due platform (<["last_run" := JStr (Clock.stamp_minute now)]>
                  (task "A" true true "enabled" [] EmptyString)) now' = false.
Proof.
  refine (proj1 (proj2 (proj2 (proj2 (proj2
    (C1_fires_at_most_once_per_minute platform cfg now now' 0%nat
       (task "A" true true "enabled" [] EmptyString)
       (world [task "A" true true "enabled" [] EmptyString]) _ _ _ _))))));
    [reflexivity|vm_compute; reflexivity|vm_compute; reflexivity
    |unfold same_minute; split; [|split; [|split; [|split]]]; reflexivity].
Defined.



Lemma C3_preconditions_before_network_witness :
  _run_upload_for_task platform cfg
    (task "B" true false "selected" ["loot"; "events"] EmptyString) false (world [])
  = (inr false,
     logged (world []) ERROR
       ("[TASK] Missing files in preset:" +:+ String "010" EmptyString
        +:+ PyStr.join (String "010" EmptyString)
              (missing_files platform (path_join platform (presets_dir cfg) "pvp")
                 (use_mappings "selected" (list_to_set ["loot"; "events"])
                    (mappings cfg))))).
Proof.
  refine (proj2 (proj1 (proj2 (proj2 (proj2
    (C3_preconditions_before_network platform cfg
       (task "B" true false "selected" ["loot"; "events"] EmptyString) false (world [])
       "main" "pvp" "selected" (list_to_set ["loot"; "events"]) _)))) _ _ _ events _ _)).
  - unfold reads. split; [|split; [|split]]; vm_compute; reflexivity.
  - vm_compute. discriminate.
  - vm_compute. reflexivity.
  - vm_compute. discriminate.
  - apply list_elem_of_In. vm_compute. right. left. reflexivity.
  - vm_compute. reflexivity.
Defined.

Lemma C6_dry_run_opens_no_connection_witness :
  _run_upload_for_task platform cfg (task "A" true true "enabled" [] EmptyString) true
    (world [])
  = (inr true,
     extended (world [])
       (map (would_upload platform main_profile (path_join platform (presets_dir cfg) "pvp"))
            (use_mappings "enabled" ∅ (mappings cfg)))).
Proof.
  refine (proj1 (C6_dry_run_opens_no_connection platform cfg
                   (task "A" true true "enabled" [] EmptyString) (world []) main_profile
                   "main" "pvp" "enabled" ∅ _ _ _ _ _)).
  - unfold reads. split; [|split; [|split]]; vm_compute; reflexivity.
  - vm_compute. reflexivity.
  - vm_compute. reflexivity.
  - vm_compute. discriminate.
  - vm_compute. reflexivity.
Defined.

Lemma C7_backup_failure_is_not_fatal_witness :
  fst (_run_upload_for_task platform cfg
         (task "C" true false "selected" ["loot"; "types"] EmptyString) false (world []))
  = inr true.
Proof.
  destruct (C7_backup_failure_is_not_fatal platform cfg
              (task "C" true false "selected" ["loot"; "types"] EmptyString) (world [])
              main_profile "main" "pvp" "selected" (list_to_set ["loot"; "types"]))
    as (outcomes & _ & Hrun & _).
  - unfold reads. split; [|split; [|split]]; vm_compute; reflexivity.
  - vm_compute. reflexivity.
  - vm_compute. reflexivity.
  - vm_compute. discriminate.
  - vm_compute. reflexivity.
  - reflexivity.
  - reflexivity.
  - rewrite Hrun. reflexivity.
Defined.

Lemma C8_failed_run_leaves_last_run_witness :
  tasks (snd (check_task platform cfg now 0%nat
                (world [task "B" true false "selected" ["loot"; "events"] EmptyString])))
  = [task "B" true false "selected" ["loot"; "events"] EmptyString].
Proof.
  refine (proj1 (proj2
    (C8_failed_run_leaves_last_run platform cfg now 0%nat
       (task "B" true false "selected" ["loot"; "events"] EmptyString)
       (world [task "B" true false "selected" ["loot"; "events"] EmptyString]) _ _ _)));
    [reflexivity|vm_compute; reflexivity|vm_compute; reflexivity].
Defined.

Lemma C9_disabled_task_is_never_run_witness :
  check_task platform cfg now 0%nat
    (world [task "A" false false "enabled" [] EmptyString])
  = (inr tt, world [task "A" false false "enabled" [] EmptyString]).
Proof.
  refine (proj1 (proj2
    (C9_disabled_task_is_never_run platform cfg now 0%nat
       (task "A" false false "enabled" [] EmptyString)
       (world [task "A" false false "enabled" [] EmptyString]) _ _)));
    [reflexivity|vm_compute; reflexivity].
Defined.

Lemma C10_unusable_hour_or_minute_is_skipped_witness :
  check_task platform cfg now 0%nat
    (world [<["hour" := JStr "nine"]> (task "A" true false "enabled" [] EmptyString)])
  = (inr tt,
     world [<["hour" := JStr "nine"]> (task "A" true false "enabled" [] EmptyString)]).
Proof.
  refine (proj1 (proj1 (proj2 (proj2 (proj2 (proj2
    (C10_unusable_hour_or_minute_is_skipped platform cfg now 0%nat
       (<["hour" := JStr "nine"]> (task "A" true false "enabled" [] EmptyString))
       (world [<["hour" := JStr "nine"]> (task "A" true false "enabled" [] EmptyString)])
       _ _ _))))) true _));
    [reflexivity|reflexivity| |vm_compute; reflexivity].
  right. right. left. exists (JStr "nine"), ValueError. split; vm_compute; reflexivity.
Defined.

(** C10, as stated, fails: task A is enabled, has no [hour] and a [days]
    field that is [null]; the membership test on its days, which comes
    before the time guard, raises [TypeError]; the tick ends with the
    scheduler's error lines and C, which alone is triggered and
    completes, is not evaluated. *)
Lemma C10_unsearchable_days_raise_before_the_time_guard :
  let tA := delete "hour" (<["days" := JNull]> (task "A" true true "enabled" [] EmptyString)) in
  let tC := task "C" true true "enabled" [] EmptyString in
  tA !! "hour" = None
  /\ Py.truthy (Py.get tA "enabled" (JBool true)) = true
  /\ check_task platform cfg now 0%nat (world [tA; tC]) = (inl TypeError, world [tA; tC])
  /\ due platform tC now = true
  /\ logs_of (trace (_tick platform cfg true now (world [tA; tC])))
     = [(ERROR, "Scheduler error: TypeError"); (ERROR, "Traceback: TypeError")]
  /\ logs_of (trace (_tick platform cfg true now (world [tC])))
     = [(INFO, "[TASK] Trigger: C (Tue 09:00)");
        (INFO, "[TASK][DRY] Would upload: /presets/pvp/cfg/loot.xml -> /dayzstandalone/configs/loot.xml");
        (INFO, "[TASK][DRY] Would upload: /presets/pvp/cfg/types.xml -> /dayzstandalone/configs/types.xml");
        (INFO, "[TASK] Completed: C")].
Proof. cbv zeta. split; [|split; [|split; [|split; [|split]]]]; vm_compute; reflexivity. Qed.

End Examples.


(** ** The task runner: failures of the transfer *)

Section RunnerFailures.

Variable P : Platform.
Variable cfg : Config.

(** The runner past its precondition checks. *)
Lemma run_checked (task : Task) (dry_run : bool) (w : World) (p : Profile)
    (profile_name preset_name mode : string) (selected_names : gset string) :
  reads P task profile_name preset_name mode selected_names ->
  let preset_dir := path_join P (presets_dir cfg) preset_name in
  let use := use_mappings mode selected_names (mappings cfg) in
  List.find (fun x => String.eqb (p_name x) profile_name) (profiles cfg) = Some p ->
  path_exists P preset_dir = true ->
  use <> [] ->
  missing_files P preset_dir use = [] ->
  _run_upload_for_task P cfg task dry_run w
  = try_finally
      (try_except (transfer P cfg p preset_name preset_dir
                     (norm_remote (root_or_slash (p_root p))) use dry_run)
                  (upload_failed P))
      cli_close
      {| trace := trace w; tasks := tasks w; cli_ftp := false |}.
Proof.
  intros Hr preset_dir use Hf Hex Hu Hmiss.
  rewrite (run_unfold P cfg _ _ _ _ _ _ _ Hr), Hf. cbv zeta. fold preset_dir. fold use.
  rewrite Hex. cbn [negb].
  destruct use as [|m0 use'] eqn:Euse; [congruence|]. rewrite Hmiss. reflexivity.
Qed.

(** X1: when the server refuses the connection, the run logs the error and
    its traceback and returns [False]; nothing is downloaded or uploaded,
    and no connection is quit, none being open. *)
Theorem X1_refused_connection_fails_the_run
    (task : Task) (w : World) (p : Profile) (e : Exn)
    (profile_name preset_name mode : string) (selected_names : gset string) :
  reads P task profile_name preset_name mode selected_names ->
  let preset_dir := path_join P (presets_dir cfg) preset_name in
  let use := use_mappings mode selected_names (mappings cfg) in
  List.find (fun x => String.eqb (p_name x) profile_name) (profiles cfg) = Some p ->
  path_exists P preset_dir = true ->
  use <> [] ->
  missing_files P preset_dir use = [] ->
  ftp_connect P (trace w) p (timeout cfg) = Some e ->
  _run_upload_for_task P cfg task false w
  = (inr false,
     extended w [EConnect p (timeout cfg);
                 ELog ERROR ("[TASK] Upload failed: " +:+ str_exn P e);
                 ELog ERROR (format_exc P e)]).
Proof.
  intros Hr preset_dir use Hf Hex Hu Hmiss Hconn.
  rewrite (run_checked _ _ _ _ _ _ _ _ Hr Hf Hex Hu Hmiss).
  unfold try_finally, try_except, transfer.
  erewrite bind_exn; cycle 1.
  { unfold cli_connect. cbn [trace tasks cli_ftp]. rewrite Hconn. reflexivity. }
  unfold upload_failed, log. rewrite !bind_emit.
  unfold ret, cli_close, extended. cbn [trace tasks cli_ftp].
  rewrite <- !app_assoc. reflexivity.
Qed.

Lemma for_each_app {A} (l1 l2 : list A) (body : A -> M unit) (w : World) :
  for_each (l1 ++ l2) body w = bind (for_each l1 body) (fun _ => for_each l2 body) w.
Proof.
  revert w. induction l1 as [|x l1 IH]; intros w; [reflexivity|].
  cbn [app for_each]. unfold bind.
  destruct (body x w) as [[e|[]] w1]; [reflexivity|]. rewrite IH. reflexivity.
Qed.

(** What the backup step of one round adds to the trace. *)
Lemma backup_step (p : Profile) (preset_name : string) (m : Mapping) (w : World) :
  let remote := remote_full (p_root p) (m_remote_path m) in
  let bpath := backup_path P cfg p preset_name (now_stamp P (trace w)) m in
  let ok := ftp_retr P (trace w) remote bpath in
  (do bpath <- (fun w => ret (backup_path P cfg p preset_name (now_stamp P (trace w)) m) w);
   do ok <- cli_download P remote bpath;
   if ok
   then log INFO ("[TASK] Backup OK: " +:+ remote +:+ " -> " +:+ bpath)
   else log WARN ("[TASK] Backup skipped/failed: " +:+ remote)) w
  = (inr tt,
     {| trace := trace w
                 ++ [EDownload remote bpath ok;
                     if ok
                     then ELog INFO ("[TASK] Backup OK: " +:+ remote +:+ " -> " +:+ bpath)
                     else ELog WARN ("[TASK] Backup skipped/failed: " +:+ remote)];
        tasks := tasks w; cli_ftp := cli_ftp w |}).
Proof.
  intros remote bpath ok. subst ok bpath.
  cbv [bind ret cli_download emit log]. cbn [trace tasks cli_ftp].
  destruct (ftp_retr P _ _ _); cbn [trace tasks cli_ftp];
    rewrite <- app_assoc; reflexivity.
Qed.

(** One round of the upload loop, by what the server answers to the upload. *)
Lemma upload_one_step (p : Profile) (preset_name preset_dir : string) (m : Mapping)
    (w : World) :
  let bpath := backup_path P cfg p preset_name (now_stamp P (trace w)) m in
  let ok := ftp_retr P (trace w) (remote_full (p_root p) (m_remote_path m)) bpath in
  let block := upload_block P p preset_dir m (ok, bpath) in
  forall h,
    h = trace w ++ removelast (removelast block) ->
    upload_one P cfg p preset_name preset_dir (norm_remote (root_or_slash (p_root p))) m w
    = match ftp_stor P h (local_file_of P preset_dir m)
              (remote_full (p_root p) (m_remote_path m)) with
      | None => (inr tt, {| trace := trace w ++ block;
                            tasks := tasks w; cli_ftp := cli_ftp w |})
      | Some e => (inl e, {| trace := trace w ++ removelast block;
                             tasks := tasks w; cli_ftp := cli_ftp w |})
      end.
Proof.
  intros bpath ok block h Hh. subst block. unfold upload_one, upload_block in *.
  rewrite join_remote_eq.
  set (remote := remote_full (p_root p) (m_remote_path m)) in *.
  cbn [fst snd] in *.
  destruct (m_backup_before_overwrite m).
  - erewrite bind_eq by apply (backup_step p preset_name m w).
    fold remote. fold bpath. fold ok.
    cbn [app removelast] in Hh. subst h.
    unfold cli_upload, bind, emit, log, ret, raise. cbn [trace tasks cli_ftp].
    destruct (ftp_stor P _ _ _); unfold emit; cbn [app removelast trace tasks cli_ftp];
      rewrite <- !app_assoc; reflexivity.
  - erewrite bind_eq by reflexivity.
    cbn [app removelast] in Hh. rewrite app_nil_r in Hh. subst h.
    unfold cli_upload, bind, emit, log, ret, raise. cbn [trace tasks cli_ftp].
    destruct (ftp_stor P _ _ _); unfold emit; cbn [app removelast trace tasks cli_ftp];
      rewrite <- ?app_assoc; reflexivity.
Qed.

Lemma for_each_upload_accepted (p : Profile) (preset_name preset_dir : string)
    (ms : list Mapping) (w : World) :
  (forall m h r, m ∈ ms -> ftp_stor P h (local_file_of P preset_dir m) r = None) ->
  exists outcomes : list (bool * string),
    length outcomes = length ms
    /\ for_each ms (upload_one P cfg p preset_name preset_dir
                      (norm_remote (root_or_slash (p_root p)))) w
       = (inr tt, {| trace := trace w ++ concat (zip_with (upload_block P p preset_dir)
                                                          ms outcomes);
                     tasks := tasks w; cli_ftp := cli_ftp w |}).
Proof.
  revert w. induction ms as [|m ms IH]; intros w Hstor.
  - exists []. split; [reflexivity|]. simpl. rewrite app_nil_r, world_eta. reflexivity.
  - cbn [for_each].
    pose proof (upload_one_step p preset_name preset_dir m w _ eq_refl) as Hone.
    cbv zeta in Hone. rewrite Hstor in Hone by left.
    erewrite bind_eq by exact Hone.
    match goal with |- context [for_each ms _ ?w1] =>
      destruct (IH w1) as (outs & Hlen & Heq) end.
    { intros m' h r Hm'. apply Hstor. right. exact Hm'. }
    eexists (_ :: outs). split; [simpl; rewrite Hlen; reflexivity|].
    rewrite Heq. cbn [trace tasks cli_ftp zip_with concat].
    rewrite <- !app_assoc. reflexivity.
Qed.

(** X2: the upload loop stops at the first file the server refuses.  The
    mappings before it have been uploaded and stay so, the refused upload
    is the last one attempted, the mappings after it are not touched; the
    run logs the error and its traceback, quits the connection and returns
    [False]. *)
Theorem X2_refused_upload_ends_the_run
    (task : Task) (w : World) (p : Profile) (e : Exn)
    (profile_name preset_name mode : string) (selected_names : gset string)
    (pre post : list Mapping) (m : Mapping) :
  reads P task profile_name preset_name mode selected_names ->
  let preset_dir := path_join P (presets_dir cfg) preset_name in
  let upload_of := fun m => EUpload (local_file_of P preset_dir m)
                                    (remote_full (p_root p) (m_remote_path m)) in
  List.find (fun x => String.eqb (p_name x) profile_name) (profiles cfg) = Some p ->
  path_exists P preset_dir = true ->
  use_mappings mode selected_names (mappings cfg) = pre ++ m :: post ->
  missing_files P preset_dir (pre ++ m :: post) = [] ->
  ftp_connect P (trace w) p (timeout cfg) = None ->
  (forall m' h r, m' ∈ pre -> ftp_stor P h (local_file_of P preset_dir m') r = None) ->
  (forall h r, ftp_stor P h (local_file_of P preset_dir m) r = Some e) ->
  exists (outcomes : list (bool * string)) (outcome : bool * string),
    length outcomes = length pre
    /\ let done := concat (zip_with (upload_block P p preset_dir) pre outcomes)
                   ++ removelast (upload_block P p preset_dir m outcome) in
       _run_upload_for_task P cfg task false w
       = (inr false,
          extended w (EConnect p (timeout cfg) :: done
                      ++ [ELog ERROR ("[TASK] Upload failed: " +:+ str_exn P e);
                          ELog ERROR (format_exc P e);
                          EQuit]))
       /\ List.filter is_upload done = map upload_of (pre ++ [m]).
Proof.
  intros Hr preset_dir upload_of Hf Hex Huse Hmiss Hconn Hpre Hm.
  set (w1 := {| trace := trace w ++ [EConnect p (timeout cfg)];
                tasks := tasks w; cli_ftp := true |}).
  destruct (for_each_upload_accepted p preset_name preset_dir pre w1 Hpre)
    as (outs & Hlen & Hloop).
  match type of Hloop with _ = (_, ?w2') => set (w2 := w2') in * end.
  pose proof (upload_one_step p preset_name preset_dir m w2 _ eq_refl) as Hone.
  cbv zeta in Hone. rewrite Hm in Hone.
  match type of Hone with context [upload_block P p preset_dir m ?oc] =>
    exists outs, oc end.
  split; [exact Hlen|]. cbv zeta. split.
  - assert (pre ++ m :: post <> []) as Hne by (destruct pre; discriminate).
    rewrite <- Huse in Hne, Hmiss.
    rewrite (run_checked _ _ _ _ _ _ _ _ Hr Hf Hex Hne Hmiss). fold preset_dir.
    rewrite Huse. unfold try_finally, try_except, transfer.
    erewrite bind_eq; cycle 1.
    { unfold cli_connect. cbn [trace tasks cli_ftp]. rewrite Hconn. reflexivity. }
    fold w1. erewrite bind_exn; cycle 1.
    { rewrite for_each_app. erewrite bind_eq by exact Hloop.
      cbn [for_each]. erewrite bind_exn by exact Hone. reflexivity. }
    unfold upload_failed, log. rewrite !bind_emit.
    unfold ret, cli_close, extended. subst w2 w1. cbn [trace tasks cli_ftp].
    rewrite <- !app_assoc. reflexivity.
  - rewrite List.filter_app, (uploads_of_blocks P p preset_dir pre outs Hlen), map_app.
    f_equal. unfold upload_block.
    destruct (m_backup_before_overwrite m); cbn [fst snd app removelast List.filter];
      [match goal with |- context [if ?b then ELog _ _ else ELog _ _] => destruct b end|];
      reflexivity.
Qed.

(** X3: the run never leaves a connection open: started with the client
    closed, it ends with the client closed, whether it returns or raises;
    and it never changes the task list. *)
Theorem X3_run_closes_its_connection
    (task : Task) (dry_run : bool) (w w' : World) (r : Exn + bool) :
  cli_ftp w = false ->
  _run_upload_for_task P cfg task dry_run w = (r, w') ->
  cli_ftp w' = false /\ tasks w' = tasks w.
Proof.
  intros Hclosed Hrun. split; [|eapply run_is_framed, Hrun].
  revert Hrun. unfold _run_upload_for_task.
  repeat (match goal with
          | |- context [lift ?x] =>
              destruct x; cbn [lift];
              [unfold bind at 1, raise; intros H; inversion H; subst; exact Hclosed|];
              rewrite bind_ret_l
          end).
  destruct (List.find _ _) as [p|];
    [|unfold log; rewrite bind_emit; intros H; inversion H; exact Hclosed].
  cbv zeta. destruct (negb _);
    [unfold log; rewrite bind_emit; intros H; inversion H; exact Hclosed|].
  destruct (use_mappings _ _ _) as [|m0 use];
    [unfold log; rewrite bind_emit; intros H; inversion H; exact Hclosed|].
  destruct (missing_files _ _ _);
    [|unfold log; rewrite bind_emit; intros H; inversion H; exact Hclosed].
  unfold bind at 1, cli_new, try_finally.
  destruct (try_except _ _ _) as [r1 w1]. intros H. inversion H. reflexivity.
Qed.

End RunnerFailures.


(** ** The scheduler: what a tick keeps *)

Section TickFacts.

Variable P : Platform.
Variable cfg : Config.

Lemma grows_refl (w : World) : grows w w.
Proof. split; [exists []; rewrite app_nil_r|]; reflexivity. Qed.

Lemma grows_trans (w1 w2 w3 : World) : grows w1 w2 -> grows w2 w3 -> grows w1 w3.
Proof.
  intros [[e1 H1] L1] [[e2 H2] L2]. split; [|congruence].
  exists (e1 ++ e2). rewrite H2, H1, app_assoc. reflexivity.
Qed.

Lemma check_tasks_grows (now : DateTime) : preserves grows (_check_tasks P cfg now).
Proof.
  intros w r w' H. unfold _check_tasks in H. revert H.
  apply (preserves_for_each grows grows_refl grows_trans). intros j.
  apply (preserves_check_task P cfg grows grows_refl grows_trans).
  - intros w0 e ftp. split; [exists [e]|]; reflexivity.
  - intros w0 ftp. split; [exists []; cbn [trace]; rewrite app_nil_r|]; reflexivity.
  - intros w0. split; [exists []; cbn; rewrite app_nil_r; reflexivity|].
    cbn [set_last_run snd tasks]. apply length_alter.
Qed.

Lemma sn_refl (w : World) : schedules_nothing w w.
Proof. exists []. rewrite app_nil_r. split; reflexivity. Qed.

Lemma sn_trans (w1 w2 w3 : World) :
  schedules_nothing w1 w2 -> schedules_nothing w2 w3 -> schedules_nothing w1 w3.
Proof.
  intros (e1 & H1 & F1) (e2 & H2 & F2). exists (e1 ++ e2).
  rewrite H2, H1, <- app_assoc, List.filter_app, F1, F2. split; reflexivity.
Qed.

Lemma sn_same (w w' : World) : trace w' = trace w -> schedules_nothing w w'.
Proof. intros H. exists []. rewrite app_nil_r. split; [exact H|reflexivity]. Qed.

Lemma sn_one (w w' : World) (e : Event) :
  is_after e = false -> trace w' = trace w ++ [e] -> schedules_nothing w w'.
Proof. intros He H. exists [e]. cbn [List.filter]. rewrite He. split; [exact H|reflexivity]. Qed.

Lemma sn_emit (e : Event) : is_after e = false -> preserves schedules_nothing (emit e).
Proof. intros He w r w' H. inversion H; subst. eapply sn_one; [exact He|reflexivity]. Qed.

Lemma sn_log (lvl : Level) (msg : string) : preserves schedules_nothing (log lvl msg).
Proof. apply sn_emit. reflexivity. Qed.

Local Ltac s_ret := apply (preserves_ret schedules_nothing); exact sn_refl.
Local Ltac s_lift := apply (preserves_lift schedules_nothing); exact sn_refl.
Local Ltac s_bind := apply (preserves_bind schedules_nothing); [exact sn_trans| |intros ?].
Local Ltac s_if := apply (preserves_if schedules_nothing).
Local Ltac s_each :=
  apply (preserves_for_each schedules_nothing); [exact sn_refl|exact sn_trans|intros ?].
Local Ltac s_log_ret := s_bind; [apply sn_log|s_ret].

Lemma sn_cli_close (w : World) : schedules_nothing w (cli_close w).
Proof.
  unfold cli_close. destruct (cli_ftp w).
  - eapply sn_one; [|reflexivity]. reflexivity.
  - apply sn_same. reflexivity.
Qed.

(** The runner schedules no tick. *)
Lemma sn_run (task : Task) (dry_run : bool) :
  preserves schedules_nothing (_run_upload_for_task P cfg task dry_run).
Proof.
  unfold _run_upload_for_task.
  repeat (s_bind; [s_lift|]).
  destruct (List.find _ _) as [p|]; [|s_log_ret].
  cbv zeta. s_if; [s_log_ret|].
  destruct (use_mappings _ _ _) as [|m0 use]; [s_log_ret|].
  destruct (missing_files _ _ _); [|s_log_ret].
  s_bind; [intros w r w' H; inversion H; subst; apply sn_same; reflexivity|].
  apply (preserves_try_finally schedules_nothing); [exact sn_trans| |apply sn_cli_close].
  apply (preserves_try_except schedules_nothing); [exact sn_trans| |].
  - unfold transfer. s_if.
    + s_bind; [|s_ret]. s_each. apply sn_log.
    + s_bind.
      { intros w r w' H. unfold cli_connect in H.
        destruct (ftp_connect P (trace w) p (timeout cfg)); inversion H; subst;
          (eapply sn_one; [|reflexivity]); reflexivity. }
      s_bind; [|s_ret]. s_each. unfold upload_one.
      s_bind; [|s_bind; [|apply sn_log]].
      * s_if; [|s_ret].
        s_bind; [intros w r w' H; inversion H; subst; apply sn_refl|].
        s_bind; [|s_if; apply sn_log].
        intros w r w' H. unfold cli_download in H. rewrite bind_emit in H.
        inversion H; subst. eapply sn_one; [|reflexivity]. reflexivity.
      * intros w r w' H. unfold cli_upload in H. rewrite bind_emit in H.
        destruct (ftp_stor P (trace w) _ _); inversion H; subst;
          (eapply sn_one; [|reflexivity]); reflexivity.
  - intros e. unfold upload_failed. s_bind; [apply sn_log|]. s_log_ret.
Qed.

(** A pass of the scheduler loop schedules no tick. *)
Lemma sn_check_tasks (now : DateTime) : preserves schedules_nothing (_check_tasks P cfg now).
Proof.
  intros w r w' H. unfold _check_tasks in H. revert H.
  apply (preserves_for_each schedules_nothing sn_refl sn_trans). intros j.
  clear w r w'. intros w r w' H. unfold check_task in H.
  destruct (tasks w !! j) as [t|]; [|inversion H; apply sn_refl].
  revert w r w' H. change (preserves schedules_nothing (loop_body P cfg now j t)).
  unfold loop_body.
  s_if; [s_ret|]. s_bind; [s_lift|]. s_if; [s_ret|].
  destruct (time_differs P t now) as [e|[|]]; try s_ret.
  s_if; [s_ret|].
  s_bind; [apply sn_log|].
  s_bind; [apply sn_run|].
  s_if; [|apply sn_log].
  s_bind; [intros w r w' H; inversion H; subst; apply sn_same; reflexivity|].
  s_bind; [|apply sn_log].
  intros w r w' H. rewrite save_tasks_eq in H.
  destruct (save_json P (trace w) (tasks w)); inversion H; subst;
    (eapply sn_one; [|reflexivity]); reflexivity.
Qed.

Lemma tick_length (scheduler_running : bool) (now : DateTime) (w : World) :
  length (tasks (_tick P cfg scheduler_running now w)) = length (tasks w).
Proof.
  unfold _tick, try_except. destruct scheduler_running; [|reflexivity].
  destruct (_check_tasks P cfg now w) as [[e|[]] w1] eqn:E;
    destruct (check_tasks_grows now _ _ _ E) as [_ Hlen]; exact Hlen.
Qed.

(** X4: whatever happens in it, a tick only extends the trace and ends by
    scheduling the next tick: of the events it adds exactly one schedules
    a tick, the last one, after at least 1000 ms.  It keeps the number of
    tasks and changes a task at most by stamping it with the minute of the
    tick.  While the scheduler is stopped the tick does nothing but
    schedule the next one. *)
Theorem X4_tick_always_reschedules (scheduler_running : bool) (now : DateTime) (w : World) :
  let w' := _tick P cfg scheduler_running now w in
  let delay := Z.max 1000 (tick_seconds cfg * 1000) in
  (exists evs, trace w' = trace w ++ evs ++ [EAfter delay]
               /\ List.filter is_after evs = []
               /\ List.filter is_after (evs ++ [EAfter delay]) = [EAfter delay]
               /\ (scheduler_running = false -> evs = []))
  /\ 1000 <= delay
  /\ (1 <= tick_seconds cfg -> delay = tick_seconds cfg * 1000)
  /\ length (tasks w') = length (tasks w)
  /\ stamps_only (Clock.stamp_minute now) w w'
  /\ (scheduler_running = false -> tasks w' = tasks w).
Proof.
  intros w' delay. subst w'. unfold _tick, try_except.
  split; [|split; [lia|split; [lia|]]].
  - assert (forall evs : list Event,
               List.filter is_after evs = [] ->
               List.filter is_after (evs ++ [EAfter delay]) = [EAfter delay]) as Hone
      by (intros evs Hevs; rewrite List.filter_app, Hevs; reflexivity).
    destruct scheduler_running.
    + destruct (_check_tasks P cfg now w) as [[e|[]] w1] eqn:E;
        destruct (sn_check_tasks now _ _ _ E) as (evs & Hevs & Hno).
      * exists (evs ++ [ELog ERROR ("Scheduler error: " +:+ str_exn P e);
                        ELog ERROR (format_exc P e)]).
        assert (List.filter is_after
                  (evs ++ [ELog ERROR ("Scheduler error: " +:+ str_exn P e);
                           ELog ERROR (format_exc P e)]) = []) as Hno'
          by (rewrite List.filter_app, Hno; reflexivity).
        split; [|split; [exact Hno'|split; [apply Hone, Hno'|discriminate]]].
        unfold scheduler_error, log. rewrite !bind_emit. cbn [emit snd trace].
        rewrite Hevs, <- !app_assoc. reflexivity.
      * exists evs. split; [|split; [exact Hno|split; [apply Hone, Hno|discriminate]]].
        cbn [emit snd trace]. rewrite Hevs, <- !app_assoc. reflexivity.
    + exists []. split; [reflexivity|]. split; [reflexivity|]. split; reflexivity.
  - destruct scheduler_running.
    + destruct (_check_tasks P cfg now w) as [[e|[]] w1] eqn:E;
        destruct (check_tasks_grows now _ _ _ E) as [_ Hlen];
        pose proof (check_tasks_stamps_only P cfg now _ _ _ E) as Hst;
        (split; [exact Hlen|split; [exact Hst|discriminate]]).
    + split; [reflexivity|]. split; [|reflexivity]. intros i t Ht. left. exact Ht.
Qed.

(** X5: an enabled task whose [days] field is [null], a boolean or a
    number makes its iteration raise [TypeError] before anything is logged;
    the loop ends there, so the tasks after it are not evaluated. *)
Theorem X5_days_not_iterable_ends_the_tick
    (now : DateTime) (i : nat) (t : Task) (w : World) (v : JVal) :
  tasks w !! i = Some t ->
  Py.truthy (Py.get t "enabled" (JBool true)) = true ->
  t !! "days" = Some v ->
  (v = JNull \/ (exists b, v = JBool b) \/ (exists z, v = JInt z)) ->
  check_task P cfg now i w = (inl TypeError, w)
  /\ (forall rest,
        for_each (i :: rest) (check_task P cfg now) w = (inl TypeError, w)).
Proof.
  intros Ht Hen Hdays Hv.
  assert (check_task P cfg now i w = (inl TypeError, w)) as Hstep.
  { rewrite (check_task_at _ _ _ _ _ _ Ht). unfold loop_body. rewrite Hen. cbn [negb].
    unfold Py.get at 1. rewrite Hdays. cbn [from_option id].
    destruct Hv as [->|[[b ->]|[z ->]]]; reflexivity. }
  split; [exact Hstep|]. intros rest. apply for_each_cons_exn, Hstep.
Qed.

(** X6: a task record without a [days] key, or with an empty [days] list,
    never fires: at every time its iteration leaves the world as it found
    it. *)
Theorem X6_task_without_days_never_fires
    (now : DateTime) (i : nat) (t : Task) (w : World) :
  tasks w !! i = Some t ->
  (t !! "days" = None \/ t !! "days" = Some (JList [])) ->
  due P t now = false /\ check_task P cfg now i w = (inr tt, w).
Proof.
  intros Ht Hdays.
  assert (Py.contains (Py.get t "days" (JList [])) (Clock.today now) = inr false) as Hc.
  { unfold Py.get. destruct Hdays as [-> | ->]; reflexivity. }
  assert (due P t now = false) as Hdue.
  { unfold due. rewrite Hc, andb_false_r. reflexivity. }
  split; [exact Hdue|]. rewrite (check_task_at _ _ _ _ _ _ Ht).
  eapply loop_body_not_due; eauto.
Qed.

(** X7: when the mapping mode of a task is anything but [selected], the
    names listed in its [mappings] field play no part: two tasks that read
    alike but for their selection run alike. *)
Theorem X7_selection_ignored_unless_selected
    (t1 t2 : Task) (dry_run : bool) (w : World)
    (profile_name preset_name mode : string) (sel1 sel2 : gset string) :
  reads P t1 profile_name preset_name mode sel1 ->
  reads P t2 profile_name preset_name mode sel2 ->
  mode <> "selected" ->
  use_mappings mode sel1 (mappings cfg) = List.filter m_enabled (mappings cfg)
  /\ _run_upload_for_task P cfg t1 dry_run w = _run_upload_for_task P cfg t2 dry_run w.
Proof.
  intros H1 H2 Hmode.
  assert (forall sel, use_mappings mode sel (mappings cfg)
                      = List.filter m_enabled (mappings cfg)) as Huse.
  { intros sel. unfold use_mappings.
    destruct (String.eqb mode "selected") eqn:E; [|reflexivity].
    apply String.eqb_eq in E. contradiction. }
  split; [apply Huse|].
  rewrite (run_unfold P cfg _ _ _ _ _ _ _ H1), (run_unfold P cfg _ _ _ _ _ _ _ H2).
  rewrite !Huse. reflexivity.
Qed.

(** *** What was saved and what is in memory *)

Lemma last_save_app_other (h : list Event) (e : Event) :
  is_save e = false -> last_save (h ++ [e]) = last_save h.
Proof.
  intros He. unfold last_save. rewrite omap_app.
  destruct e; try discriminate; cbn [omap]; rewrite app_nil_r; reflexivity.
Qed.

Lemma last_save_app_save (h : list Event) (snapshot : list Task) :
  last_save (h ++ [ESave snapshot]) = Some snapshot.
Proof. unfold last_save. rewrite omap_app. cbn [omap]. apply last_snoc. Qed.

Lemma saved_or_same_refl (w : World) : saved_or_same w w.
Proof. left. split; reflexivity. Qed.

Lemma saved_or_same_trans (w1 w2 w3 : World) :
  saved_or_same w1 w2 -> saved_or_same w2 w3 -> saved_or_same w1 w3.
Proof.
  intros [[T1 S1]|S1] [[T2 S2]|S2]; try (right; exact S2).
  - left. split; congruence.
  - right. rewrite S2, S1, T2. reflexivity.
Qed.

Lemma saved_or_same_step (w : World) (e : Event) (ftp : bool) :
  is_save e = false ->
  saved_or_same w {| trace := trace w ++ [e]; tasks := tasks w; cli_ftp := ftp |}.
Proof. intros He. left. split; [reflexivity|apply last_save_app_other, He]. Qed.

Lemma check_task_saved_or_same (now : DateTime) (j : nat) :
  preserves saved_or_same (check_task P cfg now j).
Proof.
  assert (forall lvl msg, preserves saved_or_same (log lvl msg)) as Hlog.
  { intros lvl msg. apply (preserves_log saved_or_same). apply saved_or_same_step. }
  assert (forall A (a : A), preserves saved_or_same (ret a)) as Hret.
  { intros A a. apply (preserves_ret saved_or_same saved_or_same_refl). }
  intros w r w' H. unfold check_task in H.
  destruct (tasks w !! j) as [t|]; [|inversion H; apply saved_or_same_refl].
  revert w r w' H. change (preserves saved_or_same (loop_body P cfg now j t)).
  unfold loop_body.
  apply (preserves_if saved_or_same); [apply Hret|].
  apply (preserves_bind saved_or_same saved_or_same_trans);
    [apply (preserves_lift saved_or_same saved_or_same_refl)|intros listed].
  apply (preserves_if saved_or_same); [apply Hret|].
  destruct (time_differs P t now) as [e|[|]]; try apply Hret.
  apply (preserves_if saved_or_same); [apply Hret|].
  apply (preserves_bind saved_or_same saved_or_same_trans); [apply Hlog|intros _].
  apply (preserves_bind saved_or_same saved_or_same_trans); [|intros ok].
  { apply (preserves_run saved_or_same saved_or_same_refl saved_or_same_trans).
    - apply saved_or_same_step.
    - intros w0 ftp. left. split; reflexivity. }
  apply (preserves_if saved_or_same); [|apply Hlog].
  (* the stamp and the save go together *)
  intros w0 r0 w0' H0. unfold bind at 1 in H0. cbn [set_last_run] in H0.
  revert H0. unfold bind at 1, save_tasks. rewrite bind_emit. cbn [trace tasks cli_ftp].
  destruct (save_json P _ _); cbn [raise ret log emit]; intros H0; inversion H0; subst;
    right; cbn [trace tasks]; rewrite ?last_save_app_other by reflexivity;
    apply last_save_app_save.
Qed.

(** X8: in whatever state a pass of [_check_tasks] ends, returning or
    raising, either it left the task list alone and handed nothing to
    [save_tasks], or the last list it handed to [save_tasks] is the task
    list as it stands in memory: no stamp is set without the save that
    goes with it being attempted. *)
Theorem X8_every_stamp_is_saved (now : DateTime) (w w' : World) (r : Exn + unit) :
  _check_tasks P cfg now w = (r, w') ->
  (tasks w' = tasks w /\ last_save (trace w') = last_save (trace w))
  \/ last_save (trace w') = Some (tasks w').
Proof.
  intros H. unfold _check_tasks in H. revert H.
  apply (preserves_for_each saved_or_same saved_or_same_refl saved_or_same_trans).
  apply check_task_saved_or_same.
Qed.

End TickFacts.


(** ** Stamps tell times apart *)

Section StampsApart.

Lemma pad2_chars (z : Z) :
  0 <= z <= 99 ->
  Clock.pad2 z = String (pretty_N_char (Z.to_N z / 10))
                        (String (pretty_N_char (Z.to_N z mod 10)) EmptyString).
Proof.
  intros H. unfold Clock.pad2. destruct (z <? 10) eqn:E.
  - apply Z.ltb_lt in E.
    replace (Z.to_N z / 10)%N with 0%N by (symmetry; apply N.div_small; lia).
    rewrite N.mod_small by lia.
    destruct (decide (z = 0)) as [->|Hz]; [reflexivity|].
    rewrite pretty_Z_N by lia. rewrite pretty_N_go_step by lia.
    replace (Z.to_N z / 10)%N with 0%N by (symmetry; apply N.div_small; lia).
    rewrite N.mod_small by lia. reflexivity.
  - apply Z.ltb_ge in E. rewrite pretty_Z_N by lia.
    assert (0 < Z.to_N z / 10)%N as H2 by (apply N.div_str_pos; lia).
    assert (Z.to_N z / 10 < 10)%N as H1 by (apply N.Div0.div_lt_upper_bound; lia).
    rewrite pretty_N_go_step by lia. rewrite pretty_N_go_step by exact H2.
    replace (Z.to_N z / 10 / 10)%N with 0%N by (symmetry; apply N.div_small; lia).
    rewrite pretty_N_go_0. rewrite (N.mod_small (Z.to_N z / 10)) by lia. reflexivity.
Qed.

Lemma pad2_inj (z z' : Z) :
  0 <= z <= 99 -> 0 <= z' <= 99 -> Clock.pad2 z = Clock.pad2 z' -> z = z'.
Proof.
  intros H H' Heq. rewrite !pad2_chars in Heq by assumption.
  injection Heq as Hd Hm.
  apply pretty_N_char_inj in Hd;
    [|apply N.Div0.div_lt_upper_bound; lia|apply N.Div0.div_lt_upper_bound; lia].
  apply pretty_N_char_inj in Hm; [|apply N.mod_lt; lia|apply N.mod_lt; lia].
  assert (Z.to_N z = Z.to_N z') as Hn.
  { rewrite (N.div_mod (Z.to_N z) 10), (N.div_mod (Z.to_N z') 10) by lia. congruence. }
  lia.
Qed.

Lemma valid_ranges (now : DateTime) :
  Clock.valid now = true ->
  1000 <= year now <= 9999 /\ 0 <= month now <= 99 /\ 0 <= day now <= 99
  /\ 0 <= hour now <= 99 /\ 0 <= minute now <= 99 /\ 0 <= second now <= 99.
Proof. unfold Clock.valid. rewrite !andb_true_iff, !Z.leb_le. lia. Qed.

Ltac stamp_parts now :=
  let Y := fresh "Y" in let Mo := fresh "Mo" in let D := fresh "D" in
  let H := fresh "H" in let Mi := fresh "Mi" in let S := fresh "S" in
  match goal with
  | Hv : Clock.valid now = true |- _ =>
      destruct (valid_ranges now Hv) as (Y & Mo & D & H & Mi & S);
      destruct (pretty_four_digits (year now) Y) as (? & ? & ? & ? & ? & _);
      destruct (pad2_two_digits (month now) Mo) as (? & ? & ? & _);
      destruct (pad2_two_digits (day now) D) as (? & ? & ? & _);
      destruct (pad2_two_digits (hour now) H) as (? & ? & ? & _);
      destruct (pad2_two_digits (minute now) Mi) as (? & ? & ? & _);
      destruct (pad2_two_digits (second now) S) as (? & ? & ? & _)
  end.

(** Equal minute stamps come from the same minute of the same day. *)
Lemma stamp_minute_inj (now now' : DateTime) :
  Clock.valid now = true -> Clock.valid now' = true ->
  Clock.stamp_minute now = Clock.stamp_minute now' -> same_minute now now'.
Proof.
  intros Hv Hv' Heq. stamp_parts now. stamp_parts now'.
  unfold Clock.stamp_minute, Clock.hhmm in Heq.
  assert (pretty (year now) = pretty (year now')
          /\ Clock.pad2 (month now) = Clock.pad2 (month now')
          /\ Clock.pad2 (day now) = Clock.pad2 (day now')
          /\ Clock.pad2 (hour now) = Clock.pad2 (hour now')
          /\ Clock.pad2 (minute now) = Clock.pad2 (minute now')) as (Ey & Em & Ed & Eh & Emi).
  { repeat match goal with H : pretty _ = String _ _ |- _ => rewrite H in *; clear H end.
    repeat match goal with H : Clock.pad2 _ = String _ _ |- _ => rewrite H in *; clear H end.
    cbv [String.append] in Heq. injection Heq as -> -> -> -> -> -> -> -> -> -> -> ->.
    repeat split; reflexivity. }
  apply (inj pretty) in Ey.
  apply pad2_inj in Em, Ed, Eh, Emi; try assumption.
  unfold same_minute. repeat split; congruence.
Qed.

(** X9: at well-formed times, the minute stamps of two ticks are equal
    only when the ticks fall in the same minute of the same day.  So the
    stamp a task got in one minute never holds it back in another: the
    [last_run] guard lets it through. *)
Theorem X9_stamp_of_another_minute_does_not_block
    (now now' : DateTime) (t : Task) :
  Clock.valid now = true ->
  Clock.valid now' = true ->
  ~ same_minute now now' ->
  Clock.stamp_minute now <> Clock.stamp_minute now'
  /\ already_ran (<["last_run" := JStr (Clock.stamp_minute now)]> t)
                 (Clock.stamp_minute now') = false.
Proof.
  intros Hv Hv' Hdiff.
  assert (Clock.stamp_minute now <> Clock.stamp_minute now') as Hne.
  { intros Heq. apply Hdiff, stamp_minute_inj; assumption. }
  split; [exact Hne|].
  unfold already_ran, Py.get_none, Py.get, Py.or_else.
  rewrite lookup_insert_eq. cbn [from_option id Py.truthy].
  destruct (String.eqb (Clock.stamp_minute now) EmptyString) eqn:E; cbn [negb Py.eq_str].
  - apply String.eqb_eq in E. apply String.eqb_neq. congruence.
  - apply String.eqb_neq. exact Hne.
Qed.

(** X10: at well-formed times [now_stamp] tells seconds apart: two stamps
    are equal only when year, month, day, hour, minute and second are.  So
    log files and backup folders named after different seconds never
    coincide. *)
Theorem X10_now_stamp_tells_seconds_apart (now now' : DateTime) :
  Clock.valid now = true ->
  Clock.valid now' = true ->
  now_stamp_at now = now_stamp_at now' ->
  now = now'.
Proof.
  intros Hv Hv' Heq. stamp_parts now. stamp_parts now'.
  unfold now_stamp_at in Heq.
  assert (pretty (year now) = pretty (year now')
          /\ Clock.pad2 (month now) = Clock.pad2 (month now')
          /\ Clock.pad2 (day now) = Clock.pad2 (day now')
          /\ Clock.pad2 (hour now) = Clock.pad2 (hour now')
          /\ Clock.pad2 (minute now) = Clock.pad2 (minute now')
          /\ Clock.pad2 (second now) = Clock.pad2 (second now'))
    as (Ey & Em & Ed & Eh & Emi & Es).
  { repeat match goal with H : pretty _ = String _ _ |- _ => rewrite H in *; clear H end.
    repeat match goal with H : Clock.pad2 _ = String _ _ |- _ => rewrite H in *; clear H end.
    cbv [String.append] in Heq.
    injection Heq as -> -> -> -> -> -> -> -> -> -> -> -> -> ->.
    repeat split; reflexivity. }
  apply (inj pretty) in Ey.
  apply pad2_inj in Em, Ed, Eh, Emi, Es; try assumption.
  destruct now, now'. cbn in *. congruence.
Qed.

End StampsApart.


(** ** The Tasks tab *)

Section TasksTabFacts.

Variable P : Platform.
Variable cfg : Config.

Lemma fill_list_length (ts : list Task) (lines lines' : list string) :
  fill_list P ts lines = (None, lines') ->
  length lines' = (length lines + length ts)%nat.
Proof.
  revert lines. induction ts as [|t ts IH]; intros lines H; cbn [fill_list] in H.
  - inversion H. cbn. lia.
  - destruct (task_line P t) as [e|line]; [discriminate|].
    apply IH in H. rewrite H, length_app. cbn. lia.
Qed.

Lemma fill_list_app (pre post : list Task) (lines : list string) :
  fill_list P (pre ++ post) lines
  = match fill_list P pre lines with
    | (Some e, lines') => (Some e, lines')
    | (None, lines') => fill_list P post lines'
    end.
Proof.
  revert lines. induction pre as [|t pre IH]; intros lines; [reflexivity|].
  cbn [app fill_list]. destruct (task_line P t); [reflexivity|apply IH].
Qed.

(** X11: [refresh_tasks_list] shows one line per task when it returns.  It
    does not guard its conversions as the scheduler does: at the first task
    whose [days] cannot be joined or whose [hour] or [minute] cannot be
    converted it raises, the list box holding the lines of the tasks before
    that one only. *)
Theorem X11_task_listing_stops_at_a_bad_task
    (pre post : list Task) (t : Task) (lines : list string) :
  fill_list P pre [] = (None, lines) ->
  (length lines = length pre
   /\ (fst (refresh_tasks_list P (pre ++ t :: post)) = None ->
       length (snd (refresh_tasks_list P (pre ++ t :: post)))
       = length (pre ++ t :: post)))
  /\ (forall e, task_line P t = inl e ->
        refresh_tasks_list P (pre ++ t :: post) = (Some e, lines))
  /\ (forall v e days,
        Listing.join_comma (Py.get t "days" (JList [])) = inr days ->
        t !! "hour" = Some v -> Py.int (int_of_str P) v = inl e ->
        task_line P t = inl e).
Proof.
  intros Hpre. split; [split|split].
  - apply fill_list_length in Hpre. exact Hpre.
  - unfold refresh_tasks_list.
    destruct (fill_list P (pre ++ t :: post) []) as [[e|] ls] eqn:E; [discriminate|].
    intros _. apply fill_list_length in E. exact E.
  - intros e He. unfold refresh_tasks_list. rewrite fill_list_app, Hpre.
    cbn [fill_list]. rewrite He. reflexivity.
  - intros v e days Hd Hh He. unfold task_line. rewrite Hd.
    unfold Py.get. rewrite Hh. cbn [from_option id]. rewrite He. reflexivity.
Qed.

Lemma save_and_refresh_tasks (ui : Ui) (w : World) (after : Ui -> World -> Handled)
    (r : Exn + option Dialog) (ui' : Ui) (w' : World) :
  (forall ui1 w1, snd (after ui1 w1) = w1) ->
  save_and_refresh P ui w after = (r, ui', w') ->
  tasks w' = tasks w /\ last_save (trace w') = Some (tasks w).
Proof.
  intros Hafter H. unfold save_and_refresh in H. rewrite save_tasks_eq in H.
  pose proof (last_save_app_save (trace w) (tasks w)) as Hs.
  destruct (save_json P (trace w) (tasks w)).
  - inversion H; subst. split; [reflexivity|exact Hs].
  - cbn [tasks] in H. destruct (refresh_tasks_list P (tasks w)) as [[e|] lines].
    + inversion H; subst. split; [reflexivity|exact Hs].
    + pose proof (Hafter (with_lines ui lines)
                    {| trace := trace w ++ [ESave (tasks w)]; tasks := tasks w;
                       cli_ftp := cli_ftp w |}) as Hw.
      rewrite H in Hw. cbn [snd] in Hw. subst w'.
      split; [reflexivity|exact Hs].
Qed.

Lemma today_in_days_map (now : DateTime) :
  Py.contains (JList (JStr <$> Clock.days_map)) (Clock.today now) = inr true.
Proof.
  unfold Clock.today, Clock.weekday.
  pose proof (Z.mod_pos_bound (Clock.toordinal now + 6) 7 ltac:(lia)) as Hb.
  set (d := (Clock.toordinal now + 6) mod 7) in *.
  assert (d = 0 \/ d = 1 \/ d = 2 \/ d = 3 \/ d = 4 \/ d = 5 \/ d = 6) as Hd by lia.
  destruct Hd as [->|[->|[->|[->|[->|[->| ->]]]]]]; reflexivity.
Qed.

Lemma stamp_minute_not_empty (now : DateTime) :
  String.eqb EmptyString (Clock.stamp_minute now) = false.
Proof.
  unfold Clock.stamp_minute. destruct (pretty (year now)); reflexivity.
Qed.

(** X12: [task_new] appends one task and leaves the others as they were,
    whether or not the save and the refresh that follow succeed.  The new
    task is live at once: enabled, on all seven days, at 00:00, so it is due
    in the first minute of every day.  When the handler returns, the new
    task is the selected one. *)
Theorem X12_new_task_is_due_at_midnight
    (presets : list string) (ui : Ui) (w : World) (now : DateTime) :
  hour now = 0 ->
  minute now = 0 ->
  let '(r, ui', w') := task_new P cfg presets ui w in
  exists t,
    tasks w' = tasks w ++ [t]
    /\ due P t now = true
    /\ last_save (trace w') = Some (tasks w')
    /\ (r = inr None ->
        selected_task_idx ui' = Some (length (tasks w))
        /\ length (lst_tasks ui') = length (tasks w')).
Proof.
  intros Hh Hm. destruct (task_new P cfg presets ui w) as [[r ui'] w'] eqn:E.
  unfold task_new in E.
  match type of E with context [new_task ?n ?a ?b] => set (t := new_task n a b) in * end.
  exists t.
  assert (due P t now = true) as Hdue.
  { unfold due, time_differs, already_ran, Py.get_none, Py.get.
    replace (t !! "enabled") with (Some (JBool true)) by reflexivity.
    replace (t !! "days") with (Some (JList (JStr <$> Clock.days_map))) by reflexivity.
    replace (t !! "hour") with (Some (JInt 0)) by reflexivity.
    replace (t !! "minute") with (Some (JInt 0)) by reflexivity.
    replace (t !! "last_run") with (Some (JStr EmptyString)) by reflexivity.
    cbn [from_option id Py.truthy Py.int Py.or_else]. rewrite today_in_days_map.
    rewrite Hh, Hm. cbn [Z.eqb negb andb String.eqb Py.eq_str].
    change (Py.or_else (JStr EmptyString) (JStr EmptyString)) with (JStr EmptyString).
    cbn [Py.eq_str]. rewrite stamp_minute_not_empty. reflexivity. }
  unfold save_and_refresh in E. rewrite save_tasks_eq in E.
  cbn [with_tasks trace tasks cli_ftp] in E.
  destruct (save_json P _ _).
  - inversion E; subst. cbn [tasks trace].
    split; [reflexivity|]. split; [exact Hdue|].
    split; [apply last_save_app_save|discriminate].
  - destruct (refresh_tasks_list P _) as [[e|] lines] eqn:Er; cbn [tasks] in E.
    + inversion E; subst. cbn [tasks trace].
      split; [reflexivity|]. split; [exact Hdue|].
      split; [apply last_save_app_save|discriminate].
    + inversion E; subst. cbn [tasks trace selected_task_idx lst_tasks with_lines].
      split; [reflexivity|]. split; [exact Hdue|].
      split; [apply last_save_app_save|]. intros _. split.
      * rewrite length_app. cbn. f_equal. lia.
      * apply fill_list_length in Er. exact Er.
Qed.

Lemma form_time_bounds (f : TaskForm) (hh mm : Z) :
  form_time P f = Some (hh, mm) -> 0 <= hh <= 23 /\ 0 <= mm <= 59.
Proof.
  unfold form_time. destruct (int_of_str P _) as [h|]; [|discriminate].
  destruct (int_of_str P _) as [m|]; [|discriminate].
  destruct ((h <? 0) || (23 <? h) || (m <? 0) || (59 <? m)) eqn:E; [discriminate|].
  intros H. inversion H; subst.
  rewrite !orb_false_iff, !Z.ltb_ge in E. lia.
Qed.

Ltac lookup_written :=
  unfold write_form;
  repeat (rewrite lookup_insert_eq || rewrite lookup_insert_ne by discriminate).

(** X13: [task_save] changes nothing unless it reports the task as saved
    or raises: after any other message box (no task selected, invalid
    time, no day, no mapping) the tab and the world are as they were, and
    nothing was handed to [save_tasks]. *)
Theorem X13_rejected_form_changes_nothing
    (ui ui' : Ui) (w w' : World) (d : Dialog) :
  task_save P cfg ui w = (inr (Some d), ui', w') ->
  d <> ShowInfo "Saved" "Task saved." ->
  ui' = ui /\ w' = w.
Proof.
  unfold task_save. intros H Hd.
  destruct (selected_task_idx ui) as [idx|]; [|inversion H; auto].
  destruct (form_time P (form ui)) as [[hh mm]|]; [|inversion H; auto].
  destruct (List.filter _ Clock.days_map) as [|d0 days]; [inversion H; auto|].
  destruct (if String.eqb _ "selected" then _ else _) as [e|names]; [discriminate|].
  destruct (String.eqb _ "selected" && _); [inversion H; auto|].
  destruct (tasks w !! idx); [|discriminate].
  unfold save_and_refresh in H.
  destruct (save_tasks P _) as [[e|[]] w1]; [discriminate|].
  destruct (refresh_tasks_list P _) as [[e|] lines]; [discriminate|].
  inversion H; subst. contradiction.
Qed.

(** X14: when [task_save] reports the task as saved, the selected task has
    been rewritten in place with an hour within 0..23, a minute within
    0..59 and a non-empty list of days in the order of the week (and, in
    mode [selected], a non-empty list of mapping names); every key it does
    not write, [last_run] among them, keeps its value, every other task is
    untouched, and the list handed to [save_tasks] is the list in memory. *)
Theorem X14_saved_task_is_well_formed (ui ui' : Ui) (w w' : World) :
  task_save P cfg ui w = (inr (Some (ShowInfo "Saved" "Task saved.")), ui', w') ->
  exists idx t hh mm days mode names,
    let t' := write_form P (form ui) days hh mm mode names t in
    selected_task_idx ui = Some idx
    /\ tasks w !! idx = Some t
    /\ tasks w' !! idx = Some t'
    /\ (forall j, j <> idx -> tasks w' !! j = tasks w !! j)
    /\ length (tasks w') = length (tasks w)
    /\ 0 <= hh <= 23 /\ 0 <= mm <= 59
    /\ days <> [] /\ sublist days Clock.days_map
    /\ t' !! "hour" = Some (JInt hh)
    /\ t' !! "minute" = Some (JInt mm)
    /\ t' !! "days" = Some (JList (JStr <$> days))
    /\ t' !! "mapping_mode" = Some (JStr mode)
    /\ t' !! "mappings" = Some (JList (JStr <$> names))
    /\ (mode = "selected" -> names <> [])
    /\ (forall k, k ∉ form_keys -> t' !! k = t !! k)
    /\ last_save (trace w') = Some (tasks w').
Proof.
  unfold task_save. intros H.
  destruct (selected_task_idx ui) as [idx|]; [|discriminate].
  destruct (form_time P (form ui)) as [[hh mm]|] eqn:Et; [|discriminate].
  destruct (List.filter _ Clock.days_map) as [|d0 days] eqn:Ed; [discriminate|].
  set (mode := var_or P (tv_mode (form ui)) "enabled") in *.
  destruct (if String.eqb mode "selected" then _ else _) as [e|names] eqn:En;
    [discriminate|].
  destruct (String.eqb mode "selected" && _) eqn:Em; [discriminate|].
  destruct (tasks w !! idx) as [t|] eqn:Ht; [|discriminate].
  pose proof H as H'. eapply save_and_refresh_tasks in H' as [Htasks Hsave];
    [|intros; reflexivity].
  cbn [with_tasks tasks] in Htasks, Hsave.
  exists idx, t, hh, mm, (d0 :: days), mode, names. cbv zeta.
  destruct (form_time_bounds _ _ _ Et) as [Hh Hm].
  split; [reflexivity|]. split; [exact Ht|].
  split; [rewrite Htasks, list_lookup_alter_eq, Ht; reflexivity|].
  split; [intros j Hj; rewrite Htasks; apply list_lookup_alter_ne; congruence|].
  split; [rewrite Htasks; apply length_alter|].
  split; [exact Hh|]. split; [exact Hm|]. split; [discriminate|].
  split; [rewrite <- Ed; apply filter_sublist|].
  split; [lookup_written; reflexivity|]. split; [lookup_written; reflexivity|].
  split; [lookup_written; reflexivity|]. split; [lookup_written; reflexivity|].
  split; [lookup_written; reflexivity|].
  split.
  { intros Hmode. rewrite Hmode in Em. cbn [String.eqb andb] in Em.
    replace (String.eqb "selected" "selected") with true in Em by reflexivity.
    destruct names; [discriminate|discriminate]. }
  split.
  { intros k Hk. unfold write_form, form_keys in *.
    rewrite !lookup_insert_ne; [reflexivity|..];
      intros <-; apply Hk; repeat (first [apply list_elem_of_here|apply list_elem_of_further]). }
  rewrite Hsave, Htasks. reflexivity.
Qed.



Lemma omap_no_save (evs : list Event) :
  List.filter is_save evs = [] ->
  omap (fun e => match e with ESave snapshot => Some snapshot | _ => None end) evs = [].
Proof.
  induction evs as [|e evs IH]; [reflexivity|]. cbn [List.filter omap].
  destruct e; cbn [is_save]; try exact IH. discriminate.
Qed.

Lemma last_save_frame (w w' : World) :
  run_frame w w' -> last_save (trace w') = last_save (trace w).
Proof.
  intros (_ & evs & -> & Hs). unfold last_save.
  rewrite omap_app, (omap_no_save _ Hs), app_nil_r. reflexivity.
Qed.

Ltac no_run H :=
  inversion H; subst;
  (split; [reflexivity|split; [reflexivity|split; [reflexivity|]]]);
  intros ? ? ? ? ?; congruence.

(** X16: [task_run_now] runs the selected task whatever its [enabled]
    flag, its days, its time and its [last_run]; it leaves the tab and the
    task list as they were and hands nothing to [save_tasks], so the task
    is not stamped and its scheduled run can still fire in that minute. *)
Theorem X16_run_now_does_not_stamp
    (confirm : bool) (ui ui' : Ui) (w w' : World) (r : Exn + option Dialog) :
  task_run_now P cfg confirm ui w = (r, ui', w') ->
  ui' = ui
  /\ tasks w' = tasks w
  /\ last_save (trace w') = last_save (trace w)
  /\ (forall idx t,
        selected_task_idx ui = Some idx -> tasks w !! idx = Some t -> confirm = true ->
        exists r0 w1,
          _run_upload_for_task P cfg t (Py.truthy (Py.get t "dry_run" (JBool false))) w
          = (r0, w1)
          /\ match r0 with
             | inl e => r = inl e /\ w' = w1
             | inr true =>
                 r = inr (Some (ShowInfo "Done" "Task completed."))
                 /\ w' = logged w1 INFO ("[TASK] Run-now complete: "
                                         +:+ py_str P (Py.get t "name" (JStr "Task")))
             | inr false =>
                 r = inr (Some (ShowError "Failed" "Task failed. Check Log.")) /\ w' = w1
             end).
Proof.
  unfold task_run_now. intros H.
  destruct (selected_task_idx ui) as [idx|]; [|no_run H].
  destruct (tasks w !! idx) as [t|] eqn:Ht; [|no_run H].
  destruct confirm; cbn [negb] in H; [|no_run H].
  destruct (_run_upload_for_task P cfg t _ w) as [[e|[|]] w1] eqn:E;
    pose proof (run_is_framed P cfg _ _ _ _ _ E) as Hf;
    pose proof (last_save_frame _ _ Hf) as Hs; destruct Hf as [Ht1 _];
    inversion H; subst; cbn [logged tasks trace];
    (split; [reflexivity|split; [exact Ht1|split]]);
    try (rewrite last_save_app_other by reflexivity); try exact Hs;
    intros idx' t' Hi Ht' _; inversion Hi; subst; rewrite Ht in Ht'; inversion Ht'; subst;
    rewrite E; eexists _, _; (split; [reflexivity|]); cbn; auto.
Qed.

(** X17: [task_delete], once confirmed, removes exactly the selected task,
    keeps the others in their order, clears the selection and hands the
    shortened list to [save_tasks], whether or not the save and the refresh
    succeed; declined, it changes nothing. *)
Theorem X17_delete_removes_the_selected_task
    (confirm : bool) (ui ui' : Ui) (w w' : World) (r : Exn + option Dialog)
    (idx : nat) (t : Task) :
  selected_task_idx ui = Some idx ->
  tasks w !! idx = Some t ->
  task_delete P confirm ui w = (r, ui', w') ->
  if confirm then
    tasks w' = delete idx (tasks w)
    /\ length (tasks w') = (length (tasks w) - 1)%nat
    /\ (forall j, (j < idx)%nat -> tasks w' !! j = tasks w !! j)
    /\ (forall j, (idx <= j)%nat -> tasks w' !! j = tasks w !! S j)
    /\ selected_task_idx ui' = None
    /\ last_save (trace w') = Some (tasks w')
  else ui' = ui /\ w' = w /\ r = inr None.
Proof.
  intros Hsel Ht H. unfold task_delete in H. rewrite Hsel, Ht in H.
  destruct confirm; cbn [negb] in H; [|inversion H; auto].
  assert (selected_task_idx ui' = None) as Hnone.
  { unfold save_and_refresh in H.
    destruct (save_tasks P _) as [[e|[]] w1]; [inversion H; reflexivity|].
    destruct (refresh_tasks_list P _) as [[e|] lines]; inversion H; reflexivity. }
  pose proof H as H'. eapply save_and_refresh_tasks in H' as [Htasks Hsave];
    [|intros; reflexivity].
  cbn [with_tasks tasks] in Htasks, Hsave.
  split; [exact Htasks|]. rewrite Htasks.
  split; [rewrite length_delete by (rewrite Ht; eauto); reflexivity|].
  split; [intros j Hj; apply list_lookup_delete_lt, Hj|].
  split; [intros j Hj; apply list_lookup_delete_ge, Hj|].
  split; [exact Hnone|exact Hsave].
Qed.

(** X18: the selection never dangles.  If the selected index points into
    the task list, it still does after [task_new], [task_delete],
    [task_save], [task_run_now] and a tick of the scheduler, however they
    end. *)
Theorem X18_selection_stays_in_range (ui : Ui) (w : World) :
  selection_ok ui w ->
  (forall presets r ui' w',
      task_new P cfg presets ui w = (r, ui', w') -> selection_ok ui' w')
  /\ (forall confirm r ui' w',
        task_delete P confirm ui w = (r, ui', w') -> selection_ok ui' w')
  /\ (forall r ui' w', task_save P cfg ui w = (r, ui', w') -> selection_ok ui' w')
  /\ (forall confirm r ui' w',
        task_run_now P cfg confirm ui w = (r, ui', w') -> selection_ok ui' w')
  /\ (forall scheduler_running now,
        selection_ok ui (_tick P cfg scheduler_running now w)).
Proof.
  intros Hok.
  assert (forall ui0 w0 after r ui' w',
             (forall ui1 w1, exists ui2, after ui1 w1 = (inr None, ui2, w1)
                                         \/ exists d, after ui1 w1 = (inr (Some d), ui2, w1)) ->
             save_and_refresh P ui0 w0 after = (r, ui', w') ->
             tasks w' = tasks w0) as Hsr.
  { intros ui0 w0 after r ui' w' Ha H. unfold save_and_refresh in H.
    rewrite save_tasks_eq in H.
    destruct (save_json P _ _); [inversion H; reflexivity|].
    cbn [tasks] in H. destruct (refresh_tasks_list P _) as [[e|] lines];
      [inversion H; reflexivity|].
    destruct (Ha (with_lines ui0 lines)
                {| trace := trace w0 ++ [ESave (tasks w0)]; tasks := tasks w0;
                   cli_ftp := cli_ftp w0 |}) as (ui2 & [Ha'|[d Ha']]);
      rewrite Ha' in H; inversion H; reflexivity. }
  split; [|split; [|split; [|split]]].
  - intros presets r ui' w' H. unfold task_new in H.
    pose proof H as H0. apply Hsr in H0; [|intros; eexists; left; reflexivity].
    cbn [with_tasks tasks] in H0.
    unfold save_and_refresh in H.
    destruct (save_tasks P _) as [[e|[]] w1].
    + inversion H; subst. intros i Hi. rewrite H0, length_app.
      specialize (Hok i Hi). lia.
    + destruct (refresh_tasks_list P _) as [[e|] lines]; inversion H; subst.
      * intros i Hi. rewrite H0, length_app. specialize (Hok i Hi). lia.
      * intros i Hi. cbn [selected_task_idx] in Hi. inversion Hi.
        rewrite H0, length_app. cbn. lia.
  - intros confirm r ui' w' H. unfold task_delete in H.
    destruct (selected_task_idx ui) as [idx|] eqn:Es; [|inversion H; subst; exact Hok].
    destruct (tasks w !! idx); [|inversion H; subst; exact Hok].
    destruct confirm; cbn [negb] in H; [|inversion H; subst; exact Hok].
    unfold save_and_refresh in H.
    destruct (save_tasks P _) as [[e|[]] w1]; [inversion H; intros i Hi; discriminate|].
    destruct (refresh_tasks_list P _) as [[e|] lines]; inversion H;
      intros i Hi; discriminate.
  - intros r ui' w' H. unfold task_save in H.
    destruct (selected_task_idx ui) as [idx|] eqn:Es; [|inversion H; subst; exact Hok].
    destruct (form_time P (form ui)) as [[hh mm]|]; [|inversion H; subst; exact Hok].
    destruct (List.filter _ Clock.days_map) as [|d0 days]; [inversion H; subst; exact Hok|].
    destruct (if String.eqb _ "selected" then _ else _) as [e|names];
      [inversion H; subst; exact Hok|].
    destruct (String.eqb _ "selected" && _); [inversion H; subst; exact Hok|].
    destruct (tasks w !! idx); [|inversion H; subst; exact Hok].
    pose proof H as H0. apply Hsr in H0; [|intros; eexists; right; eexists; reflexivity].
    cbn [with_tasks tasks] in H0.
    assert (selected_task_idx ui' = selected_task_idx ui) as Hsame.
    { unfold save_and_refresh in H.
      destruct (save_tasks P _) as [[e|[]] w1]; [inversion H; reflexivity|].
      destruct (refresh_tasks_list P _) as [[e|] lines]; inversion H; reflexivity. }
    intros i Hi. rewrite Hsame in Hi. rewrite H0, length_alter. apply Hok, Hi.
  - intros confirm r ui' w' H.
    pose proof H as H0. unfold task_run_now in H0.
    assert (ui' = ui /\ tasks w' = tasks w) as [-> Ht].
    { destruct (selected_task_idx ui) as [idx|]; [|inversion H0; auto].
      destruct (tasks w !! idx) as [t|]; [|inversion H0; auto].
      destruct confirm; cbn [negb] in H0; [|inversion H0; auto].
      destruct (_run_upload_for_task P cfg t _ w) as [[e|[|]] w1] eqn:E;
        destruct (run_is_framed P cfg _ _ _ _ _ E) as [Ht1 _];
        inversion H0; subst; auto. }
    intros i Hi. rewrite Ht. apply Hok, Hi.
  - intros running now i Hi.
    rewrite (tick_length P cfg). apply Hok, Hi.
Qed.

End TasksTabFacts.

(** ** Profiles and mappings: what is saved is what is loaded *)

Section LoaderFacts.

Variable P : Platform.

Lemma load_each_fmap {A B} (f : JVal -> Exn + B) (enc : A -> JVal) (dec : A -> B)
    (l : list A) :
  (forall a, f (enc a) = inr (dec a)) ->
  Json.load_each f (enc <$> l) = inr (dec <$> l).
Proof.
  intros Hf. induction l as [|a l IH]; [reflexivity|].
  cbn [fmap list_fmap Json.load_each]. cbn in IH.
  rewrite Hf. cbn [Json.and_then]. rewrite IH. reflexivity.
Qed.

Lemma load_each_app {A} (f : JVal -> Exn + A) (pre post : list JVal) :
  Json.load_each f (pre ++ post)
  = Json.and_then (Json.load_each f pre) (fun out =>
    Json.and_then (Json.load_each f post) (fun out' => inr (out ++ out'))).
Proof.
  induction pre as [|x pre IH]; cbn [app Json.load_each].
  - cbn [Json.and_then]. destruct (Json.load_each f post); reflexivity.
  - destruct (f x) as [e|a]; cbn [Json.and_then]; [reflexivity|].
    rewrite IH. destruct (Json.load_each f pre) as [e|out]; cbn [Json.and_then];
      [reflexivity|].
    destruct (Json.load_each f post); reflexivity.
Qed.

Lemma load_each_length {A} (f : JVal -> Exn + A) (l : list JVal) (out : list A) :
  Json.load_each f l = inr out -> length out = length l.
Proof.
  revert out. induction l as [|x l IH]; intros out H; cbn [Json.load_each] in H.
  - inversion H. reflexivity.
  - destruct (f x) as [e|a]; cbn [Json.and_then] in H; [discriminate|].
    destruct (Json.load_each f l) as [e|out']; cbn [Json.and_then] in H; [discriminate|].
    inversion H. cbn [length]. f_equal. apply IH. reflexivity.
Qed.

(** X19: the profiles [save_profiles] writes are the profiles
    [load_profiles] reads back, field by field and in their order: the
    keys written from the dataclass are the keys read, and the port and
    the TLS flag survive their conversions. *)
Theorem X19_saved_profiles_load_back (ps : list Profile) :
  load_profiles P (save_profiles ps) = inr (loaded_profile <$> ps).
Proof.
  unfold load_profiles, save_profiles.
  cbn [Json.get Json.lookup Json.and_then Json.items from_option id String.eqb Ascii.eqb
       Bool.eqb].
  apply load_each_fmap. intros [n h po u pw tl ro]. reflexivity.
Qed.

(** X20: the mappings [save_mappings] writes are the mappings
    [load_mappings] reads back, with their flags. *)
Theorem X20_saved_mappings_load_back (ms : list Mapping) :
  load_mappings (save_mappings ms) = inr (loaded_mapping <$> ms).
Proof.
  unfold load_mappings, save_mappings.
  cbn [Json.get Json.lookup Json.and_then Json.items from_option id String.eqb Ascii.eqb
       Bool.eqb].
  apply load_each_fmap. intros [n en lo re ba]. reflexivity.
Qed.

(** X21: [load_profiles] is all or nothing.  If the entries before one
    load and that one is an object whose port [int] refuses (a string that
    is no number, [null], a list, an object), the error leaves
    [load_profiles] and no profile is loaded, whatever follows the
    entry. *)
Theorem X21_one_bad_port_fails_the_load
    (pre post : list JVal) (kvs : list (string * JVal)) (e : Exn)
    (out : list LoadedProfile) :
  Json.load_each (load_profile P) pre = inr out ->
  Py.int (int_of_str P) (default (JInt 21) (Json.lookup kvs "port")) = inl e ->
  load_profiles P (JObj [("profiles", JList (pre ++ JObj kvs :: post))]) = inl e.
Proof.
  intros Hpre Hport. unfold load_profiles.
  cbn [Json.get Json.lookup Json.and_then Json.items from_option id String.eqb Ascii.eqb
       Bool.eqb].
  rewrite load_each_app, Hpre. cbn [Json.and_then Json.load_each].
  unfold load_profile at 1. cbn [Json.get Json.and_then]. rewrite Hport. reflexivity.
Qed.

(** X22: [load_mappings] cannot fail on a list of objects, whatever their
    members: it gives one mapping per object, in order, and each flag is
    the truth value of what the file holds, or [True] where the file holds
    nothing. *)
Theorem X22_mappings_of_objects_always_load (dicts : list (list (string * JVal))) :
  exists ms,
    load_mappings (JObj [("mappings", JList (JObj <$> dicts))]) = inr ms
    /\ length ms = length dicts
    /\ forall i kvs m,
         dicts !! i = Some kvs -> ms !! i = Some m ->
         lm_enabled m = Py.truthy (default (JBool true) (Json.lookup kvs "enabled"))
         /\ lm_backup_before_overwrite m
            = Py.truthy (default (JBool true) (Json.lookup kvs "backup_before_overwrite"))
         /\ lm_name m = default (JStr "Unnamed Mapping") (Json.lookup kvs "name").
Proof.
  unfold load_mappings.
  cbn [Json.get Json.lookup Json.and_then Json.items from_option id String.eqb Ascii.eqb
       Bool.eqb].
  rewrite (load_each_fmap load_mapping JObj (fun kvs =>
             {| lm_name := default (JStr "Unnamed Mapping") (Json.lookup kvs "name");
                lm_enabled := Py.truthy (default (JBool true) (Json.lookup kvs "enabled"));
                lm_local_relpath :=
                  default (JStr EmptyString) (Json.lookup kvs "local_relpath");
                lm_remote_path := default (JStr EmptyString) (Json.lookup kvs "remote_path");
                lm_backup_before_overwrite :=
                  Py.truthy (default (JBool true)
                               (Json.lookup kvs "backup_before_overwrite")) |}))
    by (intros kvs; reflexivity).
  eexists. split; [reflexivity|]. split; [apply length_fmap|].
  intros i kvs m Hi Hm. rewrite list_lookup_fmap, Hi in Hm. cbn in Hm.
  inversion Hm; subst. cbn. auto.
Qed.

End LoaderFacts.

(** ** Testing a connection *)

Section TestConnectionFacts.

Variable P : Platform.
Variable cfg : Config.
Variable ftp_pwd : list Event -> Exn + string.

(** X23: [selected_profile_for_test] gives a profile exactly when the
    selected index is a position of the profile list, and then the profile
    at that position; a negative index selects nothing. *)
Theorem X23_profile_for_test_is_the_selected_one (idx : option Z) (p : Profile) :
  selected_profile_for_test cfg idx = Some p
  <-> exists i : nat, idx = Some (Z.of_nat i) /\ profiles cfg !! i = Some p.
Proof.
  unfold selected_profile_for_test. split.
  - destruct idx as [z|]; [|discriminate].
    destruct ((z <? 0) || (Z.of_nat (length (profiles cfg)) <=? z)) eqn:E; [discriminate|].
    apply orb_false_iff in E as [E1 E2]. apply Z.ltb_ge in E1.
    intros H. exists (Z.to_nat z). rewrite Z2Nat.id by exact E1. auto.
  - intros (i & -> & Hi). pose proof (lookup_lt_Some _ _ _ Hi) as Hlt.
    replace (Z.of_nat i <? 0) with false by (symmetry; apply Z.ltb_ge; lia).
    replace (Z.of_nat (length (profiles cfg)) <=? Z.of_nat i) with false
      by (symmetry; apply Z.leb_gt; lia).
    cbn [orb]. rewrite Nat2Z.id. exact Hi.
Qed.

(** X24: [test_conn_selected_profile] never raises and never leaves a
    connection open.  With no profile selected it only warns.  Otherwise it
    logs, makes one connection attempt and ends with the client closed
    and the task list untouched; it uploads, downloads and saves nothing.
    A refused connection is reported with the error's text and nothing is
    quit; an accepted one is always quit at the end, even when the server
    then fails to tell its directory. *)
Theorem X24_connection_test_always_closes (idx : option Z) (w : World) :
  match selected_profile_for_test cfg idx with
  | None =>
      test_conn_selected_profile P cfg ftp_pwd idx w
      = (inr (ShowWarning "No profile" "Select a profile in the Profiles tab."), w)
  | Some p =>
      exists line d evs,
        test_conn_selected_profile P cfg ftp_pwd idx w
        = (inr d, extended w (ELog INFO line :: EConnect p (timeout cfg) :: evs))
        /\ List.filter is_connect evs = []
        /\ List.filter is_upload evs = []
        /\ List.filter is_download evs = []
        /\ List.filter is_save evs = []
        /\ match ftp_connect P (trace w ++ [ELog INFO line]) p (timeout cfg) with
           | Some e =>
               d = ShowError "Failed" (str_exn P e)
               /\ evs = [ELog ERROR ("Connection failed: " +:+ str_exn P e)]
           | None => last evs = Some EQuit /\ List.filter is_quit evs = [EQuit]
           end
  end.
Proof.
  unfold test_conn_selected_profile.
  destruct (selected_profile_for_test cfg idx) as [p|]; [|reflexivity].
  exists ("Testing connection to " +:+ p_host p +:+ ":" +:+ pretty (p_port p)
          +:+ " TLS=" +:+ str_bool (p_tls p)).
  unfold try_finally, try_except, bind, log, emit, cli_new, cli_connect, cli_pwd, ret,
    cli_close, extended.
  cbn [trace tasks cli_ftp].
  destruct (ftp_connect P _ p (timeout cfg)) as [e|] eqn:Ec; cbn [trace tasks cli_ftp].
  - eexists _, _. split; [rewrite <- !app_assoc; cbn [app]; reflexivity|].
    cbn. auto 10.
  - destruct (ftp_pwd _) as [e1|d1]; cbn [trace tasks cli_ftp].
    + eexists _, _. split; [rewrite <- !app_assoc; cbn [app]; reflexivity|].
      cbn. auto 10.
    + destruct (ftp_pwd _) as [e2|d2]; cbn [trace tasks cli_ftp];
        (eexists _, _; split; [rewrite <- !app_assoc; cbn [app]; reflexivity|]);
        cbn; auto 10.
Qed.

End TestConnectionFacts.

(** ** Examples of the further properties *)

Section MoreExamples.

Import Demo Cases.

Lemma triple_eta {A B C} (p : A * B * C) : p = (fst (fst p), snd (fst p), snd p).
Proof. destruct p as [[a b] c]. reflexivity. Defined.

Lemma X1_refused_connection_fails_the_run_witness :
  _run_upload_for_task refusing_server cfg
    (task "C" true false "selected" ["loot"; "types"] EmptyString) false (world [])
  = (inr false,
     extended (world [])
       [EConnect main_profile (timeout cfg);
        ELog ERROR ("[TASK] Upload failed: "
                    +:+ str_exn refusing_server
                          (ExtError "[Errno 111] Connection refused"));
        ELog ERROR (format_exc refusing_server
                      (ExtError "[Errno 111] Connection refused"))]).
Proof.
  refine (X1_refused_connection_fails_the_run refusing_server cfg
            (task "C" true false "selected" ["loot"; "types"] EmptyString) (world [])
            main_profile (ExtError "[Errno 111] Connection refused")
            "main" "pvp" "selected" (list_to_set ["loot"; "types"]) _ _ _ _ _ _).
  - unfold reads. split; [|split; [|split]]; vm_compute; reflexivity.
  - vm_compute. reflexivity.
  - vm_compute. reflexivity.
  - vm_compute. discriminate.
  - vm_compute. reflexivity.
  - reflexivity.
Defined.

Lemma X2_refused_upload_ends_the_run_witness :
  fst (_run_upload_for_task picky_server cfg
         (task "C" true false "selected" ["loot"; "types"] EmptyString) false (world []))
  = inr false.
Proof.
  destruct (X2_refused_upload_ends_the_run picky_server cfg
              (task "C" true false "selected" ["loot"; "types"] EmptyString) (world [])
              main_profile (ExtError "552 Requested file action aborted")
              "main" "pvp" "selected" (list_to_set ["loot"; "types"])
              [loot] [] types)
    as (outcomes & outcome & _ & Hrun & _).
  - unfold reads. split; [|split; [|split]]; vm_compute; reflexivity.
  - vm_compute. reflexivity.
  - vm_compute. reflexivity.
  - vm_compute. reflexivity.
  - vm_compute. reflexivity.
  - reflexivity.
  - intros m' h r Hm. apply list_elem_of_singleton in Hm. subst m'. reflexivity.
  - intros h r. reflexivity.
  - rewrite Hrun. reflexivity.
Defined.

Lemma X3_run_closes_its_connection_witness :
  cli_ftp (snd (_run_upload_for_task platform cfg
                  (task "C" true false "selected" ["loot"; "types"] EmptyString) false
                  (world [])))
  = false.
Proof.
  refine (proj1 (X3_run_closes_its_connection platform cfg
                   (task "C" true false "selected" ["loot"; "types"] EmptyString) false
                   (world []) _ _ _ _));
    [reflexivity|apply surjective_pairing].
Defined.

Lemma X5_days_not_iterable_ends_the_tick_witness :
  check_task platform cfg now 0%nat
    (world [<["days" := JNull]> (task "A" true false "enabled" [] EmptyString)])
  = (inl TypeError,
     world [<["days" := JNull]> (task "A" true false "enabled" [] EmptyString)]).
Proof.
  refine (proj1 (X5_days_not_iterable_ends_the_tick platform cfg now 0%nat
                   (<["days" := JNull]> (task "A" true false "enabled" [] EmptyString))
                   (world [<["days" := JNull]>
                             (task "A" true false "enabled" [] EmptyString)])
                   JNull _ _ _ _));
    [reflexivity|vm_compute; reflexivity|vm_compute; reflexivity|left; reflexivity].
Defined.

Lemma X6_task_without_days_never_fires_witness :
  check_task platform cfg now 0%nat
    (world [<["days" := JList []]> (task "A" true false "enabled" [] EmptyString)])
  = (inr tt,
     world [<["days" := JList []]> (task "A" true false "enabled" [] EmptyString)]).
Proof.
  refine (proj2 (X6_task_without_days_never_fires platform cfg now 0%nat
                   (<["days" := JList []]> (task "A" true false "enabled" [] EmptyString))
                   (world [<["days" := JList []]>
                             (task "A" true false "enabled" [] EmptyString)])
                   _ _));
    [reflexivity|right; vm_compute; reflexivity].
Defined.

Lemma X7_selection_ignored_unless_selected_witness :
  _run_upload_for_task platform cfg (task "A" true true "enabled" ["loot"] EmptyString)
    true (world [])
  = _run_upload_for_task platform cfg (task "A" true true "enabled" [] EmptyString)
      true (world []).
Proof.
  refine (proj2 (X7_selection_ignored_unless_selected platform cfg
                   (task "A" true true "enabled" ["loot"] EmptyString)
                   (task "A" true true "enabled" [] EmptyString) true (world [])
                   "main" "pvp" "enabled" (list_to_set ["loot"]) ∅ _ _ _)).
  - unfold reads. split; [|split; [|split]]; vm_compute; reflexivity.
  - unfold reads. split; [|split; [|split]]; vm_compute; reflexivity.
  - discriminate.
Defined.

Lemma X8_every_stamp_is_saved_witness :
  let w' := snd (_check_tasks platform cfg now
                   (world [task "A" true true "enabled" [] EmptyString])) in
  (tasks w' = [task "A" true true "enabled" [] EmptyString]
   /\ last_save (trace w') = last_save [])
  \/ last_save (trace w') = Some (tasks w').
Proof.
  refine (X8_every_stamp_is_saved platform cfg now
            (world [task "A" true true "enabled" [] EmptyString]) _ _ _).
  apply surjective_pairing.
Defined.

Lemma X9_stamp_of_another_minute_does_not_block_witness :
  Clock.stamp_minute now <> Clock.stamp_minute next_minute.
Proof.
  refine (proj1 (X9_stamp_of_another_minute_does_not_block now next_minute
                   (task "A" true true "enabled" [] EmptyString) _ _ _));
    [reflexivity|reflexivity|].
  unfold same_minute. intros (_ & _ & _ & _ & H). discriminate H.
Defined.

Lemma X10_now_stamp_tells_seconds_apart_witness :
  now_stamp_at now <> now_stamp_at now'.
Proof.
  intros H.
  apply (X10_now_stamp_tells_seconds_apart now now') in H;
    [discriminate H|reflexivity|reflexivity].
Defined.

Lemma X11_task_listing_stops_at_a_bad_task_witness :
  refresh_tasks_list platform
    ([task "A" true true "enabled" [] EmptyString]
     ++ <["hour" := JStr "nine"]> (task "B" true true "enabled" [] EmptyString)
        :: [task "C" true true "enabled" [] EmptyString])
  = (Some ValueError,
     snd (fill_list platform [task "A" true true "enabled" [] EmptyString] [])).
Proof.
  refine (proj1 (proj2
            (X11_task_listing_stops_at_a_bad_task platform
               [task "A" true true "enabled" [] EmptyString]
               [task "C" true true "enabled" [] EmptyString]
               (<["hour" := JStr "nine"]> (task "B" true true "enabled" [] EmptyString))
               _ _)) ValueError _);
    vm_compute; reflexivity.
Defined.

Lemma X12_new_task_is_due_at_midnight_witness :
  exists t,
    tasks (snd (task_new platform cfg ["pvp"] (tab None (form_at "7")) (world [])))
    = [] ++ [t]
    /\ due platform t midnight = true.
Proof.
  generalize (X12_new_task_is_due_at_midnight platform cfg ["pvp"]
                (tab None (form_at "7")) (world []) midnight eq_refl eq_refl).
  destruct (task_new platform cfg ["pvp"] (tab None (form_at "7")) (world []))
    as [[r ui'] w'].
  intros (t & Ht & Hdue & _). exists t. split; [exact Ht|exact Hdue].
Defined.

Lemma X13_rejected_form_changes_nothing_witness :
  let out := task_save platform cfg (tab (Some 0%nat) (form_at "25"))
               (world [task "A" true true "enabled" [] EmptyString]) in
  snd (fst out) = tab (Some 0%nat) (form_at "25")
  /\ snd out = world [task "A" true true "enabled" [] EmptyString].
Proof.
  refine (X13_rejected_form_changes_nothing platform cfg
            (tab (Some 0%nat) (form_at "25")) _
            (world [task "A" true true "enabled" [] EmptyString]) _
            (ShowError "Invalid time" "Hour must be 0-23 and Minute must be 0-59.") _ _);
    [vm_compute; reflexivity|discriminate].
Defined.

Lemma X14_saved_task_is_well_formed_witness :
  let out := task_save platform cfg (tab (Some 0%nat) (form_at "7"))
               (world [task "A" true true "enabled" [] "2026-11-03 09:00"]) in
  last_save (trace (snd out)) = Some (tasks (snd out)).
Proof.
  destruct (X14_saved_task_is_well_formed platform cfg
              (tab (Some 0%nat) (form_at "7"))
              (snd (fst (task_save platform cfg (tab (Some 0%nat) (form_at "7"))
                           (world [task "A" true true "enabled" [] "2026-11-03 09:00"]))))
              (world [task "A" true true "enabled" [] "2026-11-03 09:00"])
              (snd (task_save platform cfg (tab (Some 0%nat) (form_at "7"))
                      (world [task "A" true true "enabled" [] "2026-11-03 09:00"]))))
    as (idx & t & hh & mm & days & mode & names & H).
  - vm_compute. reflexivity.
  - cbv zeta in *. apply H.
Defined.

Lemma X16_run_now_does_not_stamp_witness :
  tasks (snd (task_run_now platform cfg true (tab (Some 0%nat) (form_at "7"))
                (world [task "A" false true "enabled" [] "2026-11-03 09:00"])))
  = [task "A" false true "enabled" [] "2026-11-03 09:00"].
Proof.
  refine (proj1 (proj2
            (X16_run_now_does_not_stamp platform cfg true
               (tab (Some 0%nat) (form_at "7")) _
               (world [task "A" false true "enabled" [] "2026-11-03 09:00"]) _ _ _))).
  apply triple_eta.
Defined.

Lemma X17_delete_removes_the_selected_task_witness :
  tasks (snd (task_delete platform true (tab (Some 0%nat) (form_at "7"))
                (world [task "A" true true "enabled" [] EmptyString;
                        task "C" true true "enabled" [] EmptyString])))
  = delete 0%nat [task "A" true true "enabled" [] EmptyString;
                  task "C" true true "enabled" [] EmptyString].
Proof.
  refine (proj1
            (X17_delete_removes_the_selected_task platform true
               (tab (Some 0%nat) (form_at "7")) _
               (world [task "A" true true "enabled" [] EmptyString;
                       task "C" true true "enabled" [] EmptyString]) _ _
               0%nat (task "A" true true "enabled" [] EmptyString) _ _ _));
    [reflexivity|reflexivity|apply triple_eta].
Defined.

Lemma X18_selection_stays_in_range_witness :
  selection_ok (tab (Some 0%nat) (form_at "7"))
    (_tick platform cfg true now (world [task "A" true true "enabled" [] EmptyString])).
Proof.
  refine (proj2 (proj2 (proj2 (proj2
            (X18_selection_stays_in_range platform cfg (tab (Some 0%nat) (form_at "7"))
               (world [task "A" true true "enabled" [] EmptyString]) _)))) true now).
  intros i Hi. inversion Hi. cbn. lia.
Defined.

Lemma X21_one_bad_port_fails_the_load_witness :
  load_profiles platform
    (JObj [("profiles",
            JList ([profile_dict main_profile]
                   ++ JObj [("name", JStr "test"); ("port", JStr "ftp")] :: []))])
  = inl ValueError.
Proof.
  refine (X21_one_bad_port_fails_the_load platform [profile_dict main_profile] []
            [("name", JStr "test"); ("port", JStr "ftp")] ValueError
            [loaded_profile main_profile] _ _);
    vm_compute; reflexivity.
Defined.

End MoreExamples.
